(** * bhtom_photometry: differential photometry against comparison stars

    A shallow embedding of the matching and reduction core of the repository
    (process_photometry.py, compare_photometry.py, convert_to_flux.py,
    convert_to_diffmag.py, and the filter gate of app.py), with the
    properties of its specification stated and proved over it.

    Conventions of the embedding.

    - A Python [float] column of a parsed catalog can hold any IEEE value, and
      the code guards against the special ones ([np.isfinite], range masks),
      so catalog columns are [pyfloat]: an exact rational, an infinity, or
      NaN, compared the way IEEE compares them.
    - Timestamps (MJD) and tolerances are ordinary numbers; they are
      rationals [Q] and arithmetic on them is exact (rounding is not
      modelled). [mag_to_flux] uses a power and a logarithm and is stated
      over the real numbers.
    - A pandas DataFrame with its default RangeIndex is the list of its rows;
      the label of a row is its position.
    - A Python dict is the list of its items in insertion order.
    - An exception is a result of its own ([Raise], [Raised]); printing is
      left out.
    - [astropy]'s great-circle separation is a parameter of the development,
      a function from two positions to a number of arcseconds; what
      [SkyCoord] does with a coordinate that is not a number of degrees on
      the sky (it refuses a declination beyond the poles, and the
      separation from a position that is not finite is NaN) is written out
      around it. pandas' [sort_values] is an interface with its two
      guarantees, and so are [str.upper], the text of a float, and the
      statistics and the drawing behind the plot.

    The file has the embedding first, module by source file; then the
    vocabulary the properties are stated in, with sample data; then the
    lemmas and the properties; and last the properties at concrete
    inputs. *)

From Stdlib Require Import Reals Lra.
From Stdlib Require Import Ascii String.
From Stdlib Require Import QArith Qabs Qround Lqa.
From Stdlib Require Import ZArith List Bool Lia Permutation Sorted.
From Stdlib Require OrdersEx.
Import ListNotations.

Local Open Scope Q_scope.

(* ================================================================== *)
(** ** Python and numpy primitives *)
(* ================================================================== *)

(** Python's [a < b] and [a > b] on numbers, next to [Qle_bool] for [<=]. *)
Definition Qltb (a b : Q) : bool := negb (Qle_bool b a).
Definition Qgtb (a b : Q) : bool := Qltb b a.

Module PyFloat.

(** The values of a float column. *)
Inductive pyfloat : Type :=
| Fin (q : Q)
| PInf
| NInf
| NaN.

(** [x <= y]: false as soon as one side is NaN. *)
Definition leb (x y : pyfloat) : bool :=
  match x, y with
  | NaN, _ => false
  | _, NaN => false
  | NInf, _ => true
  | _, PInf => true
  | Fin a, Fin b => Qle_bool a b
  | Fin _, NInf => false
  | PInf, Fin _ => false
  | PInf, NInf => false
  end.

(** [x < y]. *)
Definition ltb (x y : pyfloat) : bool :=
  match x, y with
  | NaN, _ => false
  | _, NaN => false
  | NInf, NInf => false
  | NInf, _ => true
  | PInf, _ => false
  | Fin _, PInf => true
  | Fin a, Fin b => Qltb a b
  | Fin _, NInf => false
  end.

Definition geb (x y : pyfloat) : bool := leb y x.
Definition gtb (x y : pyfloat) : bool := ltb y x.

(** [np.isfinite]. *)
Definition isfinite (x : pyfloat) : bool :=
  match x with
  | Fin _ => true
  | _ => false
  end.

(** [np.isnan]. *)
Definition isnan (x : pyfloat) : bool :=
  match x with
  | NaN => true
  | _ => false
  end.

(** [x - y] on float columns; finite values subtract exactly. *)
Definition sub (x y : pyfloat) : pyfloat :=
  match x, y with
  | NaN, _ => NaN
  | _, NaN => NaN
  | Fin a, Fin b => Fin (a - b)
  | Fin _, PInf => NInf
  | Fin _, NInf => PInf
  | PInf, PInf => NaN
  | PInf, _ => PInf
  | NInf, NInf => NaN
  | NInf, _ => NInf
  end.

(** The sign of a float: [-1], [0] or [1]. *)
Definition Qsign (a : Q) : Z := Z.sgn (Qnum a).

(** [x + y] and [x * y]. *)
Definition add (x y : pyfloat) : pyfloat :=
  match x, y with
  | NaN, _ => NaN
  | _, NaN => NaN
  | Fin a, Fin b => Fin (a + b)
  | PInf, NInf => NaN
  | NInf, PInf => NaN
  | PInf, _ => PInf
  | _, PInf => PInf
  | NInf, _ => NInf
  | _, NInf => NInf
  end.

Definition signed_infinity (sign : Z) : pyfloat :=
  match sign with
  | Z0 => NaN
  | Zpos _ => PInf
  | Zneg _ => NInf
  end.

Definition mul (x y : pyfloat) : pyfloat :=
  match x, y with
  | NaN, _ => NaN
  | _, NaN => NaN
  | Fin a, Fin b => Fin (a * b)
  | Fin a, PInf => signed_infinity (Qsign a)
  | Fin a, NInf => signed_infinity (- Qsign a)
  | PInf, Fin b => signed_infinity (Qsign b)
  | NInf, Fin b => signed_infinity (- Qsign b)
  | PInf, PInf => PInf
  | NInf, NInf => PInf
  | PInf, NInf => NInf
  | NInf, PInf => NInf
  end.

End PyFloat.
Import PyFloat.

Module Numpy.

(** [np.argmin] over a one-dimensional array of numbers: a single pass
    that moves to a new element only when it is not [>=] the best so
    far, so the first occurrence of the minimum wins. *)
Fixpoint argmin_loop (mp : Q) (min_ind i : nat) (ip : list Q) : nat :=
  match ip with
  | [] => min_ind
  | x :: rest =>
      if negb (Qle_bool mp x)
      then argmin_loop x i (S i) rest
      else argmin_loop mp min_ind (S i) rest
  end.

(** [None] stands for the [ValueError] raised on an empty sequence. *)
Definition argmin (a : list Q) : option nat :=
  match a with
  | [] => None
  | x :: rest => Some (argmin_loop x 0%nat 1%nat rest)
  end.

(** The same pass over floats that can be NaN: numpy's loop moves on
    when the element is not [>=] the best so far, which holds of a NaN,
    and stops at the first NaN it meets, so a NaN counts as the least
    value and the first one wins. *)
Fixpoint argmin_float_loop (mp : pyfloat) (min_ind i : nat) (ip : list pyfloat)
  : nat :=
  match ip with
  | [] => min_ind
  | x :: rest =>
      if negb (geb x mp)
      then if isnan x then i else argmin_float_loop x i (S i) rest
      else argmin_float_loop mp min_ind (S i) rest
  end.

Definition argmin_float (a : list pyfloat) : option nat :=
  match a with
  | [] => None
  | x :: rest => Some (if isnan x then 0%nat else argmin_float_loop x 0%nat 1%nat rest)
  end.

(** [Series.min()] and [Series.max()]; [None] on an empty column (pandas
    gives NaN there, and every comparison with it is false). *)
Fixpoint min_from (m : Q) (l : list Q) : Q :=
  match l with
  | [] => m
  | x :: rest => min_from (if Qltb x m then x else m) rest
  end.

Fixpoint max_from (m : Q) (l : list Q) : Q :=
  match l with
  | [] => m
  | x :: rest => max_from (if Qltb m x then x else m) rest
  end.

Definition series_min (l : list Q) : option Q :=
  match l with
  | [] => None
  | x :: rest => Some (min_from x rest)
  end.

Definition series_max (l : list Q) : option Q :=
  match l with
  | [] => None
  | x :: rest => Some (max_from x rest)
  end.

End Numpy.
Import Numpy.

(** A DataFrame with a RangeIndex: every row with its label. *)
Definition with_index {A : Type} (df : list A) : list (nat * A) :=
  combine (seq 0 (length df)) df.

(** [df.iloc[i]]; [None] stands for the [IndexError]. *)
Definition iloc {A : Type} (df : list A) (i : nat) : option A := nth_error df i.

(** Exceptions the modelled code can raise, and results that carry them. *)
Inductive exn : Type :=
| ValueError
| IndexError.

Inductive result (A : Type) : Type :=
| Ok (a : A)
| Raise (e : exn).
Arguments Ok {A} a.
Arguments Raise {A} e.

(** Why a pass through a loop body appends nothing: the warning printed
    before a [continue] in process_photometry.py, or the closest partner
    lying outside the time threshold in compare_photometry.py. *)
Inductive skip : Type :=
| OutsidePositionRange
| CompsNotFound
| AsteroidNotFound
| ObjectsNotFound
| InvalidMagnitude
| OutsideTimeThreshold.

(** One pass through the body of a [for] loop that appends to [results]:
    it appends a row, appends nothing, or raises. *)
Inductive iteration (A : Type) : Type :=
| Append (a : A)
| Continue (w : skip)
| Raised (e : exn).
Arguments Append {A} a.
Arguments Continue {A} w.
Arguments Raised {A} e.

Fixpoint for_each {A R : Type} (body : A -> iteration R) (items : list A)
  (results : list R) : result (list R) :=
  match items with
  | [] => Ok results
  | item :: rest =>
      match body item with
      | Append r => for_each body rest (results ++ [r])
      | Continue _ => for_each body rest results
      | Raised e => Raise e
      end
  end.

(** [DataFrame.sort_values(column)]: pandas promises a rearrangement of the
    rows in ascending order of the column; the order among equal keys
    depends on the sorting algorithm and is left open. *)
Class PandasSort : Type := {
  sort_values : forall {A : Type}, (A -> Q) -> list A -> list A;
  sort_values_perm :
    forall (A : Type) (key : A -> Q) (l : list A),
      Permutation (sort_values key l) l;
  sort_values_sorted :
    forall (A : Type) (key : A -> Q) (l : list A),
      StronglySorted (fun a b => key a <= key b) (sort_values key l)
}.

(** A dict as the list of its items; [d[k] = v]. *)
Fixpoint dict_setitem {V : Type} (d : list (Z * V)) (k : Z) (v : V)
  : list (Z * V) :=
  match d with
  | [] => [(k, v)]
  | (k', v') :: rest =>
      if Z.eqb k' k then (k', v) :: rest else (k', v') :: dict_setitem rest k v
  end.

(** [str.upper()]. Python maps every cased character of Unicode to its
    upper case, and the text can grow (the sharp s becomes SS). A [string]
    here is the text in UTF-8; what is fixed of [upper] is what it does to
    text of ASCII characters, where it changes the letters a-z and nothing
    else. The rest is left to Python. *)
Definition upper_ascii (c : ascii) : ascii :=
  let n := nat_of_ascii c in
  if (97 <=? n)%nat && (n <=? 122)%nat then ascii_of_nat (n - 32) else c.

Fixpoint ascii_upper (s : string) : string :=
  match s with
  | EmptyString => EmptyString
  | String c rest => String (upper_ascii c) (ascii_upper rest)
  end.

(** [str.isascii()]: every byte of the text is below 128. *)
Fixpoint isascii (s : string) : bool :=
  match s with
  | EmptyString => true
  | String c rest => (nat_of_ascii c <? 128)%nat && isascii rest
  end.

Class StrUpper : Type := {
  upper : string -> string;
  upper_isascii : forall s, isascii s = true -> upper s = ascii_upper s
}.

(** A Python value used as a condition: [None] and [''] are false. *)
Definition truthy (s : option string) : bool :=
  match s with
  | None => false
  | Some s => negb (String.eqb s EmptyString)
  end.

(* ================================================================== *)
(** ** process_photometry.py *)
(* ================================================================== *)

Module ProcessPhotometry.

(** A row of an epoch catalog, with the columns [download_photometry_file]
    names when it parses the file. *)
Record SourceDetection : Type := {
  NUMBER : Z;
  ALPHA_J2000 : pyfloat;
  DELTA_J2000 : pyfloat;
  XWIN_IMAGE : pyfloat;
  YWIN_IMAGE : pyfloat;
  MAG_AUTO : pyfloat;
  MAGERR_AUTO : pyfloat
}.

(** The mapping under the ['calibration_data'] key; the ['band'] entry may
    be missing. *)
Record CalibrationData : Type := {
  band : option string
}.

(** The value stored per data id: [{'df', 'mjd', 'calibration_data'}]. *)
Record EpochData : Type := {
  df : list SourceDetection;
  mjd : Q;
  calibration_data : option CalibrationData
}.

Definition PhotometryData : Type := list (Z * EpochData).

(** [{'ra': ..., 'dec': ...}] and the comparison stars of [objects]. *)
Record Coords : Type := {
  ra : pyfloat;
  dec : pyfloat
}.

Record CompStars : Type := {
  comp1 : Coords;
  comp2 : Coords
}.

(** A row of the ephemeris table [positions_df]. *)
Record Position : Type := {
  pos_MJD : Q;
  pos_RA : pyfloat;
  pos_DEC : pyfloat
}.

(** The rows of the two result tables. *)
Record PhotometryRecord : Type := {
  MJD : Q;
  TARGET_RA : pyfloat;
  TARGET_DEC : pyfloat;
  TARGET_SEP : pyfloat;
  TARGET_MAG : pyfloat;
  TARGET_MAGERR : pyfloat;
  COMP1_MAG : pyfloat;
  COMP2_MAG : pyfloat
}.

Record AsteroidRecord : Type := {
  AST_MJD : Q;
  AST_RA : pyfloat;
  AST_DEC : pyfloat;
  AST_SEP : pyfloat;
  AST_MAG : pyfloat;
  AST_MAGERR : pyfloat;
  AST_COMP1_MAG : pyfloat;
  AST_COMP2_MAG : pyfloat
}.

(** The mask of [find_nearest_object]:
    [(DELTA >= -90) & (DELTA <= 90) & (ALPHA >= 0) & (ALPHA < 360)]. *)
Definition valid_mask (row : SourceDetection) : bool :=
  geb (DELTA_J2000 row) (Fin (-90))
  && leb (DELTA_J2000 row) (Fin 90)
  && geb (ALPHA_J2000 row) (Fin 0)
  && ltb (ALPHA_J2000 row) (Fin 360).

(** The default of the [max_distance] argument, and the radius used for
    the asteroid. *)
Definition default_max_distance : Q := 5.
Definition asteroid_max_distance : Q := 20.

Section Matching.

(** [SkyCoord(ra, dec).separation(SkyCoord(alpha, delta)).arcsec] for
    coordinates that are numbers of degrees. *)
Variable separation : pyfloat -> pyfloat -> pyfloat -> pyfloat -> Q.

Context {pandas_sort : PandasSort}.

(** [SkyCoord(ra=ra*u.degree, dec=dec*u.degree)] of one position: astropy
    raises ValueError for a declination below -90 or above 90 degrees, the
    infinities included; a NaN passes the two comparisons, and the right
    ascension is not checked. *)
Definition SkyCoord (ra dec : pyfloat) : result (pyfloat * pyfloat) :=
  if ltb dec (Fin (-90)) || gtb dec (Fin 90) then Raise ValueError
  else Ok (ra, dec).

(** [target.separation(coords).arcsec] at one row of [coords]: NaN as
    soon as a coordinate is not finite. *)
Definition separation_arcsec (target : pyfloat * pyfloat) (alpha delta : pyfloat)
  : pyfloat :=
  let (ra, dec) := target in
  if isfinite ra && isfinite dec && isfinite alpha && isfinite delta
  then Fin (separation ra dec alpha delta)
  else NaN.

(** The rows that pass the mask make a [SkyCoord] without fail; the one of
    the reference position can raise. [np.argmin] raises only on an empty
    array, which [valid_coords] is not at that point. *)
Definition find_nearest_object (df : list SourceDetection) (ra dec : pyfloat)
  (max_distance : Q) : result (option (nat * pyfloat)) :=
  let valid_coords := filter (fun r => valid_mask (snd r)) (with_index df) in
  match valid_coords with
  | [] => Ok None
  | first_row :: _ =>
      match SkyCoord ra dec with
      | Raise e => Raise e
      | Ok target =>
          let seps :=
            map (fun r => separation_arcsec target (ALPHA_J2000 (snd r))
                            (DELTA_J2000 (snd r)))
                valid_coords in
          match argmin_float seps with
          | None => Raise ValueError
          | Some min_idx =>
              let min_sep := nth min_idx seps NaN in
              if gtb min_sep (Fin max_distance) then Ok None
              else
                let original_idx := fst (nth min_idx valid_coords first_row) in
                Ok (Some (original_idx, min_sep))
          end
      end
  end.

Definition find_nearest_mjd_position (positions_df : list Position) (mjd : Q)
  : result (pyfloat * pyfloat) :=
  match argmin (map (fun p => Qabs (pos_MJD p - mjd)) positions_df) with
  | None => Raise ValueError
  | Some idx =>
      match iloc positions_df idx with
      | None => Raise IndexError
      | Some row => Ok (pos_RA row, pos_DEC row)
      end
  end.

(** [mjd < mjd_min or mjd > mjd_max]; the bounds of an empty ephemeris are
    NaN and compare false. *)
Definition outside_position_range (mjd : Q) (mjd_min mjd_max : option Q) : bool :=
  match mjd_min with Some m => Qltb mjd m | None => false end
  || match mjd_max with Some m => Qgtb mjd m | None => false end.

(** [all(np.isfinite([...]))]. *)
Definition all_finite (values : list pyfloat) : bool := forallb isfinite values.

(** The body of the loop of [process_asteroid_photometry]; [positions_df]
    is the sorted table. The calls are made in the order of the source, and
    the first one that raises ends the loop. *)
Definition asteroid_iteration (positions_df : list Position)
  (mjd_min mjd_max : option Q) (objects : CompStars) (data : EpochData)
  : iteration AsteroidRecord :=
  let mjd := mjd data in
  let df := df data in
  if outside_position_range mjd mjd_min mjd_max then Continue OutsidePositionRange
  else
    match find_nearest_object df (ra (comp1 objects)) (dec (comp1 objects))
            default_max_distance with
    | Raise e => Raised e
    | Ok comp1_found =>
        match find_nearest_object df (ra (comp2 objects)) (dec (comp2 objects))
                default_max_distance with
        | Raise e => Raised e
        | Ok comp2_found =>
            match comp1_found, comp2_found with
            | Some (comp1_idx, comp1_sep), Some (comp2_idx, comp2_sep) =>
                match find_nearest_mjd_position positions_df mjd with
                | Raise e => Raised e
                | Ok (ast_ra, ast_dec) =>
                    match find_nearest_object df ast_ra ast_dec
                            asteroid_max_distance with
                    | Raise e => Raised e
                    | Ok None => Continue AsteroidNotFound
                    | Ok (Some (ast_idx, ast_sep)) =>
                        match iloc df ast_idx, iloc df comp1_idx,
                              iloc df comp2_idx with
                        | Some ast_row, Some comp1_row, Some comp2_row =>
                            let ast_mag := MAG_AUTO ast_row in
                            let ast_magerr := MAGERR_AUTO ast_row in
                            let comp1_mag := MAG_AUTO comp1_row in
                            let comp2_mag := MAG_AUTO comp2_row in
                            if negb (all_finite [ast_mag; ast_magerr;
                                                 comp1_mag; comp2_mag])
                            then Continue InvalidMagnitude
                            else Append {| AST_MJD := mjd;
                                           AST_RA := ast_ra;
                                           AST_DEC := ast_dec;
                                           AST_SEP := ast_sep;
                                           AST_MAG := ast_mag;
                                           AST_MAGERR := ast_magerr;
                                           AST_COMP1_MAG := comp1_mag;
                                           AST_COMP2_MAG := comp2_mag |}
                        | _, _, _ => Raised IndexError
                        end
                    end
                end
            | _, _ => Continue CompsNotFound
            end
        end
    end.

Definition process_asteroid_photometry (photometry_data : PhotometryData)
  (positions_df : list Position) (objects : CompStars)
  : result (list AsteroidRecord) :=
  let positions_df := sort_values pos_MJD positions_df in
  let mjd_min := series_min (map pos_MJD positions_df) in
  let mjd_max := series_max (map pos_MJD positions_df) in
  for_each (fun item => asteroid_iteration positions_df mjd_min mjd_max objects (snd item))
    photometry_data [].

(** The body of the loop of [process_static_object_photometry]. *)
Definition static_iteration (target_coords : Coords) (comp_stars : CompStars)
  (data : EpochData) : iteration PhotometryRecord :=
  let mjd := mjd data in
  let df := df data in
  match find_nearest_object df (ra target_coords) (dec target_coords)
          default_max_distance with
  | Raise e => Raised e
  | Ok target_found =>
      match find_nearest_object df (ra (comp1 comp_stars)) (dec (comp1 comp_stars))
              default_max_distance with
      | Raise e => Raised e
      | Ok comp1_found =>
          match find_nearest_object df (ra (comp2 comp_stars))
                  (dec (comp2 comp_stars)) default_max_distance with
          | Raise e => Raised e
          | Ok comp2_found =>
              match target_found, comp1_found, comp2_found with
              | Some (target_idx, target_sep), Some (comp1_idx, comp1_sep),
                Some (comp2_idx, comp2_sep) =>
                  match iloc df target_idx, iloc df comp1_idx,
                        iloc df comp2_idx with
                  | Some target_row, Some comp1_row, Some comp2_row =>
                      let target_mag := MAG_AUTO target_row in
                      let target_magerr := MAGERR_AUTO target_row in
                      let comp1_mag := MAG_AUTO comp1_row in
                      let comp2_mag := MAG_AUTO comp2_row in
                      if negb (all_finite [target_mag; target_magerr;
                                           comp1_mag; comp2_mag])
                      then Continue InvalidMagnitude
                      else Append {| MJD := mjd;
                                     TARGET_RA := ALPHA_J2000 target_row;
                                     TARGET_DEC := DELTA_J2000 target_row;
                                     TARGET_SEP := target_sep;
                                     TARGET_MAG := target_mag;
                                     TARGET_MAGERR := target_magerr;
                                     COMP1_MAG := comp1_mag;
                                     COMP2_MAG := comp2_mag |}
                  | _, _, _ => Raised IndexError
                  end
              | _, _, _ => Continue ObjectsNotFound
              end
          end
      end
  end.

Definition process_static_object_photometry (photometry_data : PhotometryData)
  (target_coords : Coords) (comp_stars : CompStars)
  : result (list PhotometryRecord) :=
  for_each (fun item => static_iteration target_coords comp_stars (snd item))
    photometry_data [].

End Matching.

(** The time axis of [plot_magnitude_ratios]: [time_offset] and the
    [TIME_HOURS] column; [None] for an empty table. *)
Definition plot_time_offset (results : list PhotometryRecord) : option Q :=
  series_min (map MJD results).

Definition plot_TIME_HOURS (results : list PhotometryRecord) : option (list Q) :=
  match plot_time_offset results with
  | None => None
  | Some time_offset => Some (map (fun r => (MJD r - time_offset) * 24) results)
  end.

(** [calibration_data.get('band', '')] after
    [data_dict.get('calibration_data', {})]. *)
Definition get_band (data_dict : EpochData) : string :=
  match calibration_data data_dict with
  | None => EmptyString
  | Some calibration =>
      match band calibration with
      | None => EmptyString
      | Some b => b
      end
  end.

Section Bands.

Context {str_upper : StrUpper}.

Definition filter_photometry_data (photometry_data : PhotometryData)
  (filter_name : option string) : PhotometryData :=
  match filter_name with
  | None => photometry_data
  | Some name =>
      fold_left
        (fun filtered_data item =>
           if String.eqb (upper (get_band (snd item))) (upper name)
           then dict_setitem filtered_data (fst item) (snd item)
           else filtered_data)
        photometry_data []
  end.

(** The filtering step of [main]: [if args.filter: ...]. *)
Definition main_filter (photometry_data : PhotometryData)
  (args_filter : option string) : PhotometryData :=
  if truthy args_filter
  then filter_photometry_data photometry_data args_filter
  else photometry_data.

End Bands.

End ProcessPhotometry.

(* ================================================================== *)
(** ** app.py: how the requested filter reaches process_photometry.py *)
(* ================================================================== *)

Module App.

(** [run_pipeline] adds [--filter filter_name] to the command line only
    [if filter_name and filter_name != 'all']; the result is the value of
    [args.filter] in [process_photometry.main] (default [None]). *)
Definition filter_argument (filter_name : option string) : option string :=
  match filter_name with
  | None => None
  | Some name =>
      if truthy filter_name && negb (String.eqb name "all") then Some name
      else None
  end.

(** The epochs that [process_photometry.main] reduces when the pipeline is
    started with [filter_name]. *)
Definition pipeline_filter {str_upper : StrUpper}
  (photometry_data : ProcessPhotometry.PhotometryData)
  (filter_name : option string) : ProcessPhotometry.PhotometryData :=
  ProcessPhotometry.main_filter photometry_data (filter_argument filter_name).

End App.

(* ================================================================== *)
(** ** compare_photometry.py *)
(* ================================================================== *)

Module ComparePhotometry.

Import ProcessPhotometry.

(** A row of the externally supplied light curve, and its [MJD] column. *)
Record OtherRow : Type := {
  JD_UTC : Q;
  rel_flux_T1 : Q;
  rel_flux_C2 : Q;
  rel_flux_C3 : Q
}.

Definition other_MJD (row : OtherRow) : Q := JD_UTC row - 2400000.5.

(** An entry of [matching_pairs]. *)
Record Pair : Type := {
  MJD_our : Q;
  pair_TARGET_MAG : pyfloat;
  pair_TARGET_MAGERR : pyfloat;
  pair_COMP1_MAG : pyfloat;
  pair_COMP2_MAG : pyfloat;
  MJD_other : Q;
  pair_rel_flux_T1 : Q;
  pair_rel_flux_C2 : Q;
  pair_rel_flux_C3 : Q
}.

(** Python's [int(x)] on a float: truncation toward zero. *)
Definition py_int (x : Q) : Z := Z.quot (Qnum x) (Zpos (Qden x)).

(** Python's [min(a, b)]. *)
Definition py_min (a b : Q) : Q := if Qltb b a then b else a.

(** [int(min(results['MJD'].min(), other['MJD'].min()))]; [None] when a
    table is empty. *)
Definition time_offset (results : list PhotometryRecord) (other : list OtherRow)
  : option Z :=
  match series_min (map MJD results), series_min (map other_MJD other) with
  | Some a, Some b => Some (py_int (py_min a b))
  | _, _ => None
  end.

(** 180 seconds converted to days. *)
Definition TIME_THRESHOLD : Q := 180 / (24 * 3600).

(** The body of the matching loop for one row of [results]. *)
Definition match_row (other : list OtherRow) (our_row : PhotometryRecord)
  : iteration Pair :=
  let time_diff := map (fun o => Qabs (other_MJD o - MJD our_row)) other in
  match argmin time_diff with
  | None => Raised ValueError
  | Some min_diff_idx =>
      match nth_error time_diff min_diff_idx, iloc other min_diff_idx with
      | Some min_diff, Some partner =>
          if Qle_bool min_diff TIME_THRESHOLD
          then Append {| MJD_our := MJD our_row;
                         pair_TARGET_MAG := TARGET_MAG our_row;
                         pair_TARGET_MAGERR := TARGET_MAGERR our_row;
                         pair_COMP1_MAG := COMP1_MAG our_row;
                         pair_COMP2_MAG := COMP2_MAG our_row;
                         MJD_other := other_MJD partner;
                         pair_rel_flux_T1 := rel_flux_T1 partner;
                         pair_rel_flux_C2 := rel_flux_C2 partner;
                         pair_rel_flux_C3 := rel_flux_C3 partner |}
          else Continue OutsideTimeThreshold
      | _, _ => Raised IndexError
      end
  end.

Section Script.

Context {pandas_sort : PandasSort}.

(** The two tables after [sort_values(...).reset_index(drop=True)]. *)
Definition sorted_results (results : list PhotometryRecord) : list PhotometryRecord :=
  sort_values MJD results.

Definition sorted_other (other : list OtherRow) : list OtherRow :=
  sort_values JD_UTC other.

Definition matching_pairs (results : list PhotometryRecord) (other : list OtherRow)
  : result (list Pair) :=
  for_each (match_row (sorted_other other)) (sorted_results results) [].

End Script.

(** Elapsed time of the merged rows: [(merged[col] - time_offset) * 24]. *)
Definition time_hours_bht (time_offset : Z) (merged : list Pair) : list Q :=
  map (fun p => (MJD_our p - inject_Z time_offset) * 24) merged.

Definition time_hours_aij (time_offset : Z) (merged : list Pair) : list Q :=
  map (fun p => (MJD_other p - inject_Z time_offset) * 24) merged.

End ComparePhotometry.

(* ================================================================== *)
(** ** convert_to_diffmag.py *)
(* ================================================================== *)

Module ConvertToDiffmag.

Import ProcessPhotometry.

(** The three series the function returns next to the table, row by row:
    [JD_UTC], [diff_mag] and [error_diff_mag]. *)
Definition JD_UTC (row : PhotometryRecord) : Q := MJD row + 2400000.5.

Definition diff_mag (df : list PhotometryRecord) : list pyfloat :=
  map (fun row => sub (TARGET_MAG row) (COMP1_MAG row)) df.

Definition error_diff_mag (df : list PhotometryRecord) : list pyfloat :=
  map TARGET_MAGERR df.

Definition diff_mag_comp2 (df : list PhotometryRecord) : list pyfloat :=
  map (fun row => sub (TARGET_MAG row) (COMP2_MAG row)) df.

(** A data line of the output file before formatting: [jd], [dmag], [err]. *)
Record DiffmagLine : Type := {
  jd : Q;
  dmag : pyfloat;
  err : pyfloat
}.

(** The lines written for [i in range(len(df))], each from the [i]-th
    entries of the three series. *)
Definition output_lines (df : list PhotometryRecord) : list DiffmagLine :=
  map (fun i =>
         {| jd := nth i (map JD_UTC df) 0;
            dmag := nth i (diff_mag df) NaN;
            err := nth i (error_diff_mag df) NaN |})
      (seq 0 (length df)).

Definition convert_to_differential_magnitude (df : list PhotometryRecord)
  : list PhotometryRecord * list pyfloat * list pyfloat :=
  (df, diff_mag df, error_diff_mag df).

End ConvertToDiffmag.

(* ================================================================== *)
(** ** convert_to_flux.py *)
(* ================================================================== *)

Module ConvertToFlux.

Local Open Scope R_scope.

(** What [mag_to_flux] returns: the flux alone, or the pair with its error. *)
Inductive flux_result : Type :=
| Flux (flux : R)
| FluxWithError (flux flux_err : R).

(** [base ** x] and [np.log] on real numbers. *)
Definition pow (base x : R) : R := Rpower base x.
Definition log (x : R) : R := ln x.

(** The default of the [reference_flux] argument. *)
Definition default_reference_flux : R := 1.

Definition mag_to_flux (mag : R) (mag_err : option R) (reference_flux : R)
  : flux_result :=
  let flux := reference_flux * pow 10 (- mag / 2.5) in
  match mag_err with
  | Some mag_err =>
      let flux_err := flux * (log 10 / 2.5) * mag_err in
      FluxWithError flux flux_err
  | None => Flux flux
  end.

End ConvertToFlux.

(* ================================================================== *)
(** ** compare_photometry.py: a run of the script *)
(* ================================================================== *)

Module CompareScript.

Import ProcessPhotometry ComparePhotometry.

(** How a run ends when nothing raises: [exit(1)] for want of pairs, or the
    figure drawn from the merged table. *)
Inductive script_end : Type :=
| Exit (code : Z)
| Plotted (time_offset : Z) (merged : list Pair).

(** [int(min(results['MJD'].min(), other['MJD'].min()))] as Python runs it:
    the minimum of an empty column is NaN, [min] keeps its first argument
    unless the second is smaller, and [int] of NaN raises [ValueError]. *)
Definition first_integer_mjd (results : list PhotometryRecord)
  (other : list OtherRow) : result Z :=
  match series_min (map MJD results) with
  | None => Raise ValueError
  | Some a =>
      match series_min (map other_MJD other) with
      | None => Ok (py_int a)
      | Some b => Ok (py_int (py_min a b))
      end
  end.

(** The differential magnitudes of the merged rows. *)
Definition bht_target_comp1 (merged : list Pair) : list pyfloat :=
  map (fun p => sub (pair_TARGET_MAG p) (pair_COMP1_MAG p)) merged.

Definition bht_target_comp2 (merged : list Pair) : list pyfloat :=
  map (fun p => sub (pair_TARGET_MAG p) (pair_COMP2_MAG p)) merged.

Definition bht_comp1_comp2 (merged : list Pair) : list pyfloat :=
  map (fun p => sub (pair_COMP1_MAG p) (pair_COMP2_MAG p)) merged.

Section Run.

Context {pandas_sort : PandasSort}.

(** The script from the two tables it reads to the point where it either
    exits or goes on to draw: sorting, the time offset, the first points
    it prints ([iloc[0]] of each table), the matching loop and the check
    for an empty merge. *)
Definition compare_photometry (results : list PhotometryRecord)
  (other : list OtherRow) : result script_end :=
  let sorted := sorted_results results in
  let sorted_aij := sorted_other other in
  match first_integer_mjd sorted sorted_aij with
  | Raise e => Raise e
  | Ok time_offset =>
      match iloc sorted 0, iloc sorted_aij 0 with
      | Some _, Some _ =>
          match matching_pairs results other with
          | Raise e => Raise e
          | Ok merged =>
              if (length merged =? 0)%nat then Ok (Exit 1)
              else Ok (Plotted time_offset merged)
          end
      | _, _ => Raise IndexError
      end
  end.

End Run.

End CompareScript.

(* ================================================================== *)
(** ** process_photometry.py: objects.dat and [main] *)
(* ================================================================== *)

(** [str.lower()] on ASCII text. *)
Definition lower_ascii (c : ascii) : ascii :=
  let n := nat_of_ascii c in
  if (65 <=? n)%nat && (n <=? 90)%nat then ascii_of_nat (n + 32) else c.

Fixpoint lower (s : string) : string :=
  match s with
  | EmptyString => EmptyString
  | String c rest => String (lower_ascii c) (lower rest)
  end.

(** [s.split(sep)] for a separator of one character. *)
Fixpoint split (sep : ascii) (s : string) : list string :=
  match s with
  | EmptyString => [EmptyString]
  | String c rest =>
      if Ascii.eqb c sep then EmptyString :: split sep rest
      else match split sep rest with
           | [] => [String c EmptyString]
           | part :: parts => String c part :: parts
           end
  end.

(** [c in s]. *)
Fixpoint has_char (c : ascii) (s : string) : bool :=
  match s with
  | EmptyString => false
  | String c' rest => Ascii.eqb c' c || has_char c rest
  end.

(** The text of a float in an f-string and [float(text)]: Python writes
    the shortest text that reads back as the same float, and the text
    holds no comma. *)
Class FloatText : Type := {
  float_repr : pyfloat -> string;
  float_of_string : string -> result pyfloat;
  float_of_repr : forall x, float_of_string (float_repr x) = Ok x;
  float_repr_no_comma : forall x, has_char "," (float_repr x) = false
}.

(** A dict with string keys: [d[k] = v], [d.get(k)] and [k in d]. *)
Fixpoint str_setitem {V : Type} (d : list (string * V)) (k : string) (v : V)
  : list (string * V) :=
  match d with
  | [] => [(k, v)]
  | (k', v') :: rest =>
      if String.eqb k' k then (k', v) :: rest
      else (k', v') :: str_setitem rest k v
  end.

Fixpoint str_getitem {V : Type} (d : list (string * V)) (k : string) : option V :=
  match d with
  | [] => None
  | (k', v') :: rest => if String.eqb k' k then Some v' else str_getitem rest k
  end.

Definition str_contains {V : Type} (d : list (string * V)) (k : string) : bool :=
  match str_getitem d k with
  | Some _ => true
  | None => false
  end.

(** [sorted(set(names))]: ascending, each name once. *)
Fixpoint insert_unique (s : string) (l : list string) : list string :=
  match l with
  | [] => [s]
  | x :: rest =>
      match String.compare s x with
      | Lt => s :: l
      | Eq => l
      | Gt => x :: insert_unique s rest
      end
  end.

Definition sorted_set (names : list string) : list string :=
  fold_right insert_unique [] names.

Module Main.

Import ProcessPhotometry.

(** A line of objects.dat as [read_csv] names its columns, for a file
    whose first column reads as text and whose other two as numbers. *)
Record ObjectRow : Type := {
  obj_Type : string;
  obj_RA : pyfloat;
  obj_DEC : pyfloat
}.

(** What [objects] holds under a name: the text written for the target,
    or the coordinates of a star. *)
Inductive object_value : Type :=
| TargetText (text : string)
| StarCoords (coords : Coords).

Definition Objects : Type := list (string * object_value).

(** What can go wrong in [main] besides the built-in errors of the
    reduction: a missing key, a method a value does not have, an index
    into a value that takes none. *)
Inductive error : Type :=
| Builtin (e : exn)
| KeyError
| AttributeError
| TypeError.

Inductive outcome (A : Type) : Type :=
| Returned (a : A)
| Threw (e : error).
Arguments Returned {A} a.
Arguments Threw {A} e.

(** How [main] returns. *)
Inductive main_end : Type :=
| NoDataForFilter (available_filters : list string)
| NoValidMeasurements
| Reduced (results : list PhotometryRecord) (TIME_HOURS : option (list Q)).

(** The error bars of a panel: one value per row, or one for all. *)
Inductive error_bars : Type :=
| PerRow (yerr : list pyfloat)
| Scalar (yerr : pyfloat).

(** What [plot_magnitude_ratios] takes from pandas and matplotlib:
    [Series.median()] and [Series.std()] of a column, where the standard
    deviation divides by the number of rows less one, so that the one of a
    single row is NaN; and [ax.errorbar(x, y, yerr=...)], which draws the
    points and can refuse its arguments ([Some] of what it raises). *)
Class Plotting : Type := {
  median : list pyfloat -> pyfloat;
  std : list pyfloat -> pyfloat;
  std_one_row : forall x, std [x] = NaN;
  errorbar : list Q -> list pyfloat -> error_bars -> option error
}.

(** [ax.set_ylim(bottom, top)]: matplotlib raises ValueError for a limit
    that is NaN or infinite. *)
Definition set_ylim (bottom top : pyfloat) : option error :=
  if isfinite bottom && isfinite top then None else Some (Builtin ValueError).

(** [np.sqrt(2)] as the float it is. *)
Definition sqrt_2 : Q := 6369051672525773 # 4503599627370496.

Section WithText.

Variable separation : pyfloat -> pyfloat -> pyfloat -> pyfloat -> Q.
Context {float_text : FloatText}.
Context {str_upper : StrUpper}.
Context {plotting : Plotting}.

(** One panel of the figure: the points with their error bars, the median
    line, and the limits of the y axis at [ylim_sigma_factor] standard
    deviations on either side of the median. Labels, grid, legend and text
    are left out, as printing is. *)
Definition panel (TIME_HOURS : list Q) (column : list pyfloat) (yerr : error_bars)
  (ylim_sigma_factor : pyfloat) : option error :=
  match errorbar TIME_HOURS column yerr with
  | Some e => Some e
  | None =>
      let median1 := median column in
      let std1 := std column in
      let ylim_range1 := mul ylim_sigma_factor std1 in
      set_ylim (add median1 ylim_range1) (sub median1 ylim_range1)
  end.

(** [plot_magnitude_ratios]: the three difference columns and the hours
    are added to the table, and the three panels drawn in turn; the value
    returned here is the [TIME_HOURS] column. Saving the figure is taken
    to succeed. *)
Definition plot_magnitude_ratios (results : list PhotometryRecord)
  (ylim_sigma_factor : pyfloat) : outcome (option (list Q)) :=
  let TARGET_COMP1 := map (fun r => sub (TARGET_MAG r) (COMP1_MAG r)) results in
  let TARGET_COMP2 := map (fun r => sub (TARGET_MAG r) (COMP2_MAG r)) results in
  let COMP1_COMP2 := map (fun r => sub (COMP1_MAG r) (COMP2_MAG r)) results in
  let TIME_HOURS := match plot_TIME_HOURS results with
                    | Some hours => hours
                    | None => []
                    end in
  let TARGET_MAGERR := map TARGET_MAGERR results in
  match panel TIME_HOURS TARGET_COMP1 (PerRow TARGET_MAGERR) ylim_sigma_factor with
  | Some e => Threw e
  | None =>
      match panel TIME_HOURS TARGET_COMP2 (PerRow TARGET_MAGERR)
              ylim_sigma_factor with
      | Some e => Threw e
      | None =>
          let comp_err := mul (Fin sqrt_2) (median TARGET_MAGERR) in
          match panel TIME_HOURS COMP1_COMP2 (Scalar comp_err)
                  ylim_sigma_factor with
          | Some e => Threw e
          | None => Returned (plot_TIME_HOURS results)
          end
      end
  end.

(** One pass of the loop over the rows of objects.dat. *)
Definition read_object (objects : Objects) (row : ObjectRow) : Objects :=
  let name := lower (obj_Type row) in
  let ra := obj_RA row in
  let dec := obj_DEC row in
  if String.eqb name "target"
  then str_setitem objects "target"
         (TargetText (name ++ "," ++ float_repr ra ++ "," ++ float_repr dec))
  else str_setitem objects name (StarCoords {| ra := ra; dec := dec |}).

Definition read_objects_data (rows : list ObjectRow) : result Objects :=
  let objects := fold_left read_object rows [] in
  if negb (str_contains objects "target")
     || negb (str_contains objects "comp1")
     || negb (str_contains objects "comp2")
  then Raise ValueError
  else Ok objects.

(** [objects[name]['ra']] and [objects[name]['dec']]. *)
Definition star_coords (objects : Objects) (name : string) : outcome Coords :=
  match str_getitem objects name with
  | None => Threw KeyError
  | Some (StarCoords coords) => Returned coords
  | Some (TargetText _) => Threw TypeError
  end.

(** [float(objects['target'].split(',')[i])]. *)
Definition target_field (objects : Objects) (i : nat) : outcome pyfloat :=
  match str_getitem objects "target" with
  | None => Threw KeyError
  | Some (StarCoords _) => Threw AttributeError
  | Some (TargetText text) =>
      match nth_error (split "," text) i with
      | None => Threw (Builtin IndexError)
      | Some field =>
          match float_of_string field with
          | Raise e => Threw (Builtin e)
          | Ok x => Returned x
          end
      end
  end.

(** [data_dict.get('calibration_data', {}).get('band', 'Unknown')]. *)
Definition band_or_unknown (data_dict : EpochData) : string :=
  match calibration_data data_dict with
  | None => "Unknown"
  | Some calibration =>
      match band calibration with
      | None => "Unknown"
      | Some b => b
      end
  end.

Definition available_filters (all_data : PhotometryData) : list string :=
  sorted_set (map (fun item => band_or_unknown (snd item)) all_data).

(** [main] from the rows of objects.dat, the unpickled epochs,
    [args.filter] and [args.ylim_sigma] to the way it returns: the objects
    are read and printed, the epochs filtered, the coordinates taken out of
    [objects], the reduction run and saved, and the light curve plotted.
    Reading and writing the files is taken to succeed. *)
Definition main (object_rows : list ObjectRow) (all_data : PhotometryData)
  (args_filter : option string) (args_ylim_sigma : pyfloat) : outcome main_end :=
  match read_objects_data object_rows with
  | Raise e => Threw (Builtin e)
  | Ok objects =>
      match str_getitem objects "target",
            star_coords objects "comp1", star_coords objects "comp2" with
      | None, _, _ => Threw KeyError
      | Some _, Threw e, _ => Threw e
      | Some _, Returned _, Threw e => Threw e
      | Some _, Returned comp1_coords, Returned comp2_coords =>
          let photometry_data := main_filter all_data args_filter in
          if truthy args_filter && (length photometry_data =? 0)%nat
          then Returned (NoDataForFilter (available_filters all_data))
          else
            match target_field objects 1 with
            | Threw e => Threw e
            | Returned target_ra =>
                match target_field objects 2 with
                | Threw e => Threw e
                | Returned target_dec =>
                    let target_coords := {| ra := target_ra; dec := target_dec |} in
                    let comp_stars :=
                      {| comp1 := comp1_coords; comp2 := comp2_coords |} in
                    match process_static_object_photometry separation
                            photometry_data target_coords comp_stars with
                    | Raise e => Threw (Builtin e)
                    | Ok results =>
                        if (length results =? 0)%nat
                        then Returned NoValidMeasurements
                        else
                          match plot_magnitude_ratios results args_ylim_sigma with
                          | Threw e => Threw e
                          | Returned TIME_HOURS =>
                              Returned (Reduced results TIME_HOURS)
                          end
                    end
                end
            end
      end
  end.

End WithText.

End Main.

(* ================================================================== *)
(** ** get_data_bhtom.py *)
(* ================================================================== *)

Module GetDataBhtom.

Import ProcessPhotometry.

(** The calibration data of a data product, with the two keys the code
    reads, and a record of the [data] list of a page. A calibration that
    is null or an empty dict is [None]: the code tests it for truth. *)
Record ApiCalibration : Type := {
  api_mjd : option Q;
  api_band : option string
}.

Record DataProduct : Type := {
  data_id : Z;
  row_calibration_data : option ApiCalibration
}.

(** The answer to a request for one page: the status, the list under
    [data] (empty when the key is missing) and [num_pages] when given. *)
Record Response : Type := {
  status_code : Z;
  data_list : list DataProduct;
  num_pages : option Z
}.

(** The answer to a request for a photometry file, with its text parsed
    by [read_csv]. *)
Record FileResponse : Type := {
  file_status_code : Z;
  file_rows : list SourceDetection
}.

(** Why [main] ends other than by returning. *)
Inductive stop : Type :=
| StopIteration.

Section Server.

(** The server: its answer to the request for each page, and for the
    photometry file of each data id. *)
Variable post : Z -> Response.
Variable post_file : Z -> FileResponse.

(** The [while True] loop of [get_data_products], from [page] on, with
    the pages gathered so far; [None] when [fuel] requests were not
    enough to leave it. *)
Fixpoint get_data_products_loop (fuel : nat) (page : Z)
  (dfs : list (list DataProduct)) : option (list (list DataProduct)) :=
  match fuel with
  | O => None
  | S fuel =>
      let response := post page in
      if negb (status_code response =? 200)%Z then Some dfs
      else
        let data_list := data_list response in
        match data_list with
        | [] => Some dfs
        | _ :: _ =>
            let dfs := dfs ++ [data_list] in
            let page := (page + 1)%Z in
            if (page >? match num_pages response with
                        | Some n => n
                        | None => 1
                        end)%Z
            then Some dfs
            else get_data_products_loop fuel page dfs
        end
  end.

(** [pd.concat(dfs, ignore_index=True) if dfs else pd.DataFrame()]. *)
Definition get_data_products (fuel : nat) : option (list DataProduct) :=
  match get_data_products_loop fuel 1 [] with
  | None => None
  | Some dfs => Some (concat dfs)
  end.

Definition download_photometry_file (data_id : Z) : list SourceDetection :=
  let response := post_file data_id in
  if negb (file_status_code response =? 200)%Z then []
  else file_rows response.

(** One pass of the loop of [process_all_data] over the data products. *)
Definition process_row (results : PhotometryData) (row : DataProduct)
  : PhotometryData :=
  match row_calibration_data row with
  | None => results
  | Some calibration_data =>
      match api_mjd calibration_data with
      | None => results
      | Some mjd =>
          let df := download_photometry_file (data_id row) in
          match df with
          | [] => results
          | _ :: _ =>
              dict_setitem results (data_id row)
                {| df := df; mjd := mjd;
                   calibration_data :=
                     Some {| band := api_band calibration_data |} |}
          end
      end
  end.

Definition process_all_data (fuel : nat) : option PhotometryData :=
  match get_data_products fuel with
  | None => None
  | Some data_products =>
      match data_products with
      | [] => Some []
      | _ :: _ => Some (fold_left process_row data_products [])
      end
  end.

(** [main] after its arguments are read: what it pickles, and the data id
    it prints last or the exception it ends with. The time range is part
    of the requests, which [post] answers. *)
Definition main (fuel : nat) : option (PhotometryData * (Z + stop)) :=
  match process_all_data fuel with
  | None => None
  | Some results =>
      Some (results,
            match results with
            | [] => inr StopIteration
            | (first_id, _) :: _ => inl first_id
            end)
  end.

End Server.

End GetDataBhtom.

(* ================================================================== *)
(** ** app.py: the jobs of the web interface *)
(* ================================================================== *)

Definition newline : ascii := "010"%char.

(** The characters [str.split()] separates words at (ASCII). *)
Definition is_space (c : ascii) : bool :=
  let n := nat_of_ascii c in
  ((9 <=? n)%nat && (n <=? 13)%nat) || ((28 <=? n)%nat && (n <=? 32)%nat).

(** [s.split()]: the words of [s]. *)
Fixpoint split_whitespace (s : string) : list string :=
  match s with
  | EmptyString => []
  | String c rest =>
      let words := split_whitespace rest in
      if is_space c then words
      else
        match rest with
        | EmptyString => [String c EmptyString]
        | String c' _ =>
            if is_space c' then String c EmptyString :: words
            else
              match words with
              | word :: words' => String c word :: words'
              | [] => [String c EmptyString]
              end
        end
  end.

(** [needle in s]. *)
Fixpoint contains (needle s : string) : bool :=
  String.prefix needle s
  || match s with
     | EmptyString => false
     | String _ rest => contains needle rest
     end.

Module Pipeline.

(** A value of the JSON body of a request, as Python holds it. *)
#[warnings="-register-all"] Inductive json : Type :=
| JNull
| JBool (b : bool)
| JInt (n : Z)
| JFloat (x : pyfloat)
| JString (s : string)
| JArray (items : list json)
| JObject (members : list (string * json)).

(** The truth value of a JSON value in [if] and [not]. *)
Definition json_truthy (v : json) : bool :=
  match v with
  | JNull => false
  | JBool b => b
  | JInt n => negb (n =? 0)%Z
  | JFloat (Fin q) => negb (Qeq_bool q 0)
  | JFloat _ => true
  | JString s => negb (String.eqb s EmptyString)
  | JArray items => negb (length items =? 0)%nat
  | JObject members => negb (length members =? 0)%nat
  end.

(** [v != text]. *)
Definition json_differs (v : json) (text : string) : bool :=
  match v with
  | JString s => negb (String.eqb s text)
  | _ => true
  end.

(** An entry of [jobs]; [None] where the key has not been set. *)
Record Job : Type := {
  status : string;
  step : string;
  target_name : json;
  created_at : string;
  error : option string;
  epochs_downloaded : option string;
  files : option (list (string * string))
}.

Definition set_status (v : string) (job : Job) : Job :=
  {| status := v; step := step job; target_name := target_name job;
     created_at := created_at job; error := error job;
     epochs_downloaded := epochs_downloaded job; files := files job |}.

Definition set_step (v : string) (job : Job) : Job :=
  {| status := status job; step := v; target_name := target_name job;
     created_at := created_at job; error := error job;
     epochs_downloaded := epochs_downloaded job; files := files job |}.

Definition set_error (v : string) (job : Job) : Job :=
  {| status := status job; step := step job; target_name := target_name job;
     created_at := created_at job; error := Some v;
     epochs_downloaded := epochs_downloaded job; files := files job |}.

Definition set_epochs_downloaded (v : string) (job : Job) : Job :=
  {| status := status job; step := step job; target_name := target_name job;
     created_at := created_at job; error := error job;
     epochs_downloaded := Some v; files := files job |}.

Definition set_files (v : list (string * string)) (job : Job) : Job :=
  {| status := status job; step := step job; target_name := target_name job;
     created_at := created_at job; error := error job;
     epochs_downloaded := epochs_downloaded job; files := Some v |}.

(** How [subprocess.run] ends: the process finished, it ran into the
    timeout, or it could not be started. *)
Inductive subprocess_result : Type :=
| CompletedProcess (returncode : Z) (stdout stderr : string)
| TimeoutExpired
| OSError (message : string).

(** What is raised inside the [try] of [run_pipeline]. *)
Inductive raised : Type :=
| Timeout
| Exception (message : string).

(** A step of [run_pipeline] goes on with a value, returns from the
    function, or raises. *)
Inductive flow (A : Type) : Type :=
| Next (a : A)
| Return
| Raise (e : raised).
Arguments Next {A} a.
Arguments Return {A}.
Arguments Raise {A} e.

(** The state a step works on: the job and the command lines handed to
    [subprocess.run] so far. *)
Definition State : Type := Job * list (list string).

Definition M (A : Type) : Type := State -> flow A * State.

Definition ret {A : Type} (a : A) : M A := fun s => (Next a, s).

Definition bind {A B : Type} (m : M A) (k : A -> M B) : M B :=
  fun s =>
    match m s with
    | (Next a, s') => k a s'
    | (Return, s') => (Return, s')
    | (Raise e, s') => (Raise e, s')
    end.

Notation "x <- m ;; k" := (bind m (fun x => k))
  (at level 61, m at next level, right associativity).
Notation "m ;; k" := (bind m (fun _ => k))
  (at level 61, right associativity).

Definition modify (f : Job -> Job) : M unit :=
  fun s => (Next tt, (f (fst s), snd s)).

Definition return_ {A : Type} : M A := fun s => (Return, s).

Definition raise {A : Type} (e : raised) : M A := fun s => (Raise e, s).

(** The arguments of a command line when all are strings. *)
Fixpoint strings (argv : list json) : option (list string) :=
  match argv with
  | [] => Some []
  | JString s :: rest =>
      match strings rest with
      | Some args => Some (s :: args)
      | None => None
      end
  | _ :: _ => None
  end.

Definition required_fields : list string :=
  ["target_name"; "mjd_min"; "mjd_max"; "target_ra"; "target_dec";
   "comp1_ra"; "comp1_dec"; "comp2_ra"; "comp2_dec"]%string.

(** What [start_pipeline] answers: 400 with an error, 200 with the id of
    the job, or 500 when an exception escapes it. *)
Inductive http_response : Type :=
| BadRequest (error : string)
| Started (job_id : string)
| InternalServerError.

(** The arguments [start_pipeline] hands to the thread of
    [run_pipeline]. *)
Record ThreadArgs : Type := {
  arg_job_id : string;
  arg_target_name : json;
  arg_mjd_min : json;
  arg_mjd_max : json;
  arg_filter_name : json;
  arg_objects_data : string
}.

Section Server.

(** [str(v)] and the text of the TypeError [subprocess.run] raises for a
    command line with an argument that is no string. *)
Variable str_of : json -> string.
Variable type_error_text : list json -> string.

(** The machine: what writing objects.dat raises, if anything, and how
    each command line ends. *)
Variable write_objects : string -> option string.
Variable run : list string -> subprocess_result.

(** [subprocess.run(argv, capture_output=True, text=True, timeout=300)]. *)
Definition subprocess_run (argv : list json) : M (Z * string * string) :=
  fun s =>
    match strings argv with
    | None => (Raise (Exception (type_error_text argv)), s)
    | Some args =>
        let s' := (fst s, snd s ++ [args]) in
        match run args with
        | CompletedProcess returncode stdout stderr =>
            (Next (returncode, stdout, stderr), s')
        | TimeoutExpired => (Raise Timeout, s')
        | OSError message => (Raise (Exception message), s')
        end
    end.

(** The loop over the lines of the download's output. *)
Fixpoint parse_epochs (lines : list string) : M unit :=
  match lines with
  | [] => ret tt
  | line :: rest =>
      (if contains "data products with valid MJD" line
       then match nth_error (split_whitespace line) 1 with
            | Some word => modify (set_epochs_downloaded word)
            | None => raise (Exception "list index out of range")
            end
       else ret tt) ;;
      parse_epochs rest
  end.

(** The body of the [try] of [run_pipeline]. *)
Definition run_pipeline_try (target_name mjd_min mjd_max filter_name : json)
  (objects_data : string) : M unit :=
  modify (set_status "running") ;;
  modify (set_step "Saving object coordinates") ;;
  match write_objects objects_data with
  | Some message => raise (Exception message)
  | None => ret tt
  end ;;
  modify (set_step "Downloading data from BHTOM") ;;
  result <- subprocess_run
              [JString "./venv/bin/python"; JString "get_data_bhtom.py"; target_name;
               JString "--mjd-range"; JString (str_of mjd_min);
               JString (str_of mjd_max)] ;;
  let '(returncode, stdout, stderr) := result in
  (if negb (returncode =? 0)%Z
   then modify (set_status "error") ;;
        modify (set_error ("Download failed: " ++ stderr)) ;;
        return_
   else ret tt) ;;
  parse_epochs (split newline stdout) ;;
  modify (set_step "Processing photometry") ;;
  let cmd := [JString "./venv/bin/python"; JString "process_photometry.py"] in
  let cmd := if json_truthy filter_name && json_differs filter_name "all"
             then cmd ++ [JString "--filter"; filter_name]
             else cmd in
  result <- subprocess_run cmd ;;
  let '(returncode, stdout, stderr) := result in
  (if negb (returncode =? 0)%Z
   then modify (set_status "error") ;;
        modify (set_error ("Processing failed: " ++ stderr)) ;;
        return_
   else ret tt) ;;
  modify (set_step "Generating DSS field plot") ;;
  result <- subprocess_run [JString "./venv/bin/python"; JString "plot_dss_field.py"] ;;
  modify (set_files [("results", "output/photometry_results.csv");
                     ("plot_lightcurve", "plots/magnitude_ratios.png");
                     ("plot_field", "plots/dss_field.png")]%string) ;;
  modify (set_status "completed") ;;
  modify (set_step "Pipeline completed successfully").

(** [run_pipeline] on the entry of its job: the entry it leaves and the
    command lines it handed to [subprocess.run]. *)
Definition run_pipeline (job : Job) (target_name mjd_min mjd_max filter_name : json)
  (objects_data : string) : State :=
  match run_pipeline_try target_name mjd_min mjd_max filter_name objects_data
          (job, []) with
  | (Raise Timeout, (job', commands)) =>
      (set_error "Pipeline timeout (>5 minutes)" (set_status "error" job'), commands)
  | (Raise (Exception message), (job', commands)) =>
      (set_error message (set_status "error" job'), commands)
  | (_, s) => s
  end.

(** [field not in data or not data[field]]. *)
Definition missing (data : list (string * json)) (field : string) : bool :=
  match str_getitem data field with
  | None => true
  | Some v => negb (json_truthy v)
  end.

(** The validation loop: the field the error names, if any. *)
Fixpoint first_missing (data : list (string * json)) (fields : list string)
  : option string :=
  match fields with
  | [] => None
  | field :: rest =>
      if missing data field then Some field else first_missing data rest
  end.

(** [start_pipeline] on the JSON object of the request, with the uuid and
    the time it draws: its answer and, when a job is started, the entry
    put into [jobs] and the arguments of the thread. *)
Definition start_pipeline (data : list (string * json)) (job_id now : string)
  : http_response * option (Job * ThreadArgs) :=
  match first_missing data required_fields with
  | Some field => (BadRequest ("Missing required field: " ++ field), None)
  | None =>
      match str_getitem data "target_ra", str_getitem data "target_dec",
            str_getitem data "comp1_ra", str_getitem data "comp1_dec",
            str_getitem data "comp2_ra", str_getitem data "comp2_dec",
            str_getitem data "target_name",
            str_getitem data "mjd_min", str_getitem data "mjd_max" with
      | Some target_ra, Some target_dec, Some comp1_ra, Some comp1_dec,
        Some comp2_ra, Some comp2_dec, Some name, Some mjd_min, Some mjd_max =>
          let objects_data :=
            ("Target," ++ str_of target_ra ++ "," ++ str_of target_dec
               ++ String newline
              ("Comp1," ++ str_of comp1_ra ++ "," ++ str_of comp1_dec
               ++ String newline
              ("Comp2," ++ str_of comp2_ra ++ "," ++ str_of comp2_dec
               ++ String newline EmptyString)))%string in
          (Started job_id,
           Some ({| status := "queued"; step := "Initializing";
                    target_name := name; created_at := now;
                    error := None; epochs_downloaded := None; files := None |},
                 {| arg_job_id := job_id;
                    arg_target_name := name;
                    arg_mjd_min := mjd_min;
                    arg_mjd_max := mjd_max;
                    arg_filter_name :=
                      match str_getitem data "filter" with
                      | Some v => v
                      | None => JString "all"
                      end;
                    arg_objects_data := objects_data |}))
      | _, _, _, _, _, _, _, _, _ => (InternalServerError, None)
      end
  end.

End Server.

End Pipeline.

(* ================================================================== *)
(** ** plot_dss_field.py *)
(* ================================================================== *)

(** [s.lstrip()], [s.rstrip()] and [s.strip()]. *)
Fixpoint lstrip (s : string) : string :=
  match s with
  | EmptyString => EmptyString
  | String c rest => if is_space c then lstrip rest else s
  end.

Fixpoint rstrip (s : string) : string :=
  match s with
  | EmptyString => EmptyString
  | String c rest =>
      match rstrip rest with
      | EmptyString => if is_space c then EmptyString else String c EmptyString
      | kept => String c kept
      end
  end.

Definition strip (s : string) : string := rstrip (lstrip s).

(** [for line in f]: the lines of a text, each with its newline. *)
Fixpoint file_lines (text : string) : list string :=
  match text with
  | EmptyString => []
  | String c rest =>
      if Ascii.eqb c newline then String newline EmptyString :: file_lines rest
      else
        match file_lines rest with
        | [] => [String c EmptyString]
        | line :: lines => String c line :: lines
        end
  end.

Module PlotDssField.

Import ProcessPhotometry.

(** How [plot_dss_field] fails: objects.dat does not read (a line without
    three fields, or a coordinate that is no number), a name is not among
    the keys looked up, or the image of the field is not there to draw
    on. *)
Inductive failure : Type :=
| ObjectsError (e : exn)
| KeyError (key : string)
| ImageError.

Inductive plot_end : Type :=
| Plotted (labels : list string)
| Failed (why : failure).

Section Reader.

(** [float(text)]. *)
Variable float_of_string : string -> result pyfloat.

(** One pass of the loop of [read_objects_data] over the lines. *)
Definition read_line (objects : list (string * Coords)) (line : string)
  : result (list (string * Coords)) :=
  match split "," (strip line) with
  | [obj_type; ra; dec] =>
      match float_of_string ra with
      | Raise e => Raise e
      | Ok ra =>
          match float_of_string dec with
          | Raise e => Raise e
          | Ok dec => Ok (str_setitem objects obj_type {| ra := ra; dec := dec |})
          end
      end
  | _ => Raise ValueError
  end.

Fixpoint read_lines (objects : list (string * Coords)) (lines : list string)
  : result (list (string * Coords)) :=
  match lines with
  | [] => Ok objects
  | line :: rest =>
      match read_line objects line with
      | Raise e => Raise e
      | Ok objects => read_lines objects rest
      end
  end.

Definition read_objects_data (text : string) : result (list (string * Coords)) :=
  read_lines [] (file_lines text).

(** The keys of [colors], [markers] and [sizes]. *)
Definition markers : list string := ["Target"; "Comp1"; "Comp2"]%string.

(** The loop over [objects.items()] that draws the markers. *)
Fixpoint plot_objects (objects : list (string * Coords)) : plot_end :=
  match objects with
  | [] => Plotted []
  | (obj_type, coords) :: rest =>
      if existsb (String.eqb obj_type) markers
      then match plot_objects rest with
           | Plotted labels => Plotted (obj_type :: labels)
           | Failed why => Failed why
           end
      else Failed (KeyError obj_type)
  end.

(** [plot_dss_field] on the text of objects.dat: the labels it draws.
    [image] tells whether the steps between the lookup of the target and
    the drawing of the markers go through: the position is accepted, the
    archive answers with status 200 and the FITS image opens with usable
    coordinates. *)
Definition plot_dss_field (text : string) (image : bool) : plot_end :=
  match read_objects_data text with
  | Raise e => Failed (ObjectsError e)
  | Ok objects =>
      match str_getitem objects "Target" with
      | None => Failed (KeyError "Target")
      | Some target =>
          if image then plot_objects objects else Failed ImageError
      end
  end.

End Reader.

End PlotDssField.

(* ================================================================== *)
(** * The vocabulary of the properties *)
(* ================================================================== *)

(** [v] at position [k] is least in [a], and strictly below everything
    before it. *)
Definition first_minimum (a : list Q) (k : nat) (v : Q) : Prop :=
  nth_error a k = Some v
  /\ (forall j w, nth_error a j = Some w -> v <= w)
  /\ (forall j w, nth_error a j = Some w -> (j < k)%nat -> v < w).

(** The rows a loop appends, in the order of its items. *)
Definition appended {A R : Type} (body : A -> iteration R) (items : list A) : list R :=
  flat_map (fun item => match body item with
                        | Append r => [r]
                        | _ => []
                        end) items.

Section Vocabulary.

Import ProcessPhotometry ComparePhotometry.

Variable separation : pyfloat -> pyfloat -> pyfloat -> pyfloat -> Q.
Context {pandas_sort : PandasSort}.

(** A valid detection, in the words of the data model: declination in
    [[-90, 90]] and right ascension in [[0, 360)]. *)
Definition valid_detection (row : SourceDetection) : Prop :=
  exists alpha delta : Q,
    ALPHA_J2000 row = Fin alpha
    /\ DELTA_J2000 row = Fin delta
    /\ -90 <= delta /\ delta <= 90
    /\ 0 <= alpha /\ alpha < 360.

(** A reference position on the sky: both coordinates are numbers of
    degrees and the declination lies between the poles. *)
Definition sky_position (ra dec : pyfloat) : Prop :=
  exists a d : Q, ra = Fin a /\ dec = Fin d /\ -90 <= d /\ d <= 90.

(** A declination beyond a pole, the infinities included. *)
Definition beyond_the_poles (dec : pyfloat) : Prop :=
  dec = PInf \/ dec = NInf \/ exists d : Q, dec = Fin d /\ (d < -90 \/ 90 < d).

(** Coordinates that are neither: a declination that is NaN, or a right
    ascension that is no number next to a declination between the poles. *)
Definition not_a_position (ra dec : pyfloat) : Prop :=
  dec = NaN \/ ((exists d : Q, dec = Fin d /\ -90 <= d /\ d <= 90) /\ isfinite ra = false).

(** The separation of a catalog row from the reference position. *)
Definition separation_to (ra dec : pyfloat) (row : SourceDetection) : Q :=
  separation ra dec (ALPHA_J2000 row) (DELTA_J2000 row).

(** Row [idx] is the first row of the catalog that passes the mask. *)
Definition first_valid (df : list SourceDetection) (idx : nat) : Prop :=
  exists row,
    nth_error df idx = Some row
    /\ valid_detection row
    /\ forall j row', nth_error df j = Some row' -> valid_detection row' ->
                      (idx <= j)%nat.

(** Row [idx] passes the mask, lies [sep] from the reference position, no
    row that passes the mask lies closer, and every such row before it lies
    strictly farther. *)
Definition nearest_valid (df : list SourceDetection) (ra dec : pyfloat)
  (idx : nat) (sep : Q) : Prop :=
  exists row,
    nth_error df idx = Some row
    /\ valid_mask row = true
    /\ sep = separation_to ra dec row
    /\ (forall j row', nth_error df j = Some row' -> valid_mask row' = true ->
                       sep <= separation_to ra dec row')
    /\ (forall j row', nth_error df j = Some row' -> valid_mask row' = true ->
                       (j < idx)%nat -> sep < separation_to ra dec row').

(** [lo] is the least and [hi] the greatest timestamp of the ephemeris. *)
Definition least_mjd (positions_df : list Position) (lo : Q) : Prop :=
  (exists p, In p positions_df /\ pos_MJD p == lo)
  /\ forall p, In p positions_df -> lo <= pos_MJD p.

Definition greatest_mjd (positions_df : list Position) (hi : Q) : Prop :=
  (exists p, In p positions_df /\ pos_MJD p == hi)
  /\ forall p, In p positions_df -> pos_MJD p <= hi.

(** [p] is a sample of the ephemeris closest in time to [mjd]. *)
Definition nearest_sample (positions_df : list Position) (mjd : Q) (p : Position)
  : Prop :=
  In p positions_df
  /\ forall q, In q positions_df ->
               Qabs (pos_MJD p - mjd) <= Qabs (pos_MJD q - mjd).

(** Some valid detection of the catalog lies within [tolerance] arcseconds
    of the position. *)
Definition detection_within (df : list SourceDetection) (ra dec : pyfloat)
  (tolerance : Q) : Prop :=
  exists j row,
    nth_error df j = Some row
    /\ valid_detection row
    /\ separation ra dec (ALPHA_J2000 row) (DELTA_J2000 row) <= tolerance.

(** The four magnitude fields of a row of each result table. *)
Definition magnitudes (r : PhotometryRecord) : list pyfloat :=
  [TARGET_MAG r; TARGET_MAGERR r; COMP1_MAG r; COMP2_MAG r].

Definition asteroid_magnitudes (r : AsteroidRecord) : list pyfloat :=
  [AST_MAG r; AST_MAGERR r; AST_COMP1_MAG r; AST_COMP2_MAG r].

(** What one epoch does inside [process_asteroid_photometry], which sorts
    the ephemeris and takes its bounds before the loop. *)
Definition asteroid_epoch (positions_df : list Position) (objects : CompStars)
  (data : EpochData) : iteration AsteroidRecord :=
  asteroid_iteration separation
    (sort_values pos_MJD positions_df)
    (series_min (map pos_MJD (sort_values pos_MJD positions_df)))
    (series_max (map pos_MJD (sort_values pos_MJD positions_df)))
    objects data.

(** The time between two timestamps given in days, in seconds. *)
Definition seconds_between (t1 t2 : Q) : Q := Qabs (t1 - t2) * 86400.

(** [partner] is a row of the second series closest in time to [t]. *)
Definition nearest_in_time (other : list OtherRow) (t : Q) (partner : OtherRow)
  : Prop :=
  In partner other
  /\ forall o, In o other ->
               Qabs (other_MJD partner - t) <= Qabs (other_MJD o - t).

(** The pair made of a row of the first series and its partner, each with
    its own values. *)
Definition pair_of (our_row : PhotometryRecord) (partner : OtherRow) : Pair :=
  {| MJD_our := MJD our_row;
     pair_TARGET_MAG := TARGET_MAG our_row;
     pair_TARGET_MAGERR := TARGET_MAGERR our_row;
     pair_COMP1_MAG := COMP1_MAG our_row;
     pair_COMP2_MAG := COMP2_MAG our_row;
     MJD_other := other_MJD partner;
     pair_rel_flux_T1 := rel_flux_T1 partner;
     pair_rel_flux_C2 := rel_flux_C2 partner;
     pair_rel_flux_C3 := rel_flux_C3 partner |}.

(** [m] is the least timestamp of a column. *)
Definition least_of (column : list Q) (m : Q) : Prop :=
  In m column /\ forall x, In x column -> m <= x.

End Vocabulary.

(** Equality of characters and of strings up to the case of the letters
    [a]..[z], stated on character codes. *)
Definition same_letter (a b : ascii) : bool :=
  let m := nat_of_ascii a in
  let n := nat_of_ascii b in
  (m =? n)%nat
  || ((97 <=? m)%nat && (m <=? 122)%nat && (n =? m - 32)%nat)
  || ((97 <=? n)%nat && (n <=? 122)%nat && (m =? n - 32)%nat).

Fixpoint eq_ignore_case (s t : string) : bool :=
  match s, t with
  | EmptyString, EmptyString => true
  | String a s', String b t' => same_letter a b && eq_ignore_case s' t'
  | _, _ => false
  end.

Definition all_ascii : list ascii := map ascii_of_nat (seq 0 256).

(** ** A sorting algorithm and sample data to run the definitions on *)

Fixpoint insert_by {A : Type} (key : A -> Q) (x : A) (l : list A) : list A :=
  match l with
  | [] => [x]
  | y :: rest =>
      if Qle_bool (key x) (key y) then x :: l else y :: insert_by key x rest
  end.

Fixpoint insertion_sort {A : Type} (key : A -> Q) (l : list A) : list A :=
  match l with
  | [] => []
  | x :: rest => insert_by key x (insertion_sort key rest)
  end.

Module Samples.

Import ProcessPhotometry ComparePhotometry.

(** Separation on a small flat field, in arcseconds: enough to run the
    matching on catalogs whose coordinates differ by fractions of a
    degree. *)
Definition flat_separation (ra dec alpha delta : pyfloat) : Q :=
  match ra, dec, alpha, delta with
  | Fin a, Fin d, Fin a', Fin d' => (Qabs (a - a') + Qabs (d - d')) * 3600
  | _, _, _, _ => 0
  end.

Definition detection (number : Z) (alpha delta mag magerr : pyfloat)
  : SourceDetection :=
  {| NUMBER := number;
     ALPHA_J2000 := alpha;
     DELTA_J2000 := delta;
     XWIN_IMAGE := Fin 0;
     YWIN_IMAGE := Fin 0;
     MAG_AUTO := mag;
     MAGERR_AUTO := magerr |}.

(** The field of the end-to-end example: target at (10, 20), comparison
    stars at (10.01, 20) and (10, 20.01). *)
Definition target_coords : Coords := {| ra := Fin 10; dec := Fin 20 |}.

Definition comp_stars : CompStars :=
  {| comp1 := {| ra := Fin 10.01; dec := Fin 20 |};
     comp2 := {| ra := Fin 10; dec := Fin 20.01 |} |}.

Definition catalog : list SourceDetection :=
  [ detection 1 (Fin 10) (Fin 20) (Fin 12) (Fin 0.01);
    detection 2 (Fin 10.01) (Fin 20) (Fin 13) (Fin 0.01);
    detection 3 (Fin 10) (Fin 20.01) (Fin 13.5) (Fin 0.01) ].

Definition epoch (band_label : string) (t : Q) (rows : list SourceDetection)
  : EpochData :=
  {| df := rows; mjd := t;
     calibration_data := Some {| band := Some band_label |} |}.

(** The same field with the target's magnitude error missing. *)
Definition catalog_nan : list SourceDetection :=
  [ detection 1 (Fin 10) (Fin 20) (Fin 12) NaN;
    detection 2 (Fin 10.01) (Fin 20) (Fin 13) (Fin 0.01);
    detection 3 (Fin 10) (Fin 20.01) (Fin 13.5) (Fin 0.01) ].

(** A catalog with an out-of-range row in front, and two detections at the
    same distance (1.8 arcseconds) on either side of the target. *)
Definition catalog_tie : list SourceDetection :=
  [ detection 1 (Fin 10) (Fin 95) (Fin 11) (Fin 0.01);
    detection 2 (Fin 10.0005) (Fin 20) (Fin 12) (Fin 0.01);
    detection 3 (Fin 9.9995) (Fin 20) (Fin 12.5) (Fin 0.01);
    detection 4 (Fin 10.01) (Fin 20) (Fin 13) (Fin 0.01) ].

(** Three epochs tagged R, V, R. *)
Definition epochs_RVR : PhotometryData :=
  [ (1%Z, epoch "R" 60000.1 catalog);
    (2%Z, epoch "V" 60000.2 catalog);
    (3%Z, epoch "R" 60000.3 catalog) ].

(** An ephemeris of two samples; the first lies 7.2 arcseconds from the
    first detection of [catalog]. *)
Definition positions : list Position :=
  [ {| pos_MJD := 60001; pos_RA := Fin 10.5; pos_DEC := Fin 20 |};
    {| pos_MJD := 60000; pos_RA := Fin 10.002; pos_DEC := Fin 20 |} ].

(** One row of a result table at [t], and a row of the external series. *)
Definition record_at (t : Q) : PhotometryRecord :=
  {| MJD := t;
     TARGET_RA := Fin 10; TARGET_DEC := Fin 20; TARGET_SEP := Fin 0;
     TARGET_MAG := Fin 12; TARGET_MAGERR := Fin 0.01;
     COMP1_MAG := Fin 13; COMP2_MAG := Fin 13.5 |}.

Definition other_at (jd_utc : Q) : OtherRow :=
  {| JD_UTC := jd_utc; rel_flux_T1 := 1; rel_flux_C2 := 0.4; rel_flux_C3 := 0.25 |}.

End Samples.

(** ** Vocabulary of the further properties *)

(** The flux [mag_to_flux] returns, as a function of the magnitude. *)
Definition flux_of (reference_flux mag : R) : R :=
  match ConvertToFlux.mag_to_flux mag None reference_flux with
  | ConvertToFlux.Flux flux => flux
  | ConvertToFlux.FluxWithError flux _ => flux
  end.

(** ** Vocabulary of objects.dat and [main] *)

Module MainVocabulary.

Import ProcessPhotometry Main.

(** The name a row of objects.dat is stored under. *)
Definition object_name (row : ObjectRow) : string := lower (obj_Type row).

(** The last row of objects.dat with a given name. *)
Definition last_row (name : string) (rows : list ObjectRow) : option ObjectRow :=
  find (fun row => String.eqb (object_name row) name) (rev rows).

Definition coords_of (row : ObjectRow) : Coords :=
  {| ra := obj_RA row; dec := obj_DEC row |}.

Definition required_objects : list string := ["target"; "comp1"; "comp2"]%string.

(** A band was asked for and no epoch carries it: no label has the upper
    case of the name. *)
Definition no_epoch_in_band {str_upper : StrUpper} (all_data : PhotometryData)
  (args_filter : option string) : Prop :=
  exists name, args_filter = Some name /\ name <> EmptyString
    /\ forall item, In item all_data ->
         String.eqb (upper (get_band (snd item))) (upper name) = false.

(** A text of floats with the two laws of [FloatText], so that [main] can
    be run on samples: numerator and denominator in binary, least
    significant digit first, the letter H closing each number. *)
Fixpoint digits_of (p : positive) : string :=
  match p with
  | xH => "H"
  | xO p => String "O" (digits_of p)
  | xI p => String "I" (digits_of p)
  end.

Fixpoint read_digits (s : string) : option (positive * string) :=
  match s with
  | EmptyString => None
  | String c rest =>
      if Ascii.eqb c "H" then Some (xH, rest)
      else if Ascii.eqb c "O"
      then match read_digits rest with
           | Some (p, rest') => Some (xO p, rest')
           | None => None
           end
      else if Ascii.eqb c "I"
      then match read_digits rest with
           | Some (p, rest') => Some (xI p, rest')
           | None => None
           end
      else None
  end.

Definition text_of_Z (z : Z) : string :=
  match z with
  | Z0 => "0"
  | Zpos p => String "+" (digits_of p)
  | Zneg p => String "-" (digits_of p)
  end.

Definition read_Z (s : string) : option (Z * string) :=
  match s with
  | EmptyString => None
  | String c rest =>
      if Ascii.eqb c "0" then Some (0%Z, rest)
      else if Ascii.eqb c "+"
      then match read_digits rest with
           | Some (p, rest') => Some (Zpos p, rest')
           | None => None
           end
      else if Ascii.eqb c "-"
      then match read_digits rest with
           | Some (p, rest') => Some (Zneg p, rest')
           | None => None
           end
      else None
  end.

Definition sample_repr (x : pyfloat) : string :=
  match x with
  | NaN => "nan"
  | PInf => "inf"
  | NInf => "-inf"
  | Fin q => text_of_Z (Qnum q) ++ digits_of (Qden q)
  end.

Definition sample_float (s : string) : result pyfloat :=
  if String.eqb s "nan" then Ok NaN
  else if String.eqb s "inf" then Ok PInf
  else if String.eqb s "-inf" then Ok NInf
  else match read_Z s with
       | None => Raise ValueError
       | Some (n, rest) =>
           match read_digits rest with
           | Some (d, EmptyString) => Ok (Fin (n # d))
           | _ => Raise ValueError
           end
       end.

(** Statistics and a drawing to run [main] on. The median of a column
    is the middle of its sorted numbers; in place of the standard
    deviation, which is no rational number, stands the mean distance from
    the mean, with the divisor of the standard deviation, the number of
    rows less one; and the drawing refuses a negative error bar, as
    matplotlib does. *)
Definition numbers (column : list pyfloat) : list Q :=
  flat_map (fun x => match x with Fin q => [q] | _ => [] end) column.

Definition sample_median (column : list pyfloat) : pyfloat :=
  let sorted := insertion_sort (fun q => q) (numbers column) in
  let n := length sorted in
  match n with
  | O => NaN
  | _ =>
      if Nat.even n
      then Fin ((nth (n / 2 - 1) sorted 0 + nth (n / 2) sorted 0) / 2)
      else Fin (nth (n / 2) sorted 0)
  end.

Definition sample_std (column : list pyfloat) : pyfloat :=
  let values := numbers column in
  match values with
  | [] => NaN
  | [_] => NaN
  | _ =>
      let n := inject_Z (Z.of_nat (length values)) in
      let mean := fold_right Qplus 0 values / n in
      Fin (fold_right Qplus 0 (map (fun v => Qabs (v - mean)) values) / (n - 1))
  end.

Definition negative (x : pyfloat) : bool := ltb x (Fin 0).

Definition sample_errorbar (x : list Q) (y : list pyfloat) (yerr : error_bars)
  : option error :=
  match yerr with
  | PerRow bars => if existsb negative bars then Some (Builtin ValueError) else None
  | Scalar bar => if negative bar then Some (Builtin ValueError) else None
  end.

(** The objects.dat the web interface writes for the field of [Samples],
    with the capitals it uses, and one without its second comparison
    star. *)
Definition object_rows : list ObjectRow :=
  [ {| obj_Type := "Target"; obj_RA := Fin 10; obj_DEC := Fin 20 |};
    {| obj_Type := "Comp1"; obj_RA := Fin 10.01; obj_DEC := Fin 20 |};
    {| obj_Type := "Comp2"; obj_RA := Fin 10; obj_DEC := Fin 20.01 |} ].

Definition object_rows_without_comp2 : list ObjectRow :=
  [ {| obj_Type := "Target"; obj_RA := Fin 10; obj_DEC := Fin 20 |};
    {| obj_Type := "Comp1"; obj_RA := Fin 10.01; obj_DEC := Fin 20 |} ].

End MainVocabulary.

(** ** Vocabulary of the download *)

Module GetDataVocabulary.

Import ProcessPhotometry GetDataBhtom.

(** The pages [page, page + 1, ...], [n] of them. *)
Definition pages_from (page : Z) (n : nat) : list Z :=
  map (fun i => (page + Z.of_nat i)%Z) (seq 0 n).

(** A page that is kept: status 200 and at least one record. *)
Definition page_kept (post : Z -> Response) (p : Z) : Prop :=
  status_code (post p) = 200%Z /\ data_list (post p) <> [].

(** The number of pages an answer announces, 1 when it says nothing. *)
Definition announced (response : Response) : Z :=
  match num_pages response with
  | Some n => n
  | None => 1%Z
  end.

(** A data product that becomes an epoch: it has a timestamp and its
    photometry file has rows. *)
Definition usable (post_file : Z -> FileResponse) (row : DataProduct) : Prop :=
  (exists calibration t,
      row_calibration_data row = Some calibration /\ api_mjd calibration = Some t)
  /\ file_status_code (post_file (data_id row)) = 200%Z
  /\ file_rows (post_file (data_id row)) <> [].

(** A server of three pages of one record each, one that always announces
    a further page, and photometry files for the first two data ids. *)
Definition product (i : Z) : DataProduct :=
  {| data_id := i;
     row_calibration_data :=
       Some {| api_mjd := Some (60000 + inject_Z i); api_band := Some "R"%string |} |}.

Definition three_pages (p : Z) : Response :=
  {| status_code := 200; data_list := [product p]; num_pages := Some 3%Z |}.

Definition endless_pages (p : Z) : Response :=
  {| status_code := 200; data_list := [product p]; num_pages := Some (p + 1)%Z |}.

Definition two_files (i : Z) : FileResponse :=
  if (i <=? 2)%Z
  then {| file_status_code := 200; file_rows := Samples.catalog |}
  else {| file_status_code := 404; file_rows := [] |}.

Definition no_files (i : Z) : FileResponse :=
  {| file_status_code := 404; file_rows := [] |}.

End GetDataVocabulary.

(** ** Vocabulary of the web interface *)

Module PipelineVocabulary.

Import Pipeline.

Definition python : string := "./venv/bin/python".

(** The three command lines of a pipeline run. *)
Definition download_command (name mjd_min mjd_max : string) : list string :=
  [python; "get_data_bhtom.py"; name; "--mjd-range"; mjd_min; mjd_max]%string.

Definition process_command (filter : option string) : list string :=
  [python; "process_photometry.py"]%string
  ++ match filter with
     | Some name => ["--filter"; name]%string
     | None => []
     end.

Definition plot_command : list string := [python; "plot_dss_field.py"]%string.

(** The filter a JSON value asks for: none when the value is false in
    Python or the text all, the text when it is any other text; a true
    value that is no text cannot be put on a command line. *)
Inductive asks_for : json -> option string -> Prop :=
| asks_nothing (v : json) : json_truthy v = false -> asks_for v None
| asks_all : asks_for (JString "all") None
| asks_band (name : string) :
    name <> EmptyString -> name <> "all"%string -> asks_for (JString name) (Some name).

(** The phrase of the download's report and the word taken from the last
    line that holds it. *)
Definition phrase : string := "data products with valid MJD".

Definition reported_epochs (stdout : string) : option string :=
  match find (contains phrase) (rev (split newline stdout)) with
  | Some line => nth_error (split_whitespace line) 1
  | None => None
  end.

(** A machine on which everything succeeds except the plot of the field,
    a request with all its fields, and the same with the right ascension
    of the target at 0. *)
Definition sample_str_of (v : json) : string :=
  match v with
  | JString s => s
  | _ => "?"
  end.

Definition sample_run (args : list string) : subprocess_result :=
  match nth_error args 1 with
  | Some script =>
      if String.eqb script "plot_dss_field.py"
      then CompletedProcess 1 "" "no network"
      else if String.eqb script "get_data_bhtom.py"
      then CompletedProcess 0 ("Found 2 data products with valid MJD") ""
      else CompletedProcess 0 "" ""
  | None => OSError "no command"
  end.

Definition sample_request : list (string * json) :=
  [ ("target_name", JString "WASP-46"); ("mjd_min", JString "60000");
    ("mjd_max", JString "60001");
    ("target_ra", JString "10"); ("target_dec", JString "20");
    ("comp1_ra", JString "10.01"); ("comp1_dec", JString "20");
    ("comp2_ra", JString "10"); ("comp2_dec", JString "20.01");
    ("filter", JString "GaiaSP/R") ]%string.

Definition sample_request_zero : list (string * json) :=
  [ ("target_name", JString "WASP-46"); ("mjd_min", JString "60000");
    ("mjd_max", JString "60001");
    ("target_ra", JInt 0); ("target_dec", JString "20");
    ("comp1_ra", JString "10.01"); ("comp1_dec", JString "20");
    ("comp2_ra", JString "10"); ("comp2_dec", JString "20.01") ]%string.

Definition sample_job : Job :=
  {| status := "queued"; step := "Initializing";
     target_name := JString "WASP-46"; created_at := "2025-01-01T00:00:00";
     error := None; epochs_downloaded := None; files := None |}.

End PipelineVocabulary.

(** ** Vocabulary of the field plot *)

Module PlotVocabulary.

Import ProcessPhotometry Main MainVocabulary.

Fixpoint has_space (s : string) : bool :=
  match s with
  | EmptyString => false
  | String c rest => is_space c || has_space rest
  end.

(** A text that stands as one field of a line of objects.dat: no comma
    and no white space in it. *)
Definition plain (s : string) : bool :=
  negb (has_char "," s) && negb (has_space s).

(** The objects.dat that holds the given rows, one per line. *)
Section Text.

Context {float_text : FloatText}.

Definition line_of (row : ObjectRow) : string :=
  (obj_Type row ++ "," ++ float_repr (obj_RA row) ++ ","
     ++ float_repr (obj_DEC row) ++ String newline EmptyString)%string.

Fixpoint objects_text (rows : list ObjectRow) : string :=
  match rows with
  | [] => EmptyString
  | row :: rest => (line_of row ++ objects_text rest)%string
  end.

End Text.

(** A reader of plain decimal numerals, to run the plot on the objects.dat
    of a request. *)
Definition digit (c : ascii) : option Z :=
  let n := nat_of_ascii c in
  if (48 <=? n)%nat && (n <=? 57)%nat then Some (Z.of_nat (n - 48)) else None.

Fixpoint read_decimal (s : string) (digits : Z) (scale : option positive)
  : option Q :=
  match s with
  | EmptyString =>
      Some (match scale with
            | None => inject_Z digits
            | Some d => digits # d
            end)
  | String c rest =>
      if Ascii.eqb c "."
      then match scale with
           | None => read_decimal rest digits (Some 1%positive)
           | Some _ => None
           end
      else match digit c with
           | Some k =>
               read_decimal rest (10 * digits + k)%Z
                 (option_map (fun d => (10 * d)%positive) scale)
           | None => None
           end
  end.

Definition decimal_float (s : string) : result pyfloat :=
  match s with
  | EmptyString => Raise ValueError
  | String _ _ =>
      match read_decimal s 0 None with
      | Some q => Ok (Fin q)
      | None => Raise ValueError
      end
  end.

(** The fields of a request that hold coordinates, and the name each
    pair of them is written under. *)
Definition coordinate_fields : list string :=
  ["target_ra"; "target_dec"; "comp1_ra"; "comp1_dec"; "comp2_ra"; "comp2_dec"]%string.

Definition object_fields : list (string * string * string) :=
  [("Target", "target_ra", "target_dec"); ("Comp1", "comp1_ra", "comp1_dec");
   ("Comp2", "comp2_ra", "comp2_dec")]%string.

(** An objects.dat with the names in lower case. *)
Definition object_rows_lower : list ObjectRow :=
  [ {| obj_Type := "target"; obj_RA := Fin 10; obj_DEC := Fin 20 |};
    {| obj_Type := "comp1"; obj_RA := Fin 10.01; obj_DEC := Fin 20 |};
    {| obj_Type := "comp2"; obj_RA := Fin 10; obj_DEC := Fin 20.01 |} ].

End PlotVocabulary.

(** ** Tactics *)

(** Case analysis on the scrutinee of a [match] in the goal or in [H]. *)
Ltac break_match :=
  match goal with
  | |- context [match ?x with _ => _ end] =>
      lazymatch x with
      | context [match _ with _ => _ end] => fail
      | _ => destruct x eqn:?
      end
  end.

Ltac break_match_in H :=
  match type of H with
  | context [match ?x with _ => _ end] =>
      lazymatch x with
      | context [match _ with _ => _ end] => fail
      | _ => destruct x eqn:?
      end
  end.

(** Splits a statement about the outcome of a pass into its parts and
    closes those that hold by the constructors or by logic alone. *)
Ltac settle_outcome :=
  repeat split; intros;
  repeat match goal with
         | H : _ \/ _ |- _ => destruct H
         | H : exists _, _ |- _ => destruct H
         end;
  try discriminate; try tauto.

(* ================================================================== *)
(** * Properties *)
(* ================================================================== *)

(** ** Comparisons *)

Lemma Qltb_lt (a b : Q) : Qltb a b = true <-> a < b.
Proof.
  unfold Qltb. rewrite negb_true_iff.
  split; intro H.
  - apply Qnot_le_lt. intro Hle. apply Qle_bool_iff in Hle. congruence.
  - destruct (Qle_bool b a) eqn:E; [|reflexivity].
    apply Qle_bool_iff in E. exfalso. apply (Qlt_not_le _ _ H E).
Qed.

Lemma Qltb_ge (a b : Q) : Qltb a b = false <-> b <= a.
Proof.
  unfold Qltb. rewrite negb_false_iff. apply Qle_bool_iff.
Qed.

Lemma Qgtb_gt (a b : Q) : Qgtb a b = true <-> b < a.
Proof. apply Qltb_lt. Qed.

Lemma Qgtb_le (a b : Q) : Qgtb a b = false <-> a <= b.
Proof. apply Qltb_ge. Qed.

(** ** Insertion sort is a [sort_values] *)

Lemma insert_by_perm {A : Type} (key : A -> Q) (x : A) (l : list A) :
  Permutation (insert_by key x l) (x :: l).
Proof.
  induction l as [|y l IH]; simpl; [reflexivity|].
  destruct (Qle_bool (key x) (key y)); [reflexivity|].
  rewrite IH. apply perm_swap.
Qed.

Lemma insertion_sort_perm (A : Type) (key : A -> Q) (l : list A) :
  Permutation (insertion_sort key l) l.
Proof.
  induction l as [|x l IH]; simpl; [reflexivity|].
  rewrite insert_by_perm. now apply perm_skip.
Qed.

Lemma insert_by_sorted {A : Type} (key : A -> Q) (x : A) (l : list A) :
  StronglySorted (fun a b => key a <= key b) l ->
  StronglySorted (fun a b => key a <= key b) (insert_by key x l).
Proof.
  induction 1 as [|y l Hs IH Hall]; simpl.
  - constructor; constructor.
  - destruct (Qle_bool (key x) (key y)) eqn:E.
    + apply Qle_bool_iff in E. constructor; [now constructor|].
      constructor; [exact E|].
      rewrite Forall_forall in *. intros z Hz. pose proof (Hall z Hz). lra.
    + assert (Hyx : key y <= key x).
      { apply Qlt_le_weak, Qltb_lt. unfold Qltb. now rewrite E. }
      constructor; [exact IH|].
      rewrite Forall_forall in *. intros z Hz.
      apply (Permutation_in _ (insert_by_perm key x l)) in Hz.
      destruct Hz as [<-|Hz]; [exact Hyx|now apply Hall].
Qed.

Lemma insertion_sort_sorted (A : Type) (key : A -> Q) (l : list A) :
  StronglySorted (fun a b => key a <= key b) (insertion_sort key l).
Proof.
  induction l as [|x l IH]; simpl; [constructor|]. now apply insert_by_sorted.
Qed.

#[export] Instance insertion_sort_values : PandasSort := {|
  sort_values := @insertion_sort;
  sort_values_perm := insertion_sort_perm;
  sort_values_sorted := insertion_sort_sorted
|}.

(** ** [np.argmin] returns the first position of the least element *)

Section Argmin.


Lemma argmin_loop_spec (rest : list Q) :
  forall (mp : Q) (min_ind i : nat),
    (argmin_loop mp min_ind i rest = min_ind
     /\ forall j w, nth_error rest j = Some w -> mp <= w)
    \/ (exists j v,
           argmin_loop mp min_ind i rest = (i + j)%nat
           /\ v < mp
           /\ first_minimum rest j v).
Proof.
  induction rest as [|x rest IH]; intros mp min_ind i; simpl.
  - left. split; [reflexivity|]. intros [|j] w H; discriminate.
  - destruct (Qle_bool mp x) eqn:E; simpl.
    + apply Qle_bool_iff in E.
      destruct (IH mp min_ind (S i)) as [[Hk Hall]|(j & v & Hk & Hlt & Hn & Hle & Hfirst)].
      * left. split; [exact Hk|].
        intros [|j] w Hw; simpl in Hw.
        -- injection Hw as <-. exact E.
        -- eapply Hall; eassumption.
      * right. exists (S j), v. split; [rewrite Hk; lia|]. split; [exact Hlt|].
        repeat split.
        -- exact Hn.
        -- intros [|j'] w Hw; simpl in Hw.
           ++ injection Hw as <-. lra.
           ++ eapply Hle; eassumption.
        -- intros [|j'] w Hw Hj; simpl in Hw.
           ++ injection Hw as <-. lra.
           ++ eapply Hfirst; [eassumption|lia].
    + assert (Hx : x < mp).
      { apply Qltb_lt. unfold Qltb. now rewrite E. }
      destruct (IH x i (S i)) as [[Hk Hall]|(j & v & Hk & Hlt & Hn & Hle & Hfirst)].
      * right. exists 0%nat, x. split; [rewrite Hk; lia|]. split; [exact Hx|].
        repeat split.
        -- intros [|j] w Hw; simpl in Hw.
           ++ injection Hw as <-. lra.
           ++ eapply Hall; eassumption.
        -- intros j w _ Hj. lia.
      * right. exists (S j), v. split; [rewrite Hk; lia|]. split; [lra|].
        repeat split.
        -- exact Hn.
        -- intros [|j'] w Hw; simpl in Hw.
           ++ injection Hw as <-. lra.
           ++ eapply Hle; eassumption.
        -- intros [|j'] w Hw Hj; simpl in Hw.
           ++ injection Hw as <-. exact Hlt.
           ++ eapply Hfirst; [eassumption|lia].
Qed.

Lemma argmin_first_minimum (a : list Q) (k : nat) :
  argmin a = Some k -> exists v, first_minimum a k v.
Proof.
  destruct a as [|x rest]; simpl; [discriminate|].
  intros [= <-].
  destruct (argmin_loop_spec rest x 0%nat 1%nat)
    as [[Hk Hall]|(j & v & Hk & Hlt & Hn & Hle & Hfirst)].
  - rewrite Hk. exists x. repeat split.
    + intros [|j] w Hw; simpl in Hw.
      * injection Hw as <-. lra.
      * eapply Hall; eassumption.
    + intros j w _ Hj. lia.
  - rewrite Hk. exists v. repeat split.
    + exact Hn.
    + intros [|j'] w Hw; simpl in Hw.
      * injection Hw as <-. lra.
      * eapply Hle; eassumption.
    + intros [|j'] w Hw Hj; simpl in Hw.
      * injection Hw as <-. exact Hlt.
      * eapply Hfirst; [eassumption|lia].
Qed.

Lemma argmin_nonempty (a : list Q) : a <> [] -> exists k, argmin a = Some k.
Proof.
  destruct a as [|x rest]; [congruence|]. intros _. simpl. eauto.
Qed.

(** On numbers the pass over floats is the pass over numbers. *)
Lemma argmin_float_loop_Fin (rest : list Q) :
  forall (mp : Q) (min_ind i : nat),
    argmin_float_loop (Fin mp) min_ind i (map Fin rest) = argmin_loop mp min_ind i rest.
Proof.
  induction rest as [|x rest IH]; intros mp min_ind i; simpl; [reflexivity|].
  unfold geb. simpl. destruct (Qle_bool mp x); simpl; apply IH.
Qed.

Lemma argmin_float_Fin (a : list Q) : argmin_float (map Fin a) = argmin a.
Proof.
  destruct a as [|x rest]; simpl; [reflexivity|].
  now rewrite argmin_float_loop_Fin.
Qed.

End Argmin.

(** ** Row labels of a filtered DataFrame *)

Section RowLabels.

Context {A : Type}.

Lemma in_combine_seq (l : list A) :
  forall (s i : nat) (d : A),
    In (i, d) (combine (seq s (length l)) l)
    <-> (s <= i)%nat /\ nth_error l (i - s) = Some d.
Proof.
  induction l as [|x l IH]; intros s i d; simpl.
  - split; [tauto|]. intros [_ H]. destruct (i - s)%nat; discriminate.
  - rewrite IH. split.
    + intros [H|[Hs Hn]].
      * injection H as <- <-. split; [lia|]. now rewrite Nat.sub_diag.
      * split; [lia|]. replace (i - s)%nat with (S (i - S s)) by lia. exact Hn.
    + intros [Hs Hn]. destruct (i - s)%nat as [|m] eqn:E.
      * left. injection Hn as <-. f_equal. lia.
      * right. split; [lia|]. replace (i - S s)%nat with m by lia. exact Hn.
Qed.

Lemma in_with_index (df : list A) (i : nat) (d : A) :
  In (i, d) (with_index df) <-> nth_error df i = Some d.
Proof.
  unfold with_index. rewrite in_combine_seq, Nat.sub_0_r.
  split; [tauto|]. intro H. split; [lia|exact H].
Qed.

Lemma combine_seq_sorted (l : list A) :
  forall s : nat,
    StronglySorted (fun a b : nat * A => (fst a < fst b)%nat)
      (combine (seq s (length l)) l).
Proof.
  induction l as [|x l IH]; intro s; simpl.
  - constructor.
  - constructor; [apply IH|].
    apply Forall_forall. intros [i d] Hin.
    apply in_combine_seq in Hin. simpl. lia.
Qed.

Lemma filter_sorted {B : Type} (R : B -> B -> Prop) (f : B -> bool) (l : list B) :
  StronglySorted R l -> StronglySorted R (filter f l).
Proof.
  induction 1 as [|x l Hs IH Hall]; simpl.
  - constructor.
  - destruct (f x); [|exact IH].
    constructor; [exact IH|].
    apply Forall_forall. intros y Hy. apply filter_In in Hy.
    rewrite Forall_forall in Hall. now apply Hall.
Qed.

Lemma sorted_nth_error {B : Type} (R : B -> B -> Prop) (l : list B) :
  StronglySorted R l ->
  forall (p q : nat) (a b : B),
    nth_error l p = Some a -> nth_error l q = Some b -> (p < q)%nat -> R a b.
Proof.
  induction 1 as [|x l Hs IH Hall]; intros p q a b Hp Hq Hlt.
  - destruct p; discriminate.
  - destruct q as [|q]; [lia|]. simpl in Hq.
    destruct p as [|p]; simpl in Hp.
    + injection Hp as <-. rewrite Forall_forall in Hall.
      apply Hall. eapply nth_error_In; eassumption.
    + eapply IH; [eassumption|eassumption|lia].
Qed.

End RowLabels.

(** ** [find_nearest_object] *)

Section NearestObject.

Import ProcessPhotometry.

Variable separation : pyfloat -> pyfloat -> pyfloat -> pyfloat -> Q.


Lemma pick_nearest (df : list SourceDetection) (vc : list (nat * SourceDetection))
  (ra dec : pyfloat) (first_row : nat * SourceDetection) :
  (forall i d, In (i, d) vc <-> nth_error df i = Some d /\ valid_mask d = true) ->
  StronglySorted (fun a b : nat * SourceDetection => (fst a < fst b)%nat) vc ->
  vc <> [] ->
  exists k,
    argmin (map (fun r => separation_to separation ra dec (snd r)) vc) = Some k
    /\ (k < length vc)%nat
    /\ nearest_valid separation df ra dec (fst (nth k vc first_row))
         (nth k (map (fun r => separation_to separation ra dec (snd r)) vc) 0).
Proof.
  intros Hin Hsorted Hne.
  set (sepf := fun r : nat * SourceDetection => separation_to separation ra dec (snd r)).
  destruct (argmin_nonempty (map sepf vc)) as [k Hk].
  { destruct vc; [congruence|discriminate]. }
  exists k. split; [exact Hk|].
  destruct (argmin_first_minimum _ _ Hk) as (v & Hn & Hle & Hfirst).
  split.
  { rewrite <- (length_map sepf). apply nth_error_Some. congruence. }
  rewrite (nth_error_nth _ _ 0 Hn).
  rewrite nth_error_map in Hn.
  destruct (nth_error vc k) as [[idx row]|] eqn:Er; [|discriminate].
  simpl in Hn. injection Hn as <-.
  rewrite (nth_error_nth _ _ first_row Er). simpl.
  assert (Hrow : nth_error df idx = Some row /\ valid_mask row = true).
  { apply Hin. eapply nth_error_In; eassumption. }
  exists row. split; [apply Hrow|]. split; [apply Hrow|]. split; [reflexivity|].
  assert (Hpos : forall j row', nth_error df j = Some row' -> valid_mask row' = true ->
                   exists q, nth_error vc q = Some (j, row')).
  { intros j row' Hj Hv. apply In_nth_error. apply Hin. now split. }
  split.
  - intros j row' Hj Hv. destruct (Hpos j row' Hj Hv) as [q Hq].
    apply (Hle q). rewrite nth_error_map, Hq. reflexivity.
  - intros j row' Hj Hv Hlt. destruct (Hpos j row' Hj Hv) as [q Hq].
    apply (Hfirst q); [rewrite nth_error_map, Hq; reflexivity|].
    destruct (Nat.lt_trichotomy q k) as [Hqk|[Hqk|Hqk]]; [exact Hqk| |].
    + subst q. rewrite Er in Hq. injection Hq as -> _. lia.
    + pose proof (sorted_nth_error _ _ Hsorted _ _ _ _ Er Hq Hqk) as Hord.
      simpl in Hord. lia.
Qed.

Lemma valid_mask_valid_detection (row : SourceDetection) :
  valid_mask row = true <-> valid_detection row.
Proof.
  unfold valid_mask, valid_detection, geb.
  rewrite !andb_true_iff. split.
  - intros [[[H1 H2] H3] H4].
    destruct (DELTA_J2000 row) as [delta| | |]; simpl in H1, H2; try discriminate.
    destruct (ALPHA_J2000 row) as [alpha| | |]; simpl in H3, H4; try discriminate.
    exists alpha, delta.
    apply Qle_bool_iff in H1, H2, H3. apply Qltb_lt in H4. tauto.
  - intros (alpha & delta & -> & -> & H1 & H2 & H3 & H4). simpl.
    rewrite <- Qle_bool_iff in H1, H2, H3. rewrite <- Qltb_lt in H4. tauto.
Qed.

(** The three kinds of reference coordinates, and what [SkyCoord] makes
    of each. *)
Lemma reference_cases (ra dec : pyfloat) :
  sky_position ra dec \/ beyond_the_poles dec \/ not_a_position ra dec.
Proof.
  unfold sky_position, beyond_the_poles, not_a_position.
  destruct dec as [d| | |]; [|tauto|tauto|tauto].
  destruct (Qlt_le_dec d (-90)) as [Hlo|Hlo]; [right; left; right; right; eauto|].
  destruct (Qlt_le_dec 90 d) as [Hhi|Hhi]; [right; left; right; right; eauto|].
  destruct ra as [a| | |];
    [left; exists a, d; repeat split; assumption| | |];
    right; right; right; (split; [exists d; repeat split; assumption|reflexivity]).
Qed.

Lemma sky_position_degrees (a d : Q) :
  Qle_bool (-90) d = true -> Qle_bool d 90 = true -> sky_position (Fin a) (Fin d).
Proof.
  intros Hlo Hhi. exists a, d. rewrite <- !Qle_bool_iff. tauto.
Qed.

Lemma sky_position_not_beyond (ra dec : pyfloat) :
  sky_position ra dec -> ~ beyond_the_poles dec.
Proof.
  intros (a & d & _ & -> & Hlo & Hhi) [H|[H|(d' & [= <-] & [H|H])]];
    try discriminate; lra.
Qed.

Lemma sky_position_is_position (ra dec : pyfloat) :
  sky_position ra dec -> ~ not_a_position ra dec.
Proof.
  intros (a & d & -> & -> & Hlo & Hhi) [H|[_ H]]; discriminate.
Qed.

Lemma not_a_position_not_beyond (ra dec : pyfloat) :
  not_a_position ra dec -> ~ beyond_the_poles dec.
Proof.
  intros [->|[(d & -> & Hlo & Hhi) _]] [H|[H|(d' & [= E] & [H|H])]];
    try discriminate; subst; lra.
Qed.

Lemma ltb_Fin (a b : Q) : ltb (Fin a) (Fin b) = Qltb a b.
Proof. reflexivity. Qed.

Lemma gtb_Fin (a b : Q) : gtb (Fin a) (Fin b) = Qgtb a b.
Proof. reflexivity. Qed.

Lemma SkyCoord_beyond (ra dec : pyfloat) :
  beyond_the_poles dec -> SkyCoord ra dec = Raise ValueError.
Proof.
  unfold SkyCoord, gtb.
  intros [->|[->|(d & -> & [H|H])]]; try reflexivity;
    apply Qltb_lt in H; rewrite !ltb_Fin, H, ?orb_true_r; reflexivity.
Qed.

Lemma SkyCoord_between (ra dec : pyfloat) :
  ~ beyond_the_poles dec -> SkyCoord ra dec = Ok (ra, dec).
Proof.
  unfold SkyCoord, gtb, beyond_the_poles. intro H.
  destruct dec as [d| | |];
    [|exfalso; apply H; now left|exfalso; apply H; right; now left|reflexivity].
  rewrite !ltb_Fin.
  destruct (Qltb d (-90)) eqn:E1.
  { apply Qltb_lt in E1. exfalso. apply H. right. right. exists d. tauto. }
  destruct (Qltb 90 d) eqn:E2.
  { apply Qltb_lt in E2. exfalso. apply H. right. right. exists d. tauto. }
  reflexivity.
Qed.

(** From a position on the sky every valid detection has a separation;
    from coordinates that are no position every separation is NaN. *)
Lemma separation_arcsec_sky (ra dec : pyfloat) (row : SourceDetection) :
  sky_position ra dec -> valid_mask row = true ->
  separation_arcsec separation (ra, dec) (ALPHA_J2000 row) (DELTA_J2000 row)
  = Fin (separation_to separation ra dec row).
Proof.
  intros (a & d & -> & -> & _) Hv. apply valid_mask_valid_detection in Hv.
  destruct Hv as (alpha & delta & Ha & Hd & _).
  unfold separation_arcsec, separation_to. now rewrite Ha, Hd.
Qed.

Lemma separation_arcsec_nan (ra dec alpha delta : pyfloat) :
  not_a_position ra dec ->
  separation_arcsec separation (ra, dec) alpha delta = NaN.
Proof.
  unfold separation_arcsec. intros [->|[_ H]].
  - now rewrite andb_false_r.
  - now rewrite H.
Qed.

Lemma nth_map_Fin (l : list Q) (k : nat) :
  (k < length l)%nat -> nth k (map Fin l) NaN = Fin (nth k l 0).
Proof.
  intro H. rewrite (nth_indep _ NaN (Fin 0)) by now rewrite length_map.
  apply map_nth.
Qed.

(** The four ways [find_nearest_object] ends: without a valid detection it
    answers none before it looks at the reference; with one, it raises for
    a declination beyond the poles, answers the first valid detection at a
    separation of NaN for coordinates that are no position, and otherwise
    weighs the nearest valid detection against the tolerance. *)
Lemma find_nearest_object_cases (df : list SourceDetection) (ra dec : pyfloat)
  (max_distance : Q) :
  ((forall j row, nth_error df j = Some row -> valid_mask row = false)
   /\ find_nearest_object separation df ra dec max_distance = Ok None)
  \/ (exists first,
         first_valid df first
         /\ ((beyond_the_poles dec
              /\ find_nearest_object separation df ra dec max_distance
                 = Raise ValueError)
             \/ (not_a_position ra dec
                 /\ find_nearest_object separation df ra dec max_distance
                    = Ok (Some (first, NaN)))
             \/ (sky_position ra dec
                 /\ exists idx sep,
                     nearest_valid separation df ra dec idx sep
                     /\ find_nearest_object separation df ra dec max_distance
                        = if Qgtb sep max_distance then Ok None
                          else Ok (Some (idx, Fin sep))))).
Proof.
  unfold find_nearest_object.
  pose proof (fun i d => conj (filter_In (fun r => valid_mask (snd r)) (i, d) (with_index df))
                              (in_with_index df i d)) as Hin.
  pose proof (filter_sorted _ (fun r => valid_mask (snd r)) _
                (combine_seq_sorted df 0)) as Hsorted.
  fold (with_index df) in Hsorted.
  destruct (filter (fun r => valid_mask (snd r)) (with_index df))
    as [|first_row tl] eqn:Evc.
  - left. split; [|reflexivity].
    intros j row Hj. destruct (valid_mask row) eqn:E; [|reflexivity].
    exfalso. destruct (Hin j row) as [Hf Hw]. apply Hf. split; [now apply Hw|exact E].
  - right.
    assert (Hvc : forall i d, In (i, d) (first_row :: tl)
                              <-> nth_error df i = Some d /\ valid_mask d = true).
    { intros i d. destruct (Hin i d) as [Hf Hw]. rewrite Hf, Hw. simpl. tauto. }
    exists (fst first_row). split.
    { destruct first_row as [i0 row0]. simpl.
      destruct (proj1 (Hvc i0 row0) (or_introl eq_refl)) as [Hrow0 Hv0].
      exists row0. split; [exact Hrow0|].
      split; [now apply valid_mask_valid_detection|].
      intros j row' Hj Hv'. apply valid_mask_valid_detection in Hv'.
      destruct (proj2 (Hvc j row') (conj Hj Hv')) as [[= <- <-]|Htl]; [lia|].
      inversion Hsorted as [|? ? _ Hall]; subst.
      rewrite Forall_forall in Hall. apply Hall in Htl. simpl in Htl. lia. }
    destruct (reference_cases ra dec) as [Hsky|[Hbeyond|Hnan]].
    + right. right. split; [exact Hsky|].
      rewrite SkyCoord_between by now apply sky_position_not_beyond with ra.
      destruct (pick_nearest df (first_row :: tl) ra dec first_row Hvc Hsorted)
        as (k & Hk & Hlen & Hnear); [discriminate|].
      set (vc := first_row :: tl) in *.
      assert (Hseps : map (fun r => separation_arcsec separation (ra, dec)
                                      (ALPHA_J2000 (snd r)) (DELTA_J2000 (snd r))) vc
                      = map Fin (map (fun r => separation_to separation ra dec (snd r)) vc)).
      { rewrite map_map. apply map_ext_in. intros [i d] Hi.
        apply separation_arcsec_sky; [exact Hsky|]. now apply Hvc in Hi. }
      rewrite Hseps, argmin_float_Fin, Hk.
      rewrite nth_map_Fin by now rewrite length_map.
      rewrite gtb_Fin. eexists _, _. split; [exact Hnear|]. reflexivity.
    + left. split; [exact Hbeyond|]. now rewrite SkyCoord_beyond.
    + right. left. split; [exact Hnan|].
      rewrite SkyCoord_between by now apply not_a_position_not_beyond with ra.
      cbn [map]. rewrite !(separation_arcsec_nan _ _ _ _ Hnan).
      reflexivity.
Qed.

(** With a reference position on the sky. *)
Lemma find_nearest_object_sky (df : list SourceDetection) (ra dec : pyfloat)
  (max_distance : Q) :
  sky_position ra dec ->
  ((forall j row, nth_error df j = Some row -> valid_mask row = false)
   /\ find_nearest_object separation df ra dec max_distance = Ok None)
  \/ (exists idx sep,
         nearest_valid separation df ra dec idx sep
         /\ find_nearest_object separation df ra dec max_distance
            = if Qgtb sep max_distance then Ok None else Ok (Some (idx, Fin sep))).
Proof.
  intro Hsky.
  destruct (find_nearest_object_cases df ra dec max_distance)
    as [H|(first & _ & [[Hb _]|[[Hn _]|[_ H]]])].
  - now left.
  - now destruct (sky_position_not_beyond _ _ Hsky).
  - now destruct (sky_position_is_position _ _ Hsky).
  - now right.
Qed.

Lemma first_valid_unique (df : list SourceDetection) (i j : nat) :
  first_valid df i -> first_valid df j -> i = j.
Proof.
  intros (row & Hrow & Hv & Hle) (row' & Hrow' & Hv' & Hle').
  pose proof (Hle _ _ Hrow' Hv'). pose proof (Hle' _ _ Hrow Hv). lia.
Qed.

(** When [find_nearest_object] raises. *)
Lemma find_nearest_object_raises (df : list SourceDetection) (ra dec : pyfloat)
  (max_distance : Q) (e : exn) :
  find_nearest_object separation df ra dec max_distance = Raise e
  <-> e = ValueError /\ beyond_the_poles dec
      /\ exists j row, nth_error df j = Some row /\ valid_detection row.
Proof.
  destruct (find_nearest_object_cases df ra dec max_distance)
    as [[Hnone ->]|(first & (row & Hrow & Hv & _) & [[Hb ->]|[[Hn ->]|[Hs (idx & sep & _ & ->)]]])].
  - split; [discriminate|]. intros (_ & _ & j & row & Hj & Hv).
    apply valid_mask_valid_detection in Hv. rewrite (Hnone _ _ Hj) in Hv. discriminate.
  - split.
    + intros [= <-]. split; [reflexivity|]. split; [exact Hb|]. eauto.
    + intros (-> & _). reflexivity.
  - split; [discriminate|]. intros (_ & Hb & _).
    now destruct (not_a_position_not_beyond _ _ Hn).
  - split.
    + destruct (Qgtb sep max_distance); discriminate.
    + intros (_ & Hb & _). now destruct (sky_position_not_beyond _ _ Hs).
Qed.

Lemma nearest_valid_unique (df : list SourceDetection) (ra dec : pyfloat)
  (idx idx' : nat) (sep sep' : Q) :
  nearest_valid separation df ra dec idx sep -> nearest_valid separation df ra dec idx' sep' ->
  idx = idx' /\ sep = sep'.
Proof.
  intros (row & Hrow & Hv & Hs & Hle & Hfirst) (row' & Hrow' & Hv' & Hs' & Hle' & Hfirst').
  subst sep sep'.
  pose proof (Hle _ _ Hrow' Hv') as H1. pose proof (Hle' _ _ Hrow Hv) as H2.
  destruct (Nat.lt_trichotomy idx idx') as [Hlt|[Heq|Hlt]].
  - pose proof (Hfirst' _ _ Hrow Hv Hlt). lra.
  - subst idx'. split; [reflexivity|]. congruence.
  - pose proof (Hfirst _ _ Hrow' Hv' Hlt). lra.
Qed.

Lemma nearest_valid_spec (df : list SourceDetection) (ra dec : pyfloat) (idx : nat)
  (sep : Q) :
  nearest_valid separation df ra dec idx sep <->
  exists row,
    nth_error df idx = Some row
    /\ valid_detection row
    /\ sep = separation ra dec (ALPHA_J2000 row) (DELTA_J2000 row)
    /\ (forall j row',
           nth_error df j = Some row' -> valid_detection row' ->
           sep <= separation ra dec (ALPHA_J2000 row') (DELTA_J2000 row'))
    /\ (forall j row',
           nth_error df j = Some row' -> valid_detection row' ->
           (j < idx)%nat ->
           sep < separation ra dec (ALPHA_J2000 row') (DELTA_J2000 row')).
Proof.
  unfold nearest_valid, separation_to.
  split; intros (row & Hrow & Hv & Hs & Hle & Hfirst); exists row;
    (split; [exact Hrow|]); (split; [now apply valid_mask_valid_detection|]);
    (split; [exact Hs|]); split; intros j row' Hj Hv'.
  - apply (Hle j row' Hj). now apply valid_mask_valid_detection.
  - apply (Hfirst j row' Hj). now apply valid_mask_valid_detection.
  - apply (Hle j row' Hj). now apply valid_mask_valid_detection.
  - apply (Hfirst j row' Hj). now apply valid_mask_valid_detection.
Qed.

(** C1. Whatever the reference coordinates are, a detection that
    [find_nearest_object] answers is a valid one (declination in
    [-90, 90], right ascension in [0, 360)). For a reference position on
    the sky it answers [(idx, sep)] exactly when row [idx] is a valid
    detection at separation [sep <= max_distance] from the position, no
    valid detection is closer, and every valid detection earlier in the
    catalog is strictly farther: invalid rows are never considered, the
    global minimum is selected, and among equal minima the first in
    catalog order is returned. For coordinates that are no position (a
    NaN, or a right ascension that is not finite) every separation is NaN
    and the answer is the first valid detection at a separation of NaN;
    and for a declination beyond the poles the call raises ValueError as
    soon as the catalog has a valid detection. *)
Theorem find_nearest_object_first_global_minimum :
  forall (df : list SourceDetection) (ra dec : pyfloat) (max_distance : Q),
    (forall idx sep,
        find_nearest_object separation df ra dec max_distance = Ok (Some (idx, sep)) ->
        exists row, nth_error df idx = Some row /\ valid_detection row)
    /\ (sky_position ra dec ->
        forall idx sep,
          find_nearest_object separation df ra dec max_distance = Ok (Some (idx, sep))
          <-> exists s,
               sep = Fin s /\ s <= max_distance
               /\ exists row,
                   nth_error df idx = Some row
                   /\ valid_detection row
                   /\ s = separation ra dec (ALPHA_J2000 row) (DELTA_J2000 row)
                   /\ (forall j row',
                          nth_error df j = Some row' -> valid_detection row' ->
                          s <= separation ra dec (ALPHA_J2000 row') (DELTA_J2000 row'))
                   /\ (forall j row',
                          nth_error df j = Some row' -> valid_detection row' ->
                          (j < idx)%nat ->
                          s < separation ra dec (ALPHA_J2000 row') (DELTA_J2000 row')))
    /\ (not_a_position ra dec ->
        forall idx sep,
          find_nearest_object separation df ra dec max_distance = Ok (Some (idx, sep))
          <-> sep = NaN /\ first_valid df idx)
    /\ (forall e,
           find_nearest_object separation df ra dec max_distance = Raise e
           <-> e = ValueError /\ beyond_the_poles dec
               /\ exists j row, nth_error df j = Some row /\ valid_detection row).
Proof.
  intros df ra dec max_distance.
  split; [|split; [|split]].
  - intros idx sep H.
    destruct (find_nearest_object_cases df ra dec max_distance)
      as [[_ Hn]|(first & (row & Hrow & Hv & _) & [[_ Hr]|[[_ Hr]|[_ (idx' & sep' & Hnear & Hr)]]])];
      rewrite H in *; try discriminate.
    + injection Hr as -> _. eauto.
    + destruct (Qgtb sep' max_distance); [discriminate|]. injection Hr as -> _.
      apply nearest_valid_spec in Hnear. destruct Hnear as (row' & Hrow' & Hv' & _).
      eauto.
  - intros Hsky idx sep.
    destruct (find_nearest_object_sky df ra dec max_distance Hsky)
      as [[Hnone ->]|(idx' & sep' & Hnear & ->)].
    + split; [discriminate|].
      intros (s & _ & _ & row & Hrow & Hv & _).
      apply valid_mask_valid_detection in Hv. rewrite (Hnone _ _ Hrow) in Hv.
      discriminate.
    + destruct (Qgtb sep' max_distance) eqn:E.
      * apply Qgtb_gt in E. split; [discriminate|].
        intros (s & _ & Hle & Hnear'). apply nearest_valid_spec in Hnear'.
        destruct (nearest_valid_unique _ _ _ _ _ _ _ Hnear Hnear') as [_ <-]. lra.
      * apply Qgtb_le in E. split.
        -- intros [= <- <-]. exists sep'. split; [reflexivity|]. split; [exact E|].
           now apply nearest_valid_spec.
        -- intros (s & -> & _ & Hnear'). apply nearest_valid_spec in Hnear'.
           destruct (nearest_valid_unique _ _ _ _ _ _ _ Hnear Hnear') as [<- <-].
           reflexivity.
  - intros Hnan idx sep.
    destruct (find_nearest_object_cases df ra dec max_distance)
      as [[Hnone ->]|(first & Hfirst & [[Hb _]|[[_ ->]|[Hs _]]])].
    + split; [discriminate|]. intros (_ & row & Hrow & Hv & _).
      apply valid_mask_valid_detection in Hv. rewrite (Hnone _ _ Hrow) in Hv.
      discriminate.
    + now destruct (not_a_position_not_beyond _ _ Hnan).
    + split.
      * intros [= <- <-]. now split.
      * intros (-> & Hidx). now rewrite (first_valid_unique _ _ _ Hfirst Hidx).
    + now destruct (sky_position_is_position _ _ Hs).
  - intro e. apply find_nearest_object_raises.
Qed.

(** C2. For a reference position on the sky [find_nearest_object] answers
    none exactly when every valid detection lies strictly farther than
    [max_distance] from it (in particular when there is no valid
    detection); and when the least separation of the valid detections
    equals [max_distance], the detection is accepted. Over all reference
    coordinates, it answers none exactly when the catalog has no valid
    detection, or the reference is a position on the sky and every valid
    detection lies strictly farther than [max_distance]. *)
Theorem find_nearest_object_none_iff_all_beyond :
  forall (df : list SourceDetection) (ra dec : pyfloat) (max_distance : Q),
    (sky_position ra dec ->
     (find_nearest_object separation df ra dec max_distance = Ok None
      <-> (forall j row,
              nth_error df j = Some row -> valid_detection row ->
              max_distance < separation ra dec (ALPHA_J2000 row) (DELTA_J2000 row)))
     /\ ((exists j row,
             nth_error df j = Some row /\ valid_detection row
             /\ separation ra dec (ALPHA_J2000 row) (DELTA_J2000 row) == max_distance)
         -> (forall j row,
                nth_error df j = Some row -> valid_detection row ->
                max_distance <= separation ra dec (ALPHA_J2000 row) (DELTA_J2000 row))
         -> exists idx sep,
             find_nearest_object separation df ra dec max_distance
             = Ok (Some (idx, Fin sep))
             /\ sep == max_distance))
    /\ (find_nearest_object separation df ra dec max_distance = Ok None
        <-> (forall j row, nth_error df j = Some row -> ~ valid_detection row)
            \/ (sky_position ra dec
                /\ forall j row,
                    nth_error df j = Some row -> valid_detection row ->
                    max_distance
                    < separation ra dec (ALPHA_J2000 row) (DELTA_J2000 row))).
Proof.
  intros df ra dec max_distance.
  assert (Hsky : sky_position ra dec ->
     (find_nearest_object separation df ra dec max_distance = Ok None
      <-> (forall j row,
              nth_error df j = Some row -> valid_detection row ->
              max_distance < separation ra dec (ALPHA_J2000 row) (DELTA_J2000 row)))
     /\ ((exists j row,
             nth_error df j = Some row /\ valid_detection row
             /\ separation ra dec (ALPHA_J2000 row) (DELTA_J2000 row) == max_distance)
         -> (forall j row,
                nth_error df j = Some row -> valid_detection row ->
                max_distance <= separation ra dec (ALPHA_J2000 row) (DELTA_J2000 row))
         -> exists idx sep,
             find_nearest_object separation df ra dec max_distance
             = Ok (Some (idx, Fin sep))
             /\ sep == max_distance)).
  { intro Hs.
    destruct (find_nearest_object_sky df ra dec max_distance Hs)
      as [[Hnone ->]|(idx & sep & Hnear & ->)].
    - split.
      + split; [|reflexivity]. intros _ j row Hj Hv.
        apply valid_mask_valid_detection in Hv. rewrite (Hnone _ _ Hj) in Hv.
        discriminate.
      + intros (j & row & Hj & Hv & _) _.
        apply valid_mask_valid_detection in Hv. rewrite (Hnone _ _ Hj) in Hv.
        discriminate.
    - destruct Hnear as (row & Hrow & Hv & Hs' & Hle & Hfirst).
      split.
      + destruct (Qgtb sep max_distance) eqn:E.
        * apply Qgtb_gt in E. split; [|reflexivity]. intros _ j row' Hj Hv'.
          apply valid_mask_valid_detection in Hv'.
          pose proof (Hle _ _ Hj Hv') as H. unfold separation_to in H. lra.
        * apply Qgtb_le in E. split; [discriminate|]. intro Hall. exfalso.
          pose proof (Hall _ _ Hrow (proj1 (valid_mask_valid_detection row) Hv)) as H.
          unfold separation_to in Hs'. rewrite <- Hs' in H. lra.
      + intros (j & row' & Hj & Hv' & Heq) Hall.
        apply valid_mask_valid_detection in Hv'.
        pose proof (Hle _ _ Hj Hv') as H1. unfold separation_to in H1.
        pose proof (Hall _ _ Hrow (proj1 (valid_mask_valid_detection row) Hv)) as H2.
        unfold separation_to in Hs'. rewrite <- Hs' in H2.
        assert (Hsm : sep == max_distance) by lra.
        assert (E : Qgtb sep max_distance = false) by (apply Qgtb_le; lra).
        rewrite E. exists idx, sep. split; [reflexivity|exact Hsm]. }
  split; [exact Hsky|].
  destruct (find_nearest_object_cases df ra dec max_distance)
    as [[Hnone Hr]|(first & (row & Hrow & Hv & _) & [[Hb Hr]|[[Hn Hr]|[Hs _]]])].
  - rewrite Hr. split; [|reflexivity]. intros _. left. intros j row' Hj Hv'.
    apply valid_mask_valid_detection in Hv'. rewrite (Hnone _ _ Hj) in Hv'.
    discriminate.
  - rewrite Hr. split; [discriminate|]. intros [Hnone|[Hs _]].
    + now destruct (Hnone _ _ Hrow).
    + now destruct (sky_position_not_beyond _ _ Hs).
  - rewrite Hr. split; [discriminate|]. intros [Hnone|[Hs _]].
    + now destruct (Hnone _ _ Hrow).
    + now destruct (sky_position_is_position _ _ Hs).
  - rewrite (proj1 (Hsky Hs)). split.
    + intro H. right. now split.
    + intros [Hnone|[_ H]]; [|exact H].
      intros j row' Hj Hv'. now destruct (Hnone _ _ Hj).
Qed.

End NearestObject.

(** ** Column minimum and maximum *)

Lemma min_from_spec (l : list Q) :
  forall m : Q,
    (min_from m l = m \/ In (min_from m l) l)
    /\ min_from m l <= m
    /\ (forall x, In x l -> min_from m l <= x).
Proof.
  induction l as [|x l IH]; intro m; simpl.
  - repeat split; [now left|lra|tauto].
  - destruct (Qltb x m) eqn:E.
    + apply Qltb_lt in E. destruct (IH x) as (Hin & Hle & Hall).
      repeat split.
      * destruct Hin as [->|Hin]; [right; now left|right; now right].
      * lra.
      * intros y [<-|Hy]; [exact Hle|now apply Hall].
    + apply Qltb_ge in E. destruct (IH m) as (Hin & Hle & Hall).
      repeat split.
      * destruct Hin as [->|Hin]; [now left|right; now right].
      * exact Hle.
      * intros y [<-|Hy]; [lra|now apply Hall].
Qed.

Lemma max_from_spec (l : list Q) :
  forall m : Q,
    (max_from m l = m \/ In (max_from m l) l)
    /\ m <= max_from m l
    /\ (forall x, In x l -> x <= max_from m l).
Proof.
  induction l as [|x l IH]; intro m; simpl.
  - repeat split; [now left|lra|tauto].
  - destruct (Qltb m x) eqn:E.
    + apply Qltb_lt in E. destruct (IH x) as (Hin & Hle & Hall).
      repeat split.
      * destruct Hin as [->|Hin]; [right; now left|right; now right].
      * lra.
      * intros y [<-|Hy]; [exact Hle|now apply Hall].
    + apply Qltb_ge in E. destruct (IH m) as (Hin & Hle & Hall).
      repeat split.
      * destruct Hin as [->|Hin]; [now left|right; now right].
      * exact Hle.
      * intros y [<-|Hy]; [lra|now apply Hall].
Qed.

Lemma series_min_spec (l : list Q) (m : Q) :
  series_min l = Some m -> In m l /\ forall x, In x l -> m <= x.
Proof.
  destruct l as [|x l]; simpl; [discriminate|]. intros [= <-].
  destruct (min_from_spec l x) as (Hin & Hle & Hall). split.
  - destruct Hin as [->|Hin]; [now left|now right].
  - intros y [<-|Hy]; [exact Hle|now apply Hall].
Qed.

Lemma series_max_spec (l : list Q) (m : Q) :
  series_max l = Some m -> In m l /\ forall x, In x l -> x <= m.
Proof.
  destruct l as [|x l]; simpl; [discriminate|]. intros [= <-].
  destruct (max_from_spec l x) as (Hin & Hle & Hall). split.
  - destruct Hin as [->|Hin]; [now left|now right].
  - intros y [<-|Hy]; [exact Hle|now apply Hall].
Qed.

Lemma series_min_nonempty (l : list Q) : l <> [] -> exists m, series_min l = Some m.
Proof. destruct l; [congruence|]. intros _. simpl. eauto. Qed.

Lemma series_max_nonempty (l : list Q) : l <> [] -> exists m, series_max l = Some m.
Proof. destruct l; [congruence|]. intros _. simpl. eauto. Qed.

(** ** Loops that append to a result list *)

Section Loops.

Context {A R : Type}.


Lemma for_each_ok (body : A -> iteration R) (items : list A) :
  forall results out : list R,
    for_each body items results = Ok out -> out = results ++ appended body items.
Proof.
  induction items as [|item items IH]; intros results out; simpl.
  - intros [= <-]. now rewrite app_nil_r.
  - destruct (body item) as [r|w|e]; intro H.
    + apply IH in H. now rewrite H, <- app_assoc.
    + now apply IH in H.
    + discriminate.
Qed.

Lemma for_each_never_raises (body : A -> iteration R) (items : list A) :
  (forall item e, In item items -> body item <> Raised e) ->
  forall results : list R,
    for_each body items results = Ok (results ++ appended body items).
Proof.
  induction items as [|item items IH]; intros Hno results; simpl.
  - now rewrite app_nil_r.
  - pose proof (Hno item) as Hitem.
    destruct (body item) as [r|w|e].
    + rewrite IH by (intros; apply Hno; now right). now rewrite <- app_assoc.
    + apply IH. intros; apply Hno; now right.
    + exfalso. apply (Hitem e); [now left|reflexivity].
Qed.

Lemma in_appended (body : A -> iteration R) (items : list A) (r : R) :
  In r (appended body items) <-> exists item, In item items /\ body item = Append r.
Proof.
  unfold appended. rewrite in_flat_map. split.
  - intros (item & Hin & Hr). exists item. split; [exact Hin|].
    destruct (body item) as [r'|w|e]; simpl in Hr; try tauto.
    destruct Hr as [->|[]]. reflexivity.
  - intros (item & Hin & Hr). exists item. split; [exact Hin|].
    rewrite Hr. now left.
Qed.

End Loops.

(** ** Ephemeris lookup *)

Section Ephemeris.

Import ProcessPhotometry.

Context {pandas_sort : PandasSort}.

Lemma sorted_positions_in (positions_df : list Position) (p : Position) :
  In p (sort_values pos_MJD positions_df) <-> In p positions_df.
Proof.
  split; apply Permutation_in;
    [apply sort_values_perm|apply Permutation_sym, sort_values_perm].
Qed.

Lemma sorted_bounds (positions_df : list Position) (lo hi : Q) :
  least_mjd positions_df lo -> greatest_mjd positions_df hi ->
  exists lo' hi',
    series_min (map pos_MJD (sort_values pos_MJD positions_df)) = Some lo'
    /\ series_max (map pos_MJD (sort_values pos_MJD positions_df)) = Some hi'
    /\ lo' == lo /\ hi' == hi.
Proof.
  intros [(p & Hp & Hpl) Hlo] [(q & Hq & Hqh) Hhi].
  assert (Hne : map pos_MJD (sort_values pos_MJD positions_df) <> []).
  { apply <- sorted_positions_in in Hp. destruct (sort_values pos_MJD positions_df);
      [destruct Hp|discriminate]. }
  destruct (series_min_nonempty _ Hne) as [lo' Hmin].
  destruct (series_max_nonempty _ Hne) as [hi' Hmax].
  exists lo', hi'. split; [exact Hmin|]. split; [exact Hmax|].
  apply series_min_spec in Hmin. apply series_max_spec in Hmax.
  destruct Hmin as [Hin1 Hall1]. destruct Hmax as [Hin2 Hall2].
  apply in_map_iff in Hin1. destruct Hin1 as (p1 & <- & Hp1).
  apply in_map_iff in Hin2. destruct Hin2 as (p2 & <- & Hp2).
  apply -> sorted_positions_in in Hp1. apply -> sorted_positions_in in Hp2.
  pose proof (Hlo _ Hp1). pose proof (Hhi _ Hp2).
  pose proof (Hall1 (pos_MJD p) (in_map _ _ _ (proj2 (sorted_positions_in _ _) Hp))).
  pose proof (Hall2 (pos_MJD q) (in_map _ _ _ (proj2 (sorted_positions_in _ _) Hq))).
  split; lra.
Qed.

Lemma find_nearest_mjd_position_nearest (positions_df : list Position) (mjd : Q)
  (ast_ra ast_dec : pyfloat) :
  find_nearest_mjd_position positions_df mjd = Ok (ast_ra, ast_dec) ->
  exists p, nearest_sample positions_df mjd p
            /\ ast_ra = pos_RA p /\ ast_dec = pos_DEC p.
Proof.
  unfold find_nearest_mjd_position, iloc. intro H.
  destruct (argmin _) as [k|] eqn:Ek; [|discriminate].
  destruct (nth_error positions_df k) as [p|] eqn:Ep; [|discriminate].
  injection H as <- <-. exists p. split; [|split; reflexivity].
  destruct (argmin_first_minimum _ _ Ek) as (v & Hn & Hle & _).
  rewrite nth_error_map, Ep in Hn. simpl in Hn. injection Hn as <-.
  split; [eapply nth_error_In; eassumption|].
  intros q Hq. destruct (In_nth_error _ _ Hq) as [j Hj].
  apply (Hle j). now rewrite nth_error_map, Hj.
Qed.

Lemma find_nearest_mjd_position_defined (positions_df : list Position) (mjd : Q) :
  positions_df <> [] ->
  exists ast_ra ast_dec,
    find_nearest_mjd_position positions_df mjd = Ok (ast_ra, ast_dec).
Proof.
  intro Hne. unfold find_nearest_mjd_position, iloc.
  destruct (argmin_nonempty (map (fun p => Qabs (pos_MJD p - mjd)) positions_df))
    as [k Hk].
  { destruct positions_df; [congruence|discriminate]. }
  rewrite Hk.
  destruct (argmin_first_minimum _ _ Hk) as (v & Hn & _).
  rewrite nth_error_map in Hn.
  destruct (nth_error positions_df k) as [p|]; [|discriminate].
  eauto.
Qed.

Lemma nearest_sample_sorted (positions_df : list Position) (mjd : Q) (p : Position) :
  nearest_sample (sort_values pos_MJD positions_df) mjd p
  <-> nearest_sample positions_df mjd p.
Proof.
  unfold nearest_sample. rewrite sorted_positions_in.
  split; intros [Hp Hall]; (split; [exact Hp|]); intros q Hq; apply Hall.
  - now apply <- sorted_positions_in.
  - now apply -> sorted_positions_in in Hq.
Qed.

Lemma sorted_positions_nonempty (positions_df : list Position) :
  positions_df <> [] -> sort_values pos_MJD positions_df <> [].
Proof.
  destruct positions_df as [|p0 rest]; [congruence|]. intros _ E.
  assert (Hin : In p0 (sort_values pos_MJD (p0 :: rest)))
    by (apply <- sorted_positions_in; now left).
  rewrite E in Hin. destruct Hin.
Qed.

End Ephemeris.

(** ** The reducers *)


Section Reducers.

Import ProcessPhotometry.

Variable separation : pyfloat -> pyfloat -> pyfloat -> pyfloat -> Q.
Context {pandas_sort : PandasSort}.


Lemma find_nearest_object_row (df : list SourceDetection) (ra dec : pyfloat)
  (max_distance : Q) (idx : nat) (sep : pyfloat) :
  find_nearest_object separation df ra dec max_distance = Ok (Some (idx, sep)) ->
  exists row, iloc df idx = Some row.
Proof.
  intro H.
  destruct (find_nearest_object_cases separation df ra dec max_distance)
    as [[_ Hn]|(first & (row & Hrow & _) & [[_ Hr]|[[_ Hr]|[_ (idx' & sep' & (row' & Hrow' & _) & Hr)]]])];
    rewrite H in *; try discriminate.
  - injection Hr as -> _. exists row. exact Hrow.
  - destruct (Qgtb sep' max_distance); [discriminate|].
    injection Hr as -> _. exists row'. exact Hrow'.
Qed.

Lemma all_finite_Forall (values : list pyfloat) :
  all_finite values = true <-> Forall (fun x => isfinite x = true) values.
Proof.
  unfold all_finite. rewrite forallb_forall, Forall_forall. tauto.
Qed.

(** A pass of the static loop raises exactly when one of the three
    references has its declination beyond the poles and the catalog of the
    epoch has a valid detection; what it raises is ValueError. *)
Lemma static_iteration_raises (target_coords : Coords) (comp_stars : CompStars)
  (data : EpochData) (e : exn) :
  static_iteration separation target_coords comp_stars data = Raised e
  <-> e = ValueError
      /\ (exists j row, nth_error (df data) j = Some row /\ valid_detection row)
      /\ (beyond_the_poles (dec target_coords)
          \/ beyond_the_poles (dec (comp1 comp_stars))
          \/ beyond_the_poles (dec (comp2 comp_stars))).
Proof.
  unfold static_iteration.
  pose proof (find_nearest_object_raises separation (df data) (ra target_coords)
                (dec target_coords) default_max_distance) as Rt.
  pose proof (find_nearest_object_raises separation (df data) (ra (comp1 comp_stars))
                (dec (comp1 comp_stars)) default_max_distance) as R1.
  pose proof (find_nearest_object_raises separation (df data) (ra (comp2 comp_stars))
                (dec (comp2 comp_stars)) default_max_distance) as R2.
  destruct (find_nearest_object separation (df data) (ra target_coords)
              (dec target_coords) default_max_distance) as [target_found|e0] eqn:Et.
  2:{ destruct (proj1 (Rt e0) eq_refl) as (-> & Hb & Hv).
      split; [intros [= <-]; tauto|intros (-> & _); reflexivity]. }
  destruct (find_nearest_object separation (df data) (ra (comp1 comp_stars))
              (dec (comp1 comp_stars)) default_max_distance) as [comp1_found|e0] eqn:E1.
  2:{ destruct (proj1 (R1 e0) eq_refl) as (-> & Hb & Hv).
      split; [intros [= <-]; tauto|intros (-> & _); reflexivity]. }
  destruct (find_nearest_object separation (df data) (ra (comp2 comp_stars))
              (dec (comp2 comp_stars)) default_max_distance) as [comp2_found|e0] eqn:E2.
  2:{ destruct (proj1 (R2 e0) eq_refl) as (-> & Hb & Hv).
      split; [intros [= <-]; tauto|intros (-> & _); reflexivity]. }
  split.
  - destruct target_found as [[target_idx target_sep]|]; [|discriminate].
    destruct comp1_found as [[comp1_idx comp1_sep]|]; [|discriminate].
    destruct comp2_found as [[comp2_idx comp2_sep]|]; [|discriminate].
    destruct (find_nearest_object_row _ _ _ _ _ _ Et) as [target_row ->].
    destruct (find_nearest_object_row _ _ _ _ _ _ E1) as [comp1_row ->].
    destruct (find_nearest_object_row _ _ _ _ _ _ E2) as [comp2_row ->].
    destruct (negb _); discriminate.
  - intros (_ & Hv & [Hb|[Hb|Hb]]); exfalso.
    + assert (H : Ok target_found = Raise ValueError) by (apply Rt; tauto).
      discriminate.
    + assert (H : Ok comp1_found = Raise ValueError) by (apply R1; tauto).
      discriminate.
    + assert (H : Ok comp2_found = Raise ValueError) by (apply R2; tauto).
      discriminate.
Qed.

Lemma static_iteration_append_finite (target_coords : Coords) (comp_stars : CompStars)
  (data : EpochData) (r : PhotometryRecord) :
  static_iteration separation target_coords comp_stars data = Append r ->
  Forall (fun x => isfinite x = true) (magnitudes r).
Proof.
  unfold static_iteration. intro H.
  repeat break_match_in H; try discriminate.
  injection H as <-. unfold magnitudes. simpl.
  apply all_finite_Forall.
  match goal with H : negb _ = false |- _ => apply negb_false_iff in H; exact H end.
Qed.

Lemma asteroid_iteration_append_finite (positions_df : list Position)
  (mjd_min mjd_max : option Q) (objects : CompStars) (data : EpochData)
  (r : AsteroidRecord) :
  asteroid_iteration separation positions_df mjd_min mjd_max objects data = Append r ->
  Forall (fun x => isfinite x = true) (asteroid_magnitudes r).
Proof.
  unfold asteroid_iteration. intro H.
  repeat break_match_in H; try discriminate.
  injection H as <-. unfold asteroid_magnitudes. simpl.
  apply all_finite_Forall.
  match goal with H : negb _ = false |- _ => apply negb_false_iff in H; exact H end.
Qed.

(** A pass of the moving-target loop raises nothing when the ephemeris
    has a sample and no declination, of the comparison stars or of the
    ephemeris, lies beyond the poles. *)
Lemma asteroid_iteration_never_raises (positions_df : list Position)
  (mjd_min mjd_max : option Q) (objects : CompStars) (data : EpochData) (e : exn) :
  positions_df <> [] ->
  ~ beyond_the_poles (dec (comp1 objects)) ->
  ~ beyond_the_poles (dec (comp2 objects)) ->
  (forall p, In p positions_df -> ~ beyond_the_poles (pos_DEC p)) ->
  asteroid_iteration separation positions_df mjd_min mjd_max objects data
  <> Raised e.
Proof.
  intros Hne Hb1 Hb2 Hbp. unfold asteroid_iteration.
  destruct (find_nearest_mjd_position_defined positions_df (mjd data) Hne)
    as (ast_ra & ast_dec & Hpos).
  rewrite Hpos.
  destruct (find_nearest_mjd_position_nearest _ _ _ _ Hpos) as (p & [Hp _] & _ & ->).
  pose proof (Hbp p Hp) as Hb3.
  repeat break_match; try discriminate.
  all: repeat match goal with
         | H : find_nearest_object _ _ _ _ _ = Ok (Some _) |- _ =>
             apply find_nearest_object_row in H; destruct H as [? H]
         | H : find_nearest_object _ _ _ _ _ = Raise _ |- _ =>
             apply find_nearest_object_raises in H
         end; try congruence; tauto.
Qed.

Lemma not_all_finite (values : list pyfloat) :
  Exists (fun x => isfinite x = false) values -> all_finite values = false.
Proof.
  intro H. destruct (all_finite values) eqn:E; [|reflexivity].
  apply all_finite_Forall in E. rewrite Forall_forall in E.
  apply Exists_exists in H. destruct H as (x & Hin & Hx).
  rewrite (E x Hin) in Hx. discriminate.
Qed.

(** C3. Every row of either result table has its four magnitude fields
    finite: a table that a reducer returns holds exactly the rows its
    epochs append, in their order, and each of them is finite. The static
    reducer returns a table unless a reference declination lies beyond
    the poles, and the moving-target reducer does when, besides, the
    ephemeris has a sample. An epoch whose matched detections carry a
    non-finite value among target magnitude, target magnitude error, comp1
    magnitude and comp2 magnitude appends nothing (it ends in the
    invalid-magnitude [continue]). *)
Theorem reducers_emit_only_finite_magnitudes :
  (forall (photometry_data : PhotometryData) (target_coords : Coords)
          (comp_stars : CompStars),
      (forall results,
          process_static_object_photometry separation photometry_data
            target_coords comp_stars = Ok results ->
          results
          = appended (fun item => static_iteration separation target_coords
                                    comp_stars (snd item)) photometry_data
          /\ Forall (fun r => Forall (fun x => isfinite x = true) (magnitudes r))
               results)
      /\ (~ beyond_the_poles (dec target_coords) ->
          ~ beyond_the_poles (dec (comp1 comp_stars)) ->
          ~ beyond_the_poles (dec (comp2 comp_stars)) ->
          exists results,
            process_static_object_photometry separation photometry_data
              target_coords comp_stars = Ok results))
  /\ (forall (photometry_data : PhotometryData) (positions_df : list Position)
             (objects : CompStars),
         (positions_df <> [] ->
          ~ beyond_the_poles (dec (comp1 objects)) ->
          ~ beyond_the_poles (dec (comp2 objects)) ->
          (forall p, In p positions_df -> ~ beyond_the_poles (pos_DEC p)) ->
          exists results,
            process_asteroid_photometry separation photometry_data positions_df
              objects = Ok results)
         /\ forall results,
             process_asteroid_photometry separation photometry_data positions_df
               objects = Ok results ->
             results
             = appended (fun item => asteroid_epoch separation positions_df objects
                                       (snd item)) photometry_data
             /\ Forall (fun r => Forall (fun x => isfinite x = true)
                                   (asteroid_magnitudes r)) results)
  /\ (forall (target_coords : Coords) (comp_stars : CompStars) (data : EpochData)
             target_idx target_sep comp1_idx comp1_sep comp2_idx comp2_sep
             target_row comp1_row comp2_row,
         find_nearest_object separation (df data) (ra target_coords)
           (dec target_coords) default_max_distance
         = Ok (Some (target_idx, target_sep)) ->
         find_nearest_object separation (df data) (ra (comp1 comp_stars))
           (dec (comp1 comp_stars)) default_max_distance
         = Ok (Some (comp1_idx, comp1_sep)) ->
         find_nearest_object separation (df data) (ra (comp2 comp_stars))
           (dec (comp2 comp_stars)) default_max_distance
         = Ok (Some (comp2_idx, comp2_sep)) ->
         iloc (df data) target_idx = Some target_row ->
         iloc (df data) comp1_idx = Some comp1_row ->
         iloc (df data) comp2_idx = Some comp2_row ->
         Exists (fun x => isfinite x = false)
           [MAG_AUTO target_row; MAGERR_AUTO target_row;
            MAG_AUTO comp1_row; MAG_AUTO comp2_row] ->
         static_iteration separation target_coords comp_stars data
         = Continue InvalidMagnitude)
  /\ (forall (positions_df : list Position) (mjd_min mjd_max : option Q)
             (objects : CompStars) (data : EpochData)
             ast_ra ast_dec ast_idx ast_sep comp1_idx comp1_sep comp2_idx comp2_sep
             ast_row comp1_row comp2_row,
         outside_position_range (mjd data) mjd_min mjd_max = false ->
         find_nearest_object separation (df data) (ra (comp1 objects))
           (dec (comp1 objects)) default_max_distance
         = Ok (Some (comp1_idx, comp1_sep)) ->
         find_nearest_object separation (df data) (ra (comp2 objects))
           (dec (comp2 objects)) default_max_distance
         = Ok (Some (comp2_idx, comp2_sep)) ->
         find_nearest_mjd_position positions_df (mjd data) = Ok (ast_ra, ast_dec) ->
         find_nearest_object separation (df data) ast_ra ast_dec
           asteroid_max_distance = Ok (Some (ast_idx, ast_sep)) ->
         iloc (df data) ast_idx = Some ast_row ->
         iloc (df data) comp1_idx = Some comp1_row ->
         iloc (df data) comp2_idx = Some comp2_row ->
         Exists (fun x => isfinite x = false)
           [MAG_AUTO ast_row; MAGERR_AUTO ast_row;
            MAG_AUTO comp1_row; MAG_AUTO comp2_row] ->
         asteroid_iteration separation positions_df mjd_min mjd_max objects data
         = Continue InvalidMagnitude).
Proof.
  split; [|split; [|split]].
  - intros photometry_data target_coords comp_stars. split.
    + intros results H. unfold process_static_object_photometry in H.
      apply for_each_ok in H. split; [exact H|]. subst results.
      apply Forall_forall. intros r Hr. apply in_appended in Hr.
      destruct Hr as (item & _ & Hr). eapply static_iteration_append_finite, Hr.
    + intros Hbt Hb1 Hb2. eexists. unfold process_static_object_photometry.
      apply (for_each_never_raises _ _) with (results := []).
      intros item e _ H. apply static_iteration_raises in H. tauto.
  - intros photometry_data positions_df objects. split.
    + intros Hne Hb1 Hb2 Hbp. eexists. unfold process_asteroid_photometry.
      apply (for_each_never_raises _ _) with (results := []).
      intros item e _. apply asteroid_iteration_never_raises;
        [now apply sorted_positions_nonempty|exact Hb1|exact Hb2|].
      intros p Hp. apply Hbp. now apply -> sorted_positions_in in Hp.
    + intros results H. unfold process_asteroid_photometry in H.
      apply for_each_ok in H. split; [exact H|]. subst results.
      apply Forall_forall. intros r Hr. apply in_appended in Hr.
      destruct Hr as (item & _ & Hr). eapply asteroid_iteration_append_finite, Hr.
  - intros target_coords comp_stars data target_idx target_sep comp1_idx comp1_sep
      comp2_idx comp2_sep target_row comp1_row comp2_row Ht Hc1 Hc2 Hrt Hr1 Hr2 Hbad.
    unfold static_iteration. rewrite Ht, Hc1, Hc2, Hrt, Hr1, Hr2.
    now rewrite (not_all_finite _ Hbad).
  - intros positions_df mjd_min mjd_max objects data ast_ra ast_dec ast_idx ast_sep
      comp1_idx comp1_sep comp2_idx comp2_sep ast_row comp1_row comp2_row
      Hrange Hc1 Hc2 Hpos Ha Hra Hr1 Hr2 Hbad.
    unfold asteroid_iteration. rewrite Hrange, Hc1, Hc2, Hpos, Ha, Hra, Hr1, Hr2.
    now rewrite (not_all_finite _ Hbad).
Qed.

End Reducers.

(** ** Moving-target mode *)

Section MovingTarget.

Import ProcessPhotometry.

Variable separation : pyfloat -> pyfloat -> pyfloat -> pyfloat -> Q.
Context {pandas_sort : PandasSort}.



(** C4. In moving-target mode an epoch strictly before the first or
    strictly after the last timestamp of the ephemeris is rejected (its
    pass ends in the out-of-range [continue], and alone it yields an empty
    table); an epoch exactly at the first timestamp passes the coverage
    check; and the position the target is matched against is that of a
    sample of the ephemeris closest in time to the epoch, taken as it is:
    such a sample is found whenever the ephemeris is not empty, and a
    record carries its coordinates and the separation of the match
    against them. *)
Theorem ephemeris_coverage_and_nearest_sample :
  forall (positions_df : list Position) (objects : CompStars) (data : EpochData),
    (forall lo hi,
        least_mjd positions_df lo -> greatest_mjd positions_df hi ->
        mjd data < lo \/ hi < mjd data ->
        asteroid_epoch separation positions_df objects data
        = Continue OutsidePositionRange
        /\ forall data_id,
            process_asteroid_photometry separation [(data_id, data)]
              positions_df objects = Ok [])
    /\ (forall lo,
           least_mjd positions_df lo -> mjd data == lo ->
           outside_position_range (mjd data)
             (series_min (map pos_MJD (sort_values pos_MJD positions_df)))
             (series_max (map pos_MJD (sort_values pos_MJD positions_df)))
           = false
           /\ asteroid_epoch separation positions_df objects data
              <> Continue OutsidePositionRange)
    /\ (positions_df <> [] ->
        exists p,
          nearest_sample positions_df (mjd data) p
          /\ find_nearest_mjd_position (sort_values pos_MJD positions_df) (mjd data)
             = Ok (pos_RA p, pos_DEC p))
    /\ (forall r,
           asteroid_epoch separation positions_df objects data = Append r ->
           exists p idx,
             nearest_sample positions_df (mjd data) p
             /\ AST_RA r = pos_RA p /\ AST_DEC r = pos_DEC p
             /\ find_nearest_object separation (df data) (pos_RA p) (pos_DEC p)
                  asteroid_max_distance = Ok (Some (idx, AST_SEP r))).
Proof.
  intros positions_df objects data. split; [|split; [|split]].
  - intros lo hi Hlo Hhi Hout.
    destruct (sorted_bounds _ _ _ Hlo Hhi) as (lo' & hi' & Hmin & Hmax & El & Eh).
    assert (Hrej : asteroid_epoch separation positions_df objects data
                   = Continue OutsidePositionRange).
    { unfold asteroid_epoch, asteroid_iteration, outside_position_range.
      rewrite Hmin, Hmax.
      destruct Hout as [Hout|Hout].
      - assert (E : Qltb (mjd data) lo' = true) by (apply Qltb_lt; lra).
        now rewrite E.
      - assert (E : Qgtb (mjd data) hi' = true) by (apply Qgtb_gt; lra).
        rewrite E. now rewrite orb_true_r. }
    split; [exact Hrej|]. intro data_id.
    unfold process_asteroid_photometry. simpl.
    unfold asteroid_epoch in Hrej. now rewrite Hrej.
  - intros lo Hlo Heq.
    assert (Hcheck : outside_position_range (mjd data)
             (series_min (map pos_MJD (sort_values pos_MJD positions_df)))
             (series_max (map pos_MJD (sort_values pos_MJD positions_df))) = false).
    { destruct Hlo as [(p & Hp & Hpl) Hlo].
      unfold outside_position_range. apply orb_false_iff. split.
      - destruct (series_min _) as [lo'|] eqn:Hmin; [|reflexivity].
        apply series_min_spec in Hmin. destruct Hmin as [_ Hall].
        pose proof (Hall (pos_MJD p)
                      (in_map _ _ _ (proj2 (sorted_positions_in _ _) Hp))).
        apply Qltb_ge. lra.
      - destruct (series_max _) as [hi'|] eqn:Hmax; [|reflexivity].
        apply series_max_spec in Hmax. destruct Hmax as [_ Hall].
        pose proof (Hall (pos_MJD p)
                      (in_map _ _ _ (proj2 (sorted_positions_in _ _) Hp))).
        apply Qgtb_le. lra. }
    split; [exact Hcheck|].
    unfold asteroid_epoch, asteroid_iteration. rewrite Hcheck.
    repeat break_match; discriminate.
  - intro Hne.
    pose proof (sorted_positions_nonempty _ Hne) as Hne'.
    destruct (find_nearest_mjd_position_defined _ (mjd data) Hne')
      as (ast_ra & ast_dec & Hpos).
    destruct (find_nearest_mjd_position_nearest _ _ _ _ Hpos) as (p & Hp & -> & ->).
    exists p. split; [now apply nearest_sample_sorted|exact Hpos].
  - intros r Hr. unfold asteroid_epoch, asteroid_iteration in Hr.
    repeat break_match_in Hr; try discriminate.
    injection Hr as <-. simpl.
    match goal with
    | H : find_nearest_mjd_position _ _ = Ok _ |- _ =>
        destruct (find_nearest_mjd_position_nearest _ _ _ _ H)
          as (sample & Hsample & -> & ->)
    end.
    exists sample. eexists. split; [now apply nearest_sample_sorted|].
    split; [reflexivity|]. split; [reflexivity|]. eassumption.
Qed.

End MovingTarget.


Section Tolerances.

Import ProcessPhotometry.

Variable separation : pyfloat -> pyfloat -> pyfloat -> pyfloat -> Q.
Context {pandas_sort : PandasSort}.

(** An answer is never farther than the tolerance: its separation is not
    [>] it, which holds of a number at most the tolerance and of NaN. *)
Lemma find_nearest_object_within (df : list SourceDetection) (ra dec : pyfloat)
  (max_distance : Q) (idx : nat) (sep : pyfloat) :
  find_nearest_object separation df ra dec max_distance = Ok (Some (idx, sep)) ->
  gtb sep (Fin max_distance) = false
  /\ exists row,
      nth_error df idx = Some row
      /\ valid_detection row
      /\ sep = separation_arcsec separation (ra, dec) (ALPHA_J2000 row)
                 (DELTA_J2000 row).
Proof.
  intro H.
  destruct (find_nearest_object_cases separation df ra dec max_distance)
    as [[_ Hn]|(first & (row & Hrow & Hv & _) & [[_ Hr]|[[Hnan Hr]|[Hsky (idx' & sep' & Hnear & Hr)]]])];
    rewrite H in *; try discriminate.
  - injection Hr as -> ->. split; [reflexivity|]. exists row.
    split; [exact Hrow|]. split; [exact Hv|].
    now rewrite separation_arcsec_nan.
  - destruct (Qgtb sep' max_distance) eqn:E; [discriminate|].
    injection Hr as -> ->. split; [exact E|].
    destruct Hnear as (row' & Hrow' & Hv' & Hs & _). exists row'.
    split; [exact Hrow'|]. split; [now apply valid_mask_valid_detection|].
    rewrite separation_arcsec_sky by assumption. now rewrite Hs.
Qed.

Lemma find_nearest_object_some (df : list SourceDetection) (ra dec : pyfloat)
  (max_distance : Q) (idx : nat) (sep : pyfloat) :
  sky_position ra dec ->
  find_nearest_object separation df ra dec max_distance = Ok (Some (idx, sep)) ->
  exists s, sep = Fin s /\ s <= max_distance
            /\ nearest_valid separation df ra dec idx s.
Proof.
  intros Hsky H.
  destruct (find_nearest_object_sky separation df ra dec max_distance Hsky)
    as [[_ Hn]|(idx' & sep' & Hnear & Hr)]; [congruence|].
  rewrite Hr in H. destruct (Qgtb sep' max_distance) eqn:E; [discriminate|].
  injection H as <- <-. apply Qgtb_le in E. exists sep'. now split.
Qed.

Lemma find_nearest_object_found_iff (df : list SourceDetection) (ra dec : pyfloat)
  (max_distance : Q) :
  sky_position ra dec ->
  (exists idx sep,
      find_nearest_object separation df ra dec max_distance = Ok (Some (idx, sep)))
  <-> detection_within separation df ra dec max_distance.
Proof.
  intro Hsky. split.
  - intros (idx & sep & H). apply find_nearest_object_some in H; [|exact Hsky].
    destruct H as (s & _ & Hle & row & Hrow & Hv & Hs & _).
    exists idx, row. split; [exact Hrow|]. split; [now apply valid_mask_valid_detection|].
    unfold separation_to in Hs. now rewrite <- Hs.
  - intros (j & row & Hrow & Hv & Hle). apply valid_mask_valid_detection in Hv.
    destruct (find_nearest_object_sky separation df ra dec max_distance Hsky)
      as [[Hnone _]|(idx & sep & Hnear & Hr)].
    + rewrite (Hnone _ _ Hrow) in Hv. discriminate.
    + destruct Hnear as (row' & _ & _ & _ & Hmin & _).
      pose proof (Hmin _ _ Hrow Hv) as H. unfold separation_to in H.
      assert (E : Qgtb sep max_distance = false) by (apply Qgtb_le; lra).
      rewrite E in Hr. eauto.
Qed.

Lemma find_nearest_object_sky_returns (df : list SourceDetection) (ra dec : pyfloat)
  (max_distance : Q) :
  sky_position ra dec ->
  exists found, find_nearest_object separation df ra dec max_distance = Ok found.
Proof.
  intro Hsky.
  destruct (find_nearest_object_sky separation df ra dec max_distance Hsky)
    as [[_ ->]|(idx & sep & _ & ->)]; [eauto|].
  destruct (Qgtb sep max_distance); eauto.
Qed.

Lemma find_nearest_object_not_found_iff (df : list SourceDetection) (ra dec : pyfloat)
  (max_distance : Q) :
  sky_position ra dec ->
  find_nearest_object separation df ra dec max_distance = Ok None
  <-> ~ detection_within separation df ra dec max_distance.
Proof.
  intro Hsky. rewrite <- find_nearest_object_found_iff by exact Hsky.
  destruct (find_nearest_object_sky_returns df ra dec max_distance Hsky)
    as [[[idx sep]|] ->].
  - split; [discriminate|]. intro H. exfalso. apply H. eauto.
  - split; [|reflexivity]. intros _ (idx & sep & H). discriminate.
Qed.

(** C5. For an epoch of moving-target mode that passes the coverage check,
    with the ephemeris position looked up for it, the comparison stars and
    that position being positions on the sky: the pass ends for want
    of comparison stars exactly when comp1 or comp2 has no valid detection
    within 5 arcseconds; with both found, it ends for want of the asteroid
    exactly when no valid detection lies within 20 arcseconds of the
    ephemeris position; it reaches the magnitudes exactly when comp1 and
    comp2 are matched within 5 and the target within 20 arcseconds; and a
    record's target separation is a number of at most 20 arcseconds. *)
Theorem moving_target_tolerances :
  forall (positions_df : list Position) (objects : CompStars) (data : EpochData)
         (ast_ra ast_dec : pyfloat),
    outside_position_range (mjd data)
      (series_min (map pos_MJD (sort_values pos_MJD positions_df)))
      (series_max (map pos_MJD (sort_values pos_MJD positions_df))) = false ->
    find_nearest_mjd_position (sort_values pos_MJD positions_df) (mjd data)
    = Ok (ast_ra, ast_dec) ->
    sky_position (ra (comp1 objects)) (dec (comp1 objects)) ->
    sky_position (ra (comp2 objects)) (dec (comp2 objects)) ->
    sky_position ast_ra ast_dec ->
    let epoch := asteroid_epoch separation positions_df objects data in
    let comp1_found :=
      detection_within separation (df data) (ra (comp1 objects))
        (dec (comp1 objects)) 5 in
    let comp2_found :=
      detection_within separation (df data) (ra (comp2 objects))
        (dec (comp2 objects)) 5 in
    let target_found :=
      detection_within separation (df data) ast_ra ast_dec 20 in
    (epoch = Continue CompsNotFound <-> ~ (comp1_found /\ comp2_found))
    /\ (epoch = Continue AsteroidNotFound
        <-> comp1_found /\ comp2_found /\ ~ target_found)
    /\ ((epoch = Continue InvalidMagnitude \/ exists r, epoch = Append r)
        <-> comp1_found /\ comp2_found /\ target_found)
    /\ (forall r, epoch = Append r -> exists sep, AST_SEP r = Fin sep /\ sep <= 20).
Proof.
  intros positions_df objects data ast_ra ast_dec Hrange Hpos Hsky1 Hsky2 Hsky3
    epoch comp1_found comp2_found target_found.
  pose proof (find_nearest_object_not_found_iff (df data) (ra (comp1 objects))
                (dec (comp1 objects)) default_max_distance Hsky1) as N1.
  pose proof (find_nearest_object_not_found_iff (df data) (ra (comp2 objects))
                (dec (comp2 objects)) default_max_distance Hsky2) as N2.
  pose proof (find_nearest_object_not_found_iff (df data) ast_ra ast_dec
                asteroid_max_distance Hsky3) as N3.
  pose proof (find_nearest_object_found_iff (df data) (ra (comp1 objects))
                (dec (comp1 objects)) default_max_distance Hsky1) as F1.
  pose proof (find_nearest_object_found_iff (df data) (ra (comp2 objects))
                (dec (comp2 objects)) default_max_distance Hsky2) as F2.
  pose proof (find_nearest_object_found_iff (df data) ast_ra ast_dec
                asteroid_max_distance Hsky3) as F3.
  fold comp1_found in N1, F1. fold comp2_found in N2, F2. fold target_found in N3, F3.
  subst epoch. unfold asteroid_epoch, asteroid_iteration.
  rewrite Hrange.
  destruct (find_nearest_object_sky_returns (df data) (ra (comp1 objects))
              (dec (comp1 objects)) default_max_distance Hsky1) as [found1 E1].
  destruct (find_nearest_object_sky_returns (df data) (ra (comp2 objects))
              (dec (comp2 objects)) default_max_distance Hsky2) as [found2 E2].
  destruct (find_nearest_object_sky_returns (df data) ast_ra ast_dec
              asteroid_max_distance Hsky3) as [found3 E3].
  rewrite E1, E2.
  destruct found1 as [[comp1_idx comp1_sep]|].
  2:{ assert (~ comp1_found) by now apply N1.
      destruct found2 as [[? ?]|]; settle_outcome. }
  destruct found2 as [[comp2_idx comp2_sep]|].
  2:{ assert (~ comp2_found) by now apply N2.
      settle_outcome. }
  assert (C1 : comp1_found) by (apply F1; eauto).
  assert (C2 : comp2_found) by (apply F2; eauto).
  rewrite Hpos, E3.
  destruct found3 as [[ast_idx ast_sep]|].
  2:{ assert (~ target_found) by now apply N3.
      settle_outcome. }
  assert (C3 : target_found) by (apply F3; eauto).
  destruct (find_nearest_object_row _ _ _ _ _ _ _ E1) as [comp1_row ->].
  destruct (find_nearest_object_row _ _ _ _ _ _ _ E2) as [comp2_row ->].
  destruct (find_nearest_object_row _ _ _ _ _ _ _ E3) as [ast_row ->].
  apply find_nearest_object_some in E3; [|exact Hsky3].
  destruct E3 as (s & Hs & Hsep & _).
  destruct (negb (all_finite _)).
  - settle_outcome.
  - settle_outcome.
    + right. eauto.
    + match goal with H : Append _ = Append _ |- _ => injection H as <- end.
      simpl. eauto.
Qed.

End Tolerances.

(** ** The band filter *)

Section BandFilter.

Import ProcessPhotometry.

Context {str_upper : StrUpper}.

Lemma in_all_ascii (a : ascii) : In a all_ascii.
Proof.
  unfold all_ascii. rewrite <- (ascii_nat_embedding a).
  apply in_map, in_seq. pose proof (nat_ascii_bounded a). lia.
Qed.

Lemma upper_ascii_same_letter (a b : ascii) :
  Ascii.eqb (upper_ascii a) (upper_ascii b) = same_letter a b.
Proof.
  assert (H : forallb (fun x => forallb (fun y =>
                Bool.eqb (Ascii.eqb (upper_ascii x) (upper_ascii y)) (same_letter x y))
                all_ascii) all_ascii = true) by (vm_compute; reflexivity).
  rewrite forallb_forall in H. specialize (H a (in_all_ascii a)).
  rewrite forallb_forall in H. specialize (H b (in_all_ascii b)).
  now apply Bool.eqb_prop in H.
Qed.

Lemma ascii_upper_eq_ignore_case (s : string) :
  forall t, String.eqb (ascii_upper s) (ascii_upper t) = eq_ignore_case s t.
Proof.
  induction s as [|a s IH]; intros [|b t]; simpl; try reflexivity.
  now rewrite upper_ascii_same_letter, IH.
Qed.

(** On ASCII text, equal upper cases are equal letters up to case. *)
Lemma upper_eq_ignore_case (s t : string) :
  isascii s = true -> isascii t = true ->
  String.eqb (upper s) (upper t) = eq_ignore_case s t.
Proof.
  intros Hs Ht. rewrite !upper_isascii by assumption.
  apply ascii_upper_eq_ignore_case.
Qed.

Lemma dict_setitem_fresh {V : Type} (d : list (Z * V)) (k : Z) (v : V) :
  ~ In k (map fst d) -> dict_setitem d k v = d ++ [(k, v)].
Proof.
  induction d as [|[k' v'] d IH]; simpl; intro H; [reflexivity|].
  destruct (Z.eqb_spec k' k) as [->|_]; [tauto|].
  rewrite IH by tauto. reflexivity.
Qed.

Lemma filter_loop (f : Z * EpochData -> bool) (items : PhotometryData) :
  forall filtered_data : PhotometryData,
    NoDup (map fst items) ->
    (forall k, In k (map fst filtered_data) -> ~ In k (map fst items)) ->
    fold_left (fun filtered_data item =>
                 if f item then dict_setitem filtered_data (fst item) (snd item)
                 else filtered_data) items filtered_data
    = filtered_data ++ filter f items.
Proof.
  induction items as [|[k v] items IH]; intros acc Hnd Hdisj; simpl.
  - now rewrite app_nil_r.
  - inversion Hnd as [|? ? Hk Hnd']; subst.
    destruct (f (k, v)) eqn:E.
    + rewrite dict_setitem_fresh by (intro Hin; apply (Hdisj k Hin); now left).
      rewrite IH; [now rewrite <- app_assoc|exact Hnd'|].
      intros k' Hin. rewrite map_app, in_app_iff in Hin. simpl in Hin.
      destruct Hin as [Hin|[<-|[]]]; [|exact Hk].
      intro Hin'. apply (Hdisj k' Hin). now right.
    + apply IH; [exact Hnd'|].
      intros k' Hin Hin'. apply (Hdisj k' Hin). now right.
Qed.

Lemma filter_photometry_data_filter (photometry_data : PhotometryData) (name : string) :
  NoDup (map fst photometry_data) ->
  filter_photometry_data photometry_data (Some name)
  = filter (fun item => String.eqb (upper (get_band (snd item))) (upper name))
      photometry_data.
Proof.
  intro Hnd. unfold filter_photometry_data.
  rewrite (filter_loop (fun item => String.eqb (upper (get_band (snd item))) (upper name)))
    by (auto; intros k []).
  reflexivity.
Qed.


End BandFilter.

(** ** Cross-comparison of two time series *)

Section CrossComparison.

Import ProcessPhotometry ComparePhotometry.

Context {pandas_sort : PandasSort}.


Lemma TIME_THRESHOLD_seconds (d : Q) :
  d <= TIME_THRESHOLD <-> d * 86400 <= 180.
Proof.
  assert (E : TIME_THRESHOLD == 1 # 480) by reflexivity.
  rewrite E. split; intro H; lra.
Qed.

Lemma match_row_cases (other : list OtherRow) (our_row : PhotometryRecord) :
  other <> [] ->
  exists partner,
    nearest_in_time other (MJD our_row) partner
    /\ match_row other our_row
       = if Qle_bool (Qabs (other_MJD partner - MJD our_row)) TIME_THRESHOLD
         then Append (pair_of our_row partner)
         else Continue OutsideTimeThreshold.
Proof.
  intro Hne. unfold match_row, iloc.
  destruct (argmin_nonempty (map (fun o => Qabs (other_MJD o - MJD our_row)) other))
    as [k Hk].
  { destruct other; [congruence|discriminate]. }
  rewrite Hk.
  destruct (argmin_first_minimum _ _ Hk) as (v & Hn & Hle & _).
  rewrite Hn. rewrite nth_error_map in Hn.
  destruct (nth_error other k) as [partner|] eqn:Ep; [|discriminate].
  simpl in Hn. injection Hn as <-.
  exists partner. split; [|reflexivity].
  split; [eapply nth_error_In; eassumption|].
  intros o Ho. destruct (In_nth_error _ _ Ho) as [j Hj].
  apply (Hle j). now rewrite nth_error_map, Hj.
Qed.

Lemma sorted_other_in (other : list OtherRow) (o : OtherRow) :
  In o (sorted_other other) <-> In o other.
Proof.
  unfold sorted_other.
  split; apply Permutation_in;
    [apply sort_values_perm|apply Permutation_sym, sort_values_perm].
Qed.

Lemma sorted_results_in (results : list PhotometryRecord) (r : PhotometryRecord) :
  In r (sorted_results results) <-> In r results.
Proof.
  unfold sorted_results.
  split; apply Permutation_in;
    [apply sort_values_perm|apply Permutation_sym, sort_values_perm].
Qed.

Lemma sorted_other_nonempty (other : list OtherRow) :
  other <> [] -> sorted_other other <> [].
Proof.
  destruct other as [|o rest]; [congruence|]. intros _ E.
  assert (Hin : In o (sorted_other (o :: rest))) by (apply <- sorted_other_in; now left).
  rewrite E in Hin. destruct Hin.
Qed.

Lemma nearest_in_time_sorted (other : list OtherRow) (t : Q) (partner : OtherRow) :
  nearest_in_time (sorted_other other) t partner -> nearest_in_time other t partner.
Proof.
  intros [Hp Hall]. split; [now apply -> sorted_other_in in Hp|].
  intros o Ho. apply Hall. now apply <- sorted_other_in.
Qed.

Lemma within_threshold (our_row : PhotometryRecord) (partner : OtherRow) :
  Qle_bool (Qabs (other_MJD partner - MJD our_row)) TIME_THRESHOLD = true
  <-> seconds_between (MJD our_row) (other_MJD partner) <= 180.
Proof.
  unfold seconds_between. rewrite Qle_bool_iff, TIME_THRESHOLD_seconds.
  now rewrite (Qabs_Qminus (MJD our_row)).
Qed.

(** C7. With a non-empty second series, every row of the first series has
    a partner closest in time in the second series such that the row forms
    a pair with it exactly when the two are at most 180 seconds apart
    (180 seconds included), and is dropped exactly when they are farther
    apart; a pair holds the two rows' own values. The loop never raises,
    and the table of pairs holds exactly what the rows append: each pair
    comes from a row of the first series and a closest partner within the
    window. *)
Theorem nearest_time_pairs_within_180_seconds :
  forall (results : list PhotometryRecord) (other : list OtherRow),
    other <> [] ->
    (forall our_row,
        exists partner,
          nearest_in_time other (MJD our_row) partner
          /\ (match_row (sorted_other other) our_row = Append (pair_of our_row partner)
              <-> seconds_between (MJD our_row) (other_MJD partner) <= 180)
          /\ (match_row (sorted_other other) our_row = Continue OutsideTimeThreshold
              <-> 180 < seconds_between (MJD our_row) (other_MJD partner)))
    /\ exists pairs,
        matching_pairs results other = Ok pairs
        /\ pairs = appended (match_row (sorted_other other)) (sorted_results results)
        /\ forall pair,
            In pair pairs ->
            exists our_row partner,
              In our_row results
              /\ nearest_in_time other (MJD our_row) partner
              /\ seconds_between (MJD our_row) (other_MJD partner) <= 180
              /\ pair = pair_of our_row partner.
Proof.
  intros results other Hne.
  pose proof (sorted_other_nonempty _ Hne) as Hne'.
  assert (Hrow : forall our_row,
             exists partner,
               nearest_in_time other (MJD our_row) partner
               /\ match_row (sorted_other other) our_row
                  = if Qle_bool (Qabs (other_MJD partner - MJD our_row)) TIME_THRESHOLD
                    then Append (pair_of our_row partner)
                    else Continue OutsideTimeThreshold).
  { intro our_row. destruct (match_row_cases _ our_row Hne') as (partner & Hp & Hm).
    exists partner. split; [now apply nearest_in_time_sorted|exact Hm]. }
  split.
  - intro our_row. destruct (Hrow our_row) as (partner & Hp & Hm).
    exists partner. split; [exact Hp|]. rewrite Hm.
    pose proof (within_threshold our_row partner) as Hw.
    destruct (Qle_bool _ TIME_THRESHOLD).
    + assert (Hle : seconds_between (MJD our_row) (other_MJD partner) <= 180)
        by now apply Hw.
      split; split.
      * intros _. exact Hle.
      * reflexivity.
      * discriminate.
      * intro H. exfalso. lra.
    + assert (Hgt : 180 < seconds_between (MJD our_row) (other_MJD partner)).
      { apply Qnot_le_lt. intro H. apply Hw in H. discriminate. }
      split; split.
      * discriminate.
      * intro H. exfalso. lra.
      * intros _. exact Hgt.
      * reflexivity.
  - eexists. split; [|split; [reflexivity|]].
    + unfold matching_pairs. apply (for_each_never_raises _ _) with (results := []).
      intros our_row e _. destruct (Hrow our_row) as (partner & _ & ->).
      destruct (Qle_bool _ _); discriminate.
    + intros pair Hpair. apply in_appended in Hpair.
      destruct Hpair as (our_row & Hin & Hm).
      destruct (Hrow our_row) as (partner & Hp & Hm').
      rewrite Hm' in Hm.
      destruct (Qle_bool _ TIME_THRESHOLD) eqn:E; [|discriminate].
      injection Hm as <-. exists our_row, partner.
      split; [now apply -> sorted_results_in in Hin|].
      split; [exact Hp|]. split; [now apply within_threshold|reflexivity].
Qed.

End CrossComparison.

(** ** Time axis *)

Section TimeAxis.

Import ProcessPhotometry ComparePhotometry.


Lemma py_int_floor (x : Q) : 0 <= x -> py_int x = Qfloor x.
Proof.
  destruct x as [n d]. unfold Qle, py_int, Qfloor. simpl. intro H.
  apply Z.quot_div_nonneg; lia.
Qed.

Lemma py_min_least (a b : Q) (l1 l2 : list Q) :
  least_of l1 a -> least_of l2 b -> least_of (l1 ++ l2) (py_min a b).
Proof.
  intros [Ha Hla] [Hb Hlb]. unfold py_min, least_of.
  destruct (Qltb b a) eqn:E.
  - apply Qltb_lt in E. split; [apply in_or_app; now right|].
    intros x Hx. apply in_app_or in Hx. destruct Hx as [Hx|Hx].
    + pose proof (Hla x Hx). lra.
    + now apply Hlb.
  - apply Qltb_ge in E. split; [apply in_or_app; now left|].
    intros x Hx. apply in_app_or in Hx. destruct Hx as [Hx|Hx].
    + now apply Hla.
    + pose proof (Hlb x Hx). lra.
Qed.

(** C9, as the code has it. In the cross-comparison of two non-empty
    tables [time_offset] is Python's [int] of the least timestamp of both
    series together, which is its floor whenever that timestamp is not
    negative, and the elapsed hours of a merged row are
    [(mjd - time_offset) * 24]. In the plot of a single non-empty table
    [time_offset] is the least timestamp itself, with no rounding, and
    [TIME_HOURS] is [(MJD - time_offset) * 24] row by row. *)
Theorem time_axis_normalization :
  (forall (results : list PhotometryRecord) (other : list OtherRow),
      results <> [] -> other <> [] ->
      exists m,
        least_of (map MJD results ++ map other_MJD other) m
        /\ time_offset results other = Some (py_int m)
        /\ (0 <= m -> time_offset results other = Some (Qfloor m)))
  /\ (forall (offset : Z) (merged : list Pair),
         time_hours_bht offset merged
         = map (fun p => (MJD_our p - inject_Z offset) * 24) merged
         /\ time_hours_aij offset merged
            = map (fun p => (MJD_other p - inject_Z offset) * 24) merged)
  /\ (forall results : list PhotometryRecord,
         results <> [] ->
         exists m,
           least_of (map MJD results) m
           /\ plot_time_offset results = Some m
           /\ plot_TIME_HOURS results
              = Some (map (fun r => (MJD r - m) * 24) results)).
Proof.
  split; [|split].
  - intros results other Hr Ho. unfold time_offset.
    destruct (series_min_nonempty (map MJD results)) as [a Ha].
    { destruct results; [congruence|discriminate]. }
    destruct (series_min_nonempty (map other_MJD other)) as [b Hb].
    { destruct other; [congruence|discriminate]. }
    rewrite Ha, Hb. exists (py_min a b).
    split; [|split; [reflexivity|]].
    + apply py_min_least; split; eapply series_min_spec; eassumption.
    + intro H. now rewrite py_int_floor.
  - intros offset merged. split; reflexivity.
  - intros results Hr. unfold plot_TIME_HOURS, plot_time_offset.
    destruct (series_min_nonempty (map MJD results)) as [m Hm].
    { destruct results; [congruence|discriminate]. }
    rewrite Hm. exists m. split; [|split; reflexivity].
    split; eapply series_min_spec; eassumption.
Qed.

End TimeAxis.

(** ** Differential magnitudes *)

Section DifferentialMagnitude.

Import ProcessPhotometry ConvertToDiffmag.

Lemma nth_error_seq_0 (n i : nat) : (i < n)%nat -> nth_error (seq 0 n) i = Some i.
Proof.
  intro H. rewrite (nth_error_nth' _ 0%nat) by now rewrite length_seq.
  now rewrite seq_nth.
Qed.

(** C10. For every row of the table, the differential magnitude is
    [TARGET_MAG - COMP1_MAG] and the error reported with it, in the
    returned series and on the line written for the row, is the row's
    [TARGET_MAGERR] as it stands: nothing of the comparison star enters
    it. *)
Theorem error_diff_mag_is_target_error :
  forall (df : list PhotometryRecord) (i : nat) (row : PhotometryRecord),
    nth_error df i = Some row ->
    nth_error (diff_mag df) i = Some (sub (TARGET_MAG row) (COMP1_MAG row))
    /\ nth_error (error_diff_mag df) i = Some (TARGET_MAGERR row)
    /\ nth_error (output_lines df) i
       = Some {| jd := MJD row + 2400000.5;
                 dmag := sub (TARGET_MAG row) (COMP1_MAG row);
                 err := TARGET_MAGERR row |}
    /\ convert_to_differential_magnitude df = (df, diff_mag df, error_diff_mag df).
Proof.
  intros df i row Hrow.
  assert (Hd : nth_error (diff_mag df) i = Some (sub (TARGET_MAG row) (COMP1_MAG row))).
  { unfold diff_mag. now rewrite nth_error_map, Hrow. }
  assert (He : nth_error (error_diff_mag df) i = Some (TARGET_MAGERR row)).
  { unfold error_diff_mag. now rewrite nth_error_map, Hrow. }
  assert (Hj : nth_error (map JD_UTC df) i = Some (MJD row + 2400000.5)).
  { now rewrite nth_error_map, Hrow. }
  split; [exact Hd|]. split; [exact He|]. split; [|reflexivity].
  unfold output_lines. rewrite nth_error_map.
  rewrite nth_error_seq_0 by (apply nth_error_Some; congruence). simpl.
  now rewrite (nth_error_nth _ _ _ Hd), (nth_error_nth _ _ _ He), (nth_error_nth _ _ _ Hj).
Qed.

End DifferentialMagnitude.

(** ** Magnitude to flux *)

Section Flux.

Import ConvertToFlux.
Local Open Scope R_scope.

(** C8. [mag_to_flux] returns the flux
    [reference_flux * 10 ^ (- mag / 2.5)], and given a magnitude error it
    returns with it the flux error [flux * (ln 10 / 2.5) * mag_err]; the
    power is the real one, [exp] of the exponent times [ln 10], computed
    in closed form. *)
Theorem mag_to_flux_closed_form :
  forall mag mag_err reference_flux : R,
    mag_to_flux mag None reference_flux
    = Flux (reference_flux * Rpower 10 (- mag / 2.5))
    /\ mag_to_flux mag (Some mag_err) reference_flux
       = FluxWithError
           (reference_flux * Rpower 10 (- mag / 2.5))
           (reference_flux * Rpower 10 (- mag / 2.5) * (ln 10 / 2.5) * mag_err)
    /\ Rpower 10 (- mag / 2.5) = exp (- mag / 2.5 * ln 10).
Proof.
  intros mag mag_err reference_flux. repeat split.
Qed.

Lemma ln_10_pos : 0 < ln 10.
Proof. rewrite <- ln_1. apply ln_increasing; Lra.lra. Qed.

(** The flux of [mag_to_flux] is positive for a positive reference flux,
    and the magnitude is recovered from it as
    [-2.5 * log10 (flux / reference_flux)]. *)
Lemma mag_to_flux_inverts_magnitude (mag reference_flux flux : R) :
  0 < reference_flux ->
  mag_to_flux mag None reference_flux = Flux flux ->
  0 < flux /\ - 2.5 * (ln (flux / reference_flux) / ln 10) = mag.
Proof.
  intros Hpos H. unfold mag_to_flux, pow in H. injection H as <-.
  pose proof ln_10_pos as Hln.
  split.
  - apply Rmult_lt_0_compat; [exact Hpos|]. unfold Rpower. apply exp_pos.
  - assert (E : reference_flux * Rpower 10 (- mag / 2.5) / reference_flux
                 = Rpower 10 (- mag / 2.5)).
    { generalize (Rpower 10 (- mag / 2.5)). intro x. field. Lra.lra. }
    rewrite E. unfold Rpower. rewrite ln_exp.
    generalize dependent (ln 10). intros l Hl.
    replace (- mag / 2.5 * l / l) with (- mag / 2.5); [Lra.lra|].
    unfold Rdiv. rewrite (Rmult_assoc _ l), Rinv_r by Lra.lra. Lra.lra.
Qed.

(** Magnitude 0 against the default reference flux. *)
Lemma mag_to_flux_inverts_magnitude_witness :
  0 < 1 * Rpower 10 (- 0 / 2.5)
  /\ - 2.5 * (ln (1 * Rpower 10 (- 0 / 2.5) / 1) / ln 10) = 0.
Proof.
  apply (mag_to_flux_inverts_magnitude 0 1 _ Rlt_0_1 eq_refl).
Defined.

End Flux.





(* ================================================================== *)
(** * Further properties of the code *)
(* ================================================================== *)

(** ** Matching under a wider tolerance *)

Section WiderTolerance.

Import ProcessPhotometry.

Variable separation : pyfloat -> pyfloat -> pyfloat -> pyfloat -> Q.

(** The tolerance enters [find_nearest_object] in its last test only. *)
Lemma find_nearest_object_shape (df : list SourceDetection) (ra dec : pyfloat) :
  exists best,
    forall max_distance,
      find_nearest_object separation df ra dec max_distance
      = match best with
        | Ok (Some (idx, sep)) =>
            if gtb sep (Fin max_distance) then Ok None else Ok (Some (idx, sep))
        | other => other
        end.
Proof.
  unfold find_nearest_object.
  destruct (filter _ (with_index df)) as [|first_row tl];
    [exists (Ok None); reflexivity|].
  destruct (SkyCoord ra dec) as [target|e]; [|exists (Raise e); reflexivity].
  destruct (argmin_float _) as [min_idx|]; [|exists (Raise ValueError); reflexivity].
  eexists (Ok (Some (_, _))). intro max_distance. reflexivity.
Qed.

Lemma gtb_wider (sep : pyfloat) (narrow wide : Q) :
  narrow <= wide -> gtb sep (Fin wide) = true -> gtb sep (Fin narrow) = true.
Proof.
  intro Hle. destruct sep as [s| | |]; try (intro; assumption).
  rewrite !gtb_Fin. intro H. apply Qgtb_gt in H. apply Qgtb_gt. lra.
Qed.

(** Widening [max_distance] never changes a match that was found: the
    answer of [find_nearest_object] under a tolerance is its answer under
    every larger tolerance, and what is not found under the larger one is
    not found under the smaller one. Whether the call raises does not
    depend on the tolerance. *)
Theorem find_nearest_object_wider_tolerance :
  forall (df : list SourceDetection) (ra dec : pyfloat) (narrow wide : Q),
    narrow <= wide ->
    (forall found,
        find_nearest_object separation df ra dec narrow = Ok (Some found) ->
        find_nearest_object separation df ra dec wide = Ok (Some found))
    /\ (find_nearest_object separation df ra dec wide = Ok None ->
        find_nearest_object separation df ra dec narrow = Ok None)
    /\ (forall e,
           find_nearest_object separation df ra dec narrow = Raise e
           <-> find_nearest_object separation df ra dec wide = Raise e).
Proof.
  intros df ra dec narrow wide Hle.
  destruct (find_nearest_object_shape df ra dec) as [best Hbest].
  rewrite !Hbest.
  destruct best as [[[idx sep]|]|e0].
  - pose proof (gtb_wider sep narrow wide Hle) as Hw.
    destruct (gtb sep (Fin narrow)) eqn:En; destruct (gtb sep (Fin wide)) eqn:Ew;
      try (specialize (Hw eq_refl); discriminate);
      (split; [|split]); try discriminate; try reflexivity;
      try (intros found H; exact H); try (intro e; split; discriminate).
  - split; [discriminate|]. split; [reflexivity|]. intro e. tauto.
  - split; [discriminate|]. split; [discriminate|]. intro e. tauto.
Qed.

End WiderTolerance.

(** ** What the reducers keep *)

Section ReducerInvariants.

Import ProcessPhotometry.

Variable separation : pyfloat -> pyfloat -> pyfloat -> pyfloat -> Q.
Context {pandas_sort : PandasSort}.

Lemma for_each_app {A R : Type} (body : A -> iteration R) (items1 items2 : list A) :
  forall results : list R,
    for_each body (items1 ++ items2) results
    = match for_each body items1 results with
      | Ok results1 => for_each body items2 results1
      | Raise e => Raise e
      end.
Proof.
  induction items1 as [|item items1 IH]; intro results; simpl; [reflexivity|].
  destruct (body item); [apply IH|apply IH|reflexivity].
Qed.

Lemma for_each_from {A R : Type} (body : A -> iteration R) (items : list A) :
  forall results : list R,
    for_each body items results
    = match for_each body items [] with
      | Ok out => Ok (results ++ out)
      | Raise e => Raise e
      end.
Proof.
  induction items as [|item items IH]; intro results; simpl.
  - now rewrite app_nil_r.
  - destruct (body item) as [r|w|e]; [|apply IH|reflexivity].
    rewrite (IH (results ++ [r])), (IH [r]).
    destruct (for_each body items []); [|reflexivity].
    now rewrite <- app_assoc.
Qed.

(** A loop raises what one of its passes raises, and raises as soon as
    one does. *)
Lemma for_each_raise {A R : Type} (body : A -> iteration R) (items : list A) :
  forall (results : list R) (e : exn),
    for_each body items results = Raise e ->
    exists item, In item items /\ body item = Raised e.
Proof.
  induction items as [|item items IH]; intros results e; simpl; [discriminate|].
  destruct (body item) as [r|w|e0] eqn:E; intro H.
  - apply IH in H. destruct H as (x & Hx & Hr). exists x. split; [now right|exact Hr].
  - apply IH in H. destruct H as (x & Hx & Hr). exists x. split; [now right|exact Hr].
  - injection H as <-. exists item. split; [now left|exact E].
Qed.

Lemma for_each_raised {A R : Type} (body : A -> iteration R) (items : list A)
  (item : A) (e : exn) :
  In item items -> body item = Raised e ->
  forall results : list R, exists e', for_each body items results = Raise e'.
Proof.
  induction items as [|x items IH]; intros Hin Hr results; [destruct Hin|].
  simpl. destruct Hin as [->|Hin].
  - rewrite Hr. eauto.
  - destruct (body x); [now apply IH|now apply IH|eauto].
Qed.

Lemma appended_app {A R : Type} (body : A -> iteration R) (items1 items2 : list A) :
  appended body (items1 ++ items2) = appended body items1 ++ appended body items2.
Proof. unfold appended. apply flat_map_app. Qed.

Lemma static_iteration_append (target_coords : Coords) (comp_stars : CompStars)
  (data : EpochData) (r : PhotometryRecord) :
  static_iteration separation target_coords comp_stars data = Append r ->
  exists target_idx target_row,
    find_nearest_object separation (df data) (ra target_coords) (dec target_coords)
      default_max_distance = Ok (Some (target_idx, TARGET_SEP r))
    /\ iloc (df data) target_idx = Some target_row
    /\ MJD r = mjd data
    /\ TARGET_RA r = ALPHA_J2000 target_row
    /\ TARGET_DEC r = DELTA_J2000 target_row
    /\ TARGET_MAG r = MAG_AUTO target_row
    /\ TARGET_MAGERR r = MAGERR_AUTO target_row.
Proof.
  unfold static_iteration. intro H.
  repeat break_match_in H; try discriminate.
  injection H as <-. simpl. eexists _, _. repeat split; eassumption.
Qed.

(** When the static reducer raises. *)
Lemma process_static_object_photometry_raises (photometry_data : PhotometryData)
  (target_coords : Coords) (comp_stars : CompStars) (e : exn) :
  process_static_object_photometry separation photometry_data target_coords
    comp_stars = Raise e
  <-> e = ValueError
      /\ (exists data_id data j row,
             In (data_id, data) photometry_data
             /\ nth_error (df data) j = Some row /\ valid_detection row)
      /\ (beyond_the_poles (dec target_coords)
          \/ beyond_the_poles (dec (comp1 comp_stars))
          \/ beyond_the_poles (dec (comp2 comp_stars))).
Proof.
  unfold process_static_object_photometry. split.
  - intro H. apply for_each_raise in H. destruct H as ([data_id data] & Hin & H).
    apply static_iteration_raises in H. destruct H as (-> & (j & row & Hv) & Hb).
    split; [reflexivity|]. split; [|exact Hb]. exists data_id, data, j, row. tauto.
  - intros (-> & (data_id & data & j & row & Hin & Hrow & Hv) & Hb).
    assert (Hr : static_iteration separation target_coords comp_stars
                   (snd (data_id, data)) = Raised ValueError)
      by (apply static_iteration_raises; simpl; split; [reflexivity|];
          split; [exists j, row; tauto|exact Hb]).
    destruct (for_each_raised
                (fun item => static_iteration separation target_coords comp_stars
                               (snd item)) _ _ _ Hin Hr []) as [e' He'].
    rewrite He'. f_equal.
    apply for_each_raise in He'. destruct He' as (item & _ & He').
    apply static_iteration_raises in He'. now destruct He' as (-> & _).
Qed.

(** The static reducer treats epochs independently and keeps their order:
    the run over two runs of epochs one after the other raises what the
    first of the two raises, and otherwise returns the table of the first
    followed by the table of the second; the MJD column of a table lists
    the timestamps of the epochs that produced a row, one each, in the
    order of the input. The reducer raises, and then ValueError, exactly
    when a reference declination lies beyond the poles and some epoch has
    a valid detection. *)
Theorem static_reducer_epochs_independent :
  forall (first_epochs second_epochs : PhotometryData) (target_coords : Coords)
         (comp_stars : CompStars),
    let reduce := fun epochs =>
      process_static_object_photometry separation epochs target_coords
        comp_stars in
    reduce (first_epochs ++ second_epochs)
    = match reduce first_epochs with
      | Raise e => Raise e
      | Ok first_results =>
          match reduce second_epochs with
          | Raise e => Raise e
          | Ok second_results => Ok (first_results ++ second_results)
          end
      end
    /\ (forall first_results,
           reduce first_epochs = Ok first_results ->
           (exists keep,
               map MJD first_results
               = map (fun item => mjd (snd item)) (filter keep first_epochs))
           /\ (length first_results <= length first_epochs)%nat)
    /\ (forall e,
           reduce first_epochs = Raise e
           <-> e = ValueError
               /\ (exists data_id data j row,
                      In (data_id, data) first_epochs
                      /\ nth_error (df data) j = Some row /\ valid_detection row)
               /\ (beyond_the_poles (dec target_coords)
                   \/ beyond_the_poles (dec (comp1 comp_stars))
                   \/ beyond_the_poles (dec (comp2 comp_stars)))).
Proof.
  intros first_epochs second_epochs target_coords comp_stars reduce.
  set (body := fun item : Z * EpochData =>
                 static_iteration separation target_coords comp_stars (snd item)).
  split; [|split].
  - unfold reduce, process_static_object_photometry. fold body.
    rewrite for_each_app.
    destruct (for_each body first_epochs []) as [first_results|e]; [|reflexivity].
    apply for_each_from.
  - intros first_results H. unfold reduce, process_static_object_photometry in H.
    fold body in H. apply for_each_ok in H. simpl in H. subst first_results.
    assert (Hmjd : map MJD (appended body first_epochs)
                   = map (fun item => mjd (snd item))
                       (filter (fun item => match body item with
                                            | Append _ => true
                                            | _ => false
                                            end) first_epochs)).
    { induction first_epochs as [|item rest IH]; simpl; [reflexivity|].
      destruct (body item) as [r|w|e] eqn:E; simpl; try exact IH.
      rewrite IH. f_equal.
      unfold body in E. apply static_iteration_append in E.
      destruct E as (_ & _ & _ & _ & E & _). exact E. }
    split; [eexists; exact Hmjd|].
    rewrite <- (length_map MJD), Hmjd, length_map. apply filter_length_le.
  - intro e. apply process_static_object_photometry_raises.
Qed.

(** Every row of the static table comes from one of the epochs: it bears
    the epoch's timestamp, its target coordinates, magnitude and error are
    those of one detection of that epoch's catalog, which is a valid
    detection, and its [TARGET_SEP] is the separation of that detection
    from the target, which is not above 5 arcseconds: for a target on the
    sky a number of at most 5, and NaN for target coordinates that are no
    position. *)
Theorem static_record_provenance :
  forall (photometry_data : PhotometryData) (target_coords : Coords)
         (comp_stars : CompStars) (results : list PhotometryRecord)
         (r : PhotometryRecord),
    process_static_object_photometry separation photometry_data target_coords
      comp_stars = Ok results ->
    In r results ->
    gtb (TARGET_SEP r) (Fin 5) = false
    /\ exists data_id data row,
        In (data_id, data) photometry_data
        /\ MJD r = mjd data
        /\ In row (df data)
        /\ valid_detection row
        /\ TARGET_RA r = ALPHA_J2000 row
        /\ TARGET_DEC r = DELTA_J2000 row
        /\ TARGET_MAG r = MAG_AUTO row
        /\ TARGET_MAGERR r = MAGERR_AUTO row
        /\ TARGET_SEP r
           = separation_arcsec separation (ra target_coords, dec target_coords)
               (ALPHA_J2000 row) (DELTA_J2000 row)
        /\ (sky_position (ra target_coords) (dec target_coords) ->
            TARGET_SEP r
            = Fin (separation (ra target_coords) (dec target_coords)
                     (ALPHA_J2000 row) (DELTA_J2000 row))
            /\ separation (ra target_coords) (dec target_coords)
                 (ALPHA_J2000 row) (DELTA_J2000 row) <= 5)
        /\ (not_a_position (ra target_coords) (dec target_coords) ->
            TARGET_SEP r = NaN).
Proof.
  intros photometry_data target_coords comp_stars results r Hres Hin.
  unfold process_static_object_photometry in Hres. apply for_each_ok in Hres.
  simpl in Hres. subst results.
  apply in_appended in Hin. destruct Hin as ([data_id data] & Hitem & Happ).
  simpl in Happ. apply static_iteration_append in Happ.
  destruct Happ as (idx & row & Hfound & Hrow & Hm & Hra & Hdec & Hmag & Herr).
  destruct (find_nearest_object_within _ _ _ _ _ _ _ Hfound)
    as (Hsep & row' & Hrow' & Hv & Hs).
  unfold iloc in Hrow. rewrite Hrow in Hrow'. injection Hrow' as <-.
  split; [exact Hsep|].
  exists data_id, data, row.
  split; [exact Hitem|]. split; [exact Hm|].
  split; [eapply nth_error_In; eassumption|].
  split; [exact Hv|].
  do 4 (split; [assumption|]). split; [exact Hs|]. split.
  - intro Hsky. rewrite Hs in *.
    rewrite separation_arcsec_sky in *
      by (try assumption; now apply valid_mask_valid_detection).
    split; [reflexivity|]. rewrite gtb_Fin in Hsep. now apply Qgtb_le in Hsep.
  - intro Hnan. rewrite Hs. now apply separation_arcsec_nan.
Qed.

End ReducerInvariants.

(** ** Moving-target mode at the edges of the ephemeris *)

Section EphemerisEdges.

Import ProcessPhotometry.

Variable separation : pyfloat -> pyfloat -> pyfloat -> pyfloat -> Q.
Context {pandas_sort : PandasSort}.

Lemma sort_values_nil {A : Type} (key : A -> Q) : sort_values key [] = [].
Proof. apply Permutation_nil, Permutation_sym, sort_values_perm. Qed.

Lemma asteroid_iteration_append (positions_df : list Position)
  (mjd_min mjd_max : option Q) (objects : CompStars) (data : EpochData)
  (r : AsteroidRecord) :
  asteroid_iteration separation positions_df mjd_min mjd_max objects data = Append r ->
  outside_position_range (mjd data) mjd_min mjd_max = false
  /\ AST_MJD r = mjd data
  /\ find_nearest_mjd_position positions_df (mjd data) = Ok (AST_RA r, AST_DEC r)
  /\ exists ast_idx,
      find_nearest_object separation (df data) (AST_RA r) (AST_DEC r)
        asteroid_max_distance = Ok (Some (ast_idx, AST_SEP r)).
Proof.
  unfold asteroid_iteration. intro H.
  repeat break_match_in H; try discriminate.
  injection H as <-. simpl. repeat split; try assumption. eauto.
Qed.

(** With an empty ephemeris a pass appends nothing, and what it raises
    is ValueError. *)
Lemma empty_ephemeris_iteration (objects : CompStars) (data : EpochData) :
  asteroid_iteration separation [] None None objects data = Raised ValueError
  \/ exists w, asteroid_iteration separation [] None None objects data = Continue w.
Proof.
  unfold asteroid_iteration. simpl.
  destruct (find_nearest_object separation (df data) (ra (comp1 objects))
              (dec (comp1 objects)) default_max_distance) as [found1|e] eqn:E1.
  2:{ apply find_nearest_object_raises in E1. destruct E1 as (-> & _). now left. }
  destruct (find_nearest_object separation (df data) (ra (comp2 objects))
              (dec (comp2 objects)) default_max_distance) as [found2|e] eqn:E2.
  2:{ apply find_nearest_object_raises in E2. destruct E2 as (-> & _). now left. }
  destruct found1 as [[i1 s1]|]; [|right; eauto].
  destruct found2 as [[i2 s2]|]; [|right; eauto].
  now left.
Qed.

(** With an ephemeris that has no sample nothing is out of range, and the
    reduction either raises ValueError or returns an empty table. With
    comparison stars on the sky it raises as soon as one epoch has both
    comparison stars within 5 arcseconds, and returns the empty table
    exactly when no epoch has. *)
Theorem empty_ephemeris_raises_or_returns_nothing :
  forall (photometry_data : PhotometryData) (objects : CompStars),
    let both_comps_found (data : EpochData) :=
      detection_within separation (df data) (ra (comp1 objects))
        (dec (comp1 objects)) 5
      /\ detection_within separation (df data) (ra (comp2 objects))
           (dec (comp2 objects)) 5 in
    (process_asteroid_photometry separation photometry_data [] objects
     = Raise ValueError
     \/ process_asteroid_photometry separation photometry_data [] objects = Ok [])
    /\ (sky_position (ra (comp1 objects)) (dec (comp1 objects)) ->
        sky_position (ra (comp2 objects)) (dec (comp2 objects)) ->
        (process_asteroid_photometry separation photometry_data [] objects
         = Raise ValueError
         <-> exists data_id data,
              In (data_id, data) photometry_data /\ both_comps_found data)
        /\ (process_asteroid_photometry separation photometry_data [] objects = Ok []
            <-> forall data_id data,
                 In (data_id, data) photometry_data -> ~ both_comps_found data)).
Proof.
  intros photometry_data objects both_comps_found.
  unfold process_asteroid_photometry. rewrite sort_values_nil. simpl.
  split.
  { induction photometry_data as [|[data_id data] rest IH]; simpl; [now right|].
    destruct (empty_ephemeris_iteration objects data) as [->|[w ->]];
      [now left|exact IH]. }
  intros Hsky1 Hsky2.
  assert (Hbody : forall data,
             (both_comps_found data
              /\ asteroid_iteration separation [] None None objects data
                 = Raised ValueError)
             \/ (~ both_comps_found data
                 /\ asteroid_iteration separation [] None None objects data
                    = Continue CompsNotFound)).
  { intro data. unfold asteroid_iteration, both_comps_found. simpl.
    pose proof (find_nearest_object_found_iff separation (df data)
                  (ra (comp1 objects)) (dec (comp1 objects)) default_max_distance
                  Hsky1) as F1.
    pose proof (find_nearest_object_found_iff separation (df data)
                  (ra (comp2 objects)) (dec (comp2 objects)) default_max_distance
                  Hsky2) as F2.
    destruct (find_nearest_object_sky_returns separation (df data)
                (ra (comp1 objects)) (dec (comp1 objects)) default_max_distance
                Hsky1) as [found1 E1].
    destruct (find_nearest_object_sky_returns separation (df data)
                (ra (comp2 objects)) (dec (comp2 objects)) default_max_distance
                Hsky2) as [found2 E2].
    rewrite E1, E2 in *.
    destruct found1 as [[i1 s1]|].
    - destruct found2 as [[i2 s2]|].
      + left. split; [|reflexivity]. split; [apply F1|apply F2]; eauto.
      + right. split; [|reflexivity]. intros [_ H2]. apply F2 in H2.
        destruct H2 as (i & s & H). discriminate.
    - right. split; [|now destruct found2 as [[? ?]|]]. intros [H1 _]. apply F1 in H1.
      destruct H1 as (i & s & H). discriminate. }
  induction photometry_data as [|[data_id data] rest IH]; simpl.
  - split; split; try discriminate; try reflexivity.
    + intros (i & d & [] & _).
    + intros _ i d [].
  - destruct (Hbody data) as [[Hb ->]|[Hb ->]].
    + split; split; try discriminate; try reflexivity.
      * intros _. exists data_id, data. split; [now left|exact Hb].
      * intro H. exfalso. apply (H data_id data); [now left|exact Hb].
    + destruct IH as [IH1 IH2]. split; split.
      * intro H. apply IH1 in H. destruct H as (i & d & Hin & Hd).
        exists i, d. split; [now right|exact Hd].
      * intros (i & d & [Heq|Hin] & Hd).
        -- injection Heq as <- <-. contradiction.
        -- apply IH1. eauto.
      * intros H i d [Heq|Hin].
        -- injection Heq as <- <-. exact Hb.
        -- apply (proj1 IH2 H i d Hin).
      * intro H. apply IH2. intros i d Hin. apply (H i d). now right.
Qed.

(** Every row of the moving-target table bears the timestamp of one of the
    epochs, that timestamp lies between two timestamps of the ephemeris,
    and the row's [AST_SEP] is not above 20 arcseconds: a number of at
    most 20 when the position taken from the ephemeris is one on the
    sky. *)
Theorem asteroid_record_within_coverage :
  forall (photometry_data : PhotometryData) (positions_df : list Position)
         (objects : CompStars) (results : list AsteroidRecord) (r : AsteroidRecord),
    process_asteroid_photometry separation photometry_data positions_df objects
    = Ok results ->
    In r results ->
    gtb (AST_SEP r) (Fin 20) = false
    /\ (sky_position (AST_RA r) (AST_DEC r) ->
        exists sep, AST_SEP r = Fin sep /\ sep <= 20)
    /\ (exists data_id data,
           In (data_id, data) photometry_data /\ AST_MJD r = mjd data)
    /\ exists earlier later,
        In earlier positions_df /\ In later positions_df
        /\ pos_MJD earlier <= AST_MJD r /\ AST_MJD r <= pos_MJD later.
Proof.
  intros photometry_data positions_df objects results r Hres Hin.
  unfold process_asteroid_photometry in Hres. apply for_each_ok in Hres.
  subst results. simpl in Hin. apply in_appended in Hin.
  destruct Hin as ([data_id data] & Hitem & Happ). simpl in Happ.
  apply asteroid_iteration_append in Happ.
  destruct Happ as (Hrange & Hm & Hpos & idx & Hfound).
  split; [apply (find_nearest_object_within _ _ _ _ _ _ _ Hfound)|].
  split.
  { intro Hsky. apply find_nearest_object_some in Hfound; [|exact Hsky].
    destruct Hfound as (s & Hs & Hle & _). eauto. }
  split; [eauto|].
  destruct (find_nearest_mjd_position_nearest _ _ _ _ Hpos) as (sample & [Hs _] & _).
  assert (Hne : map pos_MJD (sort_values pos_MJD positions_df) <> []).
  { destruct (sort_values pos_MJD positions_df); [destruct Hs|discriminate]. }
  destruct (series_min_nonempty _ Hne) as [lo Hlo].
  destruct (series_max_nonempty _ Hne) as [hi Hhi].
  unfold outside_position_range in Hrange. rewrite Hlo, Hhi in Hrange.
  apply orb_false_iff in Hrange. destruct Hrange as [H1 H2].
  apply Qltb_ge in H1. apply Qgtb_le in H2.
  apply series_min_spec in Hlo. apply series_max_spec in Hhi.
  destruct Hlo as [Hlo _]. destruct Hhi as [Hhi _].
  apply in_map_iff in Hlo. destruct Hlo as (earlier & <- & He).
  apply in_map_iff in Hhi. destruct Hhi as (later & <- & Hl).
  exists earlier, later. rewrite Hm.
  split; [now apply -> sorted_positions_in in He|].
  split; [now apply -> sorted_positions_in in Hl|]. now split.
Qed.

End EphemerisEdges.

(** ** Filtering twice *)

Section FilterTwice.

Import ProcessPhotometry.

Context {str_upper : StrUpper}.

Lemma NoDup_keys_filter {V : Type} (f : Z * V -> bool) (d : list (Z * V)) :
  NoDup (map fst d) -> NoDup (map fst (filter f d)).
Proof.
  induction d as [|[k v] d IH]; simpl; intro H; [constructor|].
  inversion H as [|? ? Hk Hnd]; subst.
  destruct (f (k, v)); simpl; [|now apply IH].
  constructor; [|now apply IH].
  intro Hin. apply Hk. apply in_map_iff in Hin. destruct Hin as (item & <- & Hin).
  apply filter_In in Hin. apply in_map, Hin.
Qed.

Lemma filter_filter {A : Type} (f g : A -> bool) (l : list A) :
  filter g (filter f l) = filter (fun x => f x && g x) l.
Proof.
  induction l as [|x l IH]; simpl; [reflexivity|].
  destruct (f x); simpl; [|exact IH]. destruct (g x); now rewrite IH.
Qed.

Lemma filter_none {A : Type} (f : A -> bool) (l : list A) :
  (forall x, f x = false) -> filter f l = [].
Proof.
  intro H. induction l as [|x l IH]; simpl; [reflexivity|]. now rewrite H.
Qed.

(** On a dict of epochs (distinct data ids) the band filter returns a dict
    again, made of items of its input; filtering its result on a second
    band changes nothing when the two bands have the same upper case (so
    filtering is idempotent), and leaves nothing otherwise; two bands
    with the same upper case select the same epochs. For bands of ASCII
    text, having the same upper case is being equal up to letter case, so
    that ["r"] and ["R"] select the same epochs. *)
Theorem filter_photometry_data_twice :
  forall (photometry_data : PhotometryData) (first_band second_band : string),
    NoDup (map fst photometry_data) ->
    NoDup (map fst (filter_photometry_data photometry_data (Some first_band)))
    /\ (forall item,
           In item (filter_photometry_data photometry_data (Some first_band)) ->
           In item photometry_data)
    /\ filter_photometry_data
         (filter_photometry_data photometry_data (Some first_band))
         (Some second_band)
       = (if String.eqb (upper first_band) (upper second_band)
          then filter_photometry_data photometry_data (Some first_band)
          else [])
    /\ (String.eqb (upper first_band) (upper second_band) = true ->
        filter_photometry_data photometry_data (Some first_band)
        = filter_photometry_data photometry_data (Some second_band))
    /\ (isascii first_band = true -> isascii second_band = true ->
        String.eqb (upper first_band) (upper second_band)
        = eq_ignore_case first_band second_band).
Proof.
  intros photometry_data first_band second_band Hnd.
  rewrite !(filter_photometry_data_filter photometry_data) by exact Hnd.
  pose proof (NoDup_keys_filter
                (fun item => String.eqb (upper (get_band (snd item))) (upper first_band))
                photometry_data Hnd) as Hnd'.
  rewrite (filter_photometry_data_filter _ second_band Hnd').
  split; [exact Hnd'|].
  split; [intros item Hin; apply filter_In in Hin; apply Hin|].
  rewrite filter_filter. split; [|split].
  - destruct (String.eqb (upper first_band) (upper second_band)) eqn:E.
    + apply filter_ext. intro item.
      apply String.eqb_eq in E.
      destruct (String.eqb_spec (upper (get_band (snd item))) (upper first_band))
        as [Ha|Ha]; simpl; [|reflexivity].
      apply String.eqb_eq. congruence.
    + apply filter_none. intro item.
      apply String.eqb_neq in E.
      destruct (String.eqb_spec (upper (get_band (snd item))) (upper first_band))
        as [Ha|Ha]; simpl; [|reflexivity].
      apply String.eqb_neq. congruence.
  - intro E. apply filter_ext. intro item.
    apply String.eqb_eq in E. now rewrite E.
  - apply upper_eq_ignore_case.
Qed.

End FilterTwice.

(** ** The table of matched pairs *)

Section MergedTable.

Import ProcessPhotometry ComparePhotometry.

Context {pandas_sort : PandasSort}.

Lemma match_row_append (other : list OtherRow) (our_row : PhotometryRecord)
  (pair : Pair) :
  match_row other our_row = Append pair ->
  exists partner,
    In partner other
    /\ pair = pair_of our_row partner
    /\ Qabs (other_MJD partner - MJD our_row) <= TIME_THRESHOLD.
Proof.
  unfold match_row, iloc. intro H.
  destruct (argmin _) as [k|] eqn:Ek; [|discriminate].
  destruct (nth_error (map _ other) k) as [min_diff|] eqn:Ed; [|discriminate].
  destruct (nth_error other k) as [partner|] eqn:Ep; [|discriminate].
  rewrite nth_error_map, Ep in Ed. simpl in Ed. injection Ed as <-.
  destruct (Qle_bool _ TIME_THRESHOLD) eqn:E; [|discriminate].
  injection H as <-. exists partner.
  split; [eapply nth_error_In; eassumption|].
  split; [reflexivity|now apply Qle_bool_iff].
Qed.

Lemma appended_sorted {A R : Type} (body : A -> iteration R) (f : A -> Q) (g : R -> Q)
  (items : list A) :
  (forall item r, body item = Append r -> g r = f item) ->
  StronglySorted (fun a b => f a <= f b) items ->
  StronglySorted (fun r s => g r <= g s) (appended body items).
Proof.
  intros Hkey. induction 1 as [|item items Hs IH Hall]; simpl; [constructor|].
  destruct (body item) as [r|w|e] eqn:E; simpl; try exact IH.
  constructor; [exact IH|].
  apply Forall_forall. intros s Hs'. apply in_appended in Hs'.
  destruct Hs' as (item' & Hin & Happ).
  rewrite (Hkey _ _ E), (Hkey _ _ Happ).
  rewrite Forall_forall in Hall. now apply Hall.
Qed.

Lemma appended_length {A R : Type} (body : A -> iteration R) (items : list A) :
  (length (appended body items) <= length items)%nat.
Proof.
  induction items as [|item items IH]; simpl; [lia|].
  destruct (body item); simpl; lia.
Qed.

(** The table of pairs comes out in ascending order of [MJD_our], has at
    most one pair per row of the first series, and every pair joins a row
    of the first series with a row of the second at most
    [TIME_THRESHOLD] days away. *)
Theorem matching_pairs_sorted_by_time :
  forall (results : list PhotometryRecord) (other : list OtherRow)
         (merged : list Pair),
    matching_pairs results other = Ok merged ->
    StronglySorted (fun p q => MJD_our p <= MJD_our q) merged
    /\ (length merged <= length results)%nat
    /\ forall pair,
        In pair merged ->
        exists our_row partner,
          In our_row results /\ In partner other
          /\ pair = pair_of our_row partner
          /\ Qabs (MJD_other pair - MJD_our pair) <= TIME_THRESHOLD.
Proof.
  intros results other merged H.
  unfold matching_pairs in H. apply for_each_ok in H. simpl in H. subst merged.
  split; [|split].
  - apply (appended_sorted _ MJD MJD_our).
    + intros our_row pair Hp. apply match_row_append in Hp.
      destruct Hp as (partner & _ & -> & _). reflexivity.
    + apply sort_values_sorted.
  - etransitivity; [apply appended_length|].
    unfold sorted_results.
    now rewrite (Permutation_length (sort_values_perm _ MJD results)).
  - intros pair Hin. apply in_appended in Hin.
    destruct Hin as (our_row & Hrow & Hp). apply match_row_append in Hp.
    destruct Hp as (partner & Hpartner & -> & Hle).
    exists our_row, partner.
    split; [now apply -> sorted_results_in in Hrow|].
    split; [now apply -> sorted_other_in in Hpartner|].
    split; [reflexivity|exact Hle].
Qed.

End MergedTable.

(** ** How a run of compare_photometry.py ends *)

Section ScriptRun.

Import ProcessPhotometry ComparePhotometry CompareScript.

Context {pandas_sort : PandasSort}.

Lemma appended_nil {A R : Type} (body : A -> iteration R) (items : list A) :
  appended body items = []
  <-> forall item r, In item items -> body item <> Append r.
Proof.
  split.
  - intros H item r Hin Hb.
    assert (Hr : In r (appended body items)) by (apply in_appended; eauto).
    rewrite H in Hr. destruct Hr.
  - intro H. destruct (appended body items) as [|r rest] eqn:E; [reflexivity|].
    assert (Hr : In r (appended body items)) by (rewrite E; now left).
    apply in_appended in Hr. destruct Hr as (item & Hin & Hb).
    exfalso. exact (H item r Hin Hb).
Qed.

Lemma sorted_results_nonempty (results : list PhotometryRecord) :
  results <> [] -> sorted_results results <> [].
Proof.
  destruct results as [|r rest]; [congruence|]. intros _ E.
  assert (Hin : In r (sorted_results (r :: rest)))
    by (apply <- sorted_results_in; now left).
  rewrite E in Hin. destruct Hin.
Qed.

Lemma matching_pairs_defined (results : list PhotometryRecord) (other : list OtherRow) :
  other <> [] ->
  matching_pairs results other
  = Ok (appended (match_row (sorted_other other)) (sorted_results results)).
Proof.
  intro Hne. unfold matching_pairs.
  apply (for_each_never_raises _ _) with (results := []).
  intros our_row e _.
  destruct (match_row_cases _ our_row (sorted_other_nonempty _ Hne))
    as (partner & _ & ->).
  destruct (Qle_bool _ _); discriminate.
Qed.

Lemma no_pairs_iff_all_far (results : list PhotometryRecord) (other : list OtherRow) :
  other <> [] ->
  appended (match_row (sorted_other other)) (sorted_results results) = []
  <-> forall our_row o,
       In our_row results -> In o other ->
       180 < seconds_between (MJD our_row) (other_MJD o).
Proof.
  intro Hne. rewrite appended_nil. split.
  - intros H our_row o Hrow Ho.
    destruct (match_row_cases _ our_row (sorted_other_nonempty _ Hne))
      as (partner & [Hp Hnear] & Hm).
    pose proof (within_threshold our_row partner) as Hw.
    destruct (Qle_bool _ TIME_THRESHOLD) eqn:E.
    + exfalso. apply (H our_row (pair_of our_row partner));
        [now apply <- sorted_results_in|exact Hm].
    + assert (Hgt : 180 < seconds_between (MJD our_row) (other_MJD partner)).
      { apply Qnot_le_lt. intro Hle. apply Hw in Hle. discriminate. }
      assert (Ho' : In o (sorted_other other)) by now apply <- sorted_other_in.
      pose proof (Hnear o Ho') as Hmin.
      unfold seconds_between in *.
      rewrite (Qabs_Qminus (MJD our_row) (other_MJD o)).
      rewrite (Qabs_Qminus (MJD our_row) (other_MJD partner)) in Hgt. lra.
  - intros H our_row pair Hrow Hm. apply match_row_append in Hm.
    destruct Hm as (partner & Hp & _ & Hle).
    apply -> sorted_results_in in Hrow. apply -> sorted_other_in in Hp.
    pose proof (H our_row partner Hrow Hp) as Hgt.
    apply TIME_THRESHOLD_seconds in Hle. unfold seconds_between in Hgt.
    rewrite (Qabs_Qminus (MJD our_row) (other_MJD partner)) in Hgt. lra.
Qed.

(** A run of the script on an empty first table raises [ValueError] (the
    time offset is [int] of NaN); on a non-empty first and an empty second
    table it raises [IndexError] (the first point of the second table);
    on two non-empty tables it never raises, it exits with status 1
    exactly when every point of the first series is more than 180 seconds
    from every point of the second, and otherwise it goes on to the
    figure with a non-empty table of pairs, the one of the matching
    loop. *)
Theorem compare_photometry_run :
  forall (results : list PhotometryRecord) (other : list OtherRow),
    (results = [] -> compare_photometry results other = Raise ValueError)
    /\ (results <> [] -> other = [] ->
        compare_photometry results other = Raise IndexError)
    /\ (results <> [] -> other <> [] ->
        (compare_photometry results other = Ok (Exit 1)
         <-> forall our_row o,
              In our_row results -> In o other ->
              180 < seconds_between (MJD our_row) (other_MJD o))
        /\ (exists merged,
               matching_pairs results other = Ok merged
               /\ (merged = [] -> compare_photometry results other = Ok (Exit 1))
               /\ (merged <> [] ->
                   exists time_offset,
                     first_integer_mjd (sorted_results results) (sorted_other other)
                     = Ok time_offset
                     /\ compare_photometry results other
                        = Ok (Plotted time_offset merged)))).
Proof.
  intros results other. split; [|split].
  - intros ->. unfold compare_photometry, sorted_results.
    now rewrite sort_values_nil.
  - intros Hr ->. unfold compare_photometry.
    pose proof (sorted_results_nonempty _ Hr) as Hr'.
    unfold sorted_other. rewrite sort_values_nil. unfold first_integer_mjd, iloc.
    destruct (sorted_results results) as [|r rest]; [congruence|]. reflexivity.
  - intros Hr Ho. unfold compare_photometry.
    pose proof (sorted_results_nonempty _ Hr) as Hr'.
    pose proof (sorted_other_nonempty _ Ho) as Ho'.
    rewrite (matching_pairs_defined _ _ Ho).
    pose proof (no_pairs_iff_all_far results _ Ho) as Hfar.
    unfold first_integer_mjd, iloc.
    destruct (sorted_results results) as [|r rest] eqn:Er; [congruence|].
    destruct (sorted_other other) as [|o orest] eqn:Eo; [congruence|].
    cbn [map series_min nth_error].
    destruct (appended (match_row (o :: orest)) (r :: rest)) as [|pair pairs] eqn:Ea.
    + cbn [length Nat.eqb]. split.
      * split; [intros _; now apply Hfar|reflexivity].
      * eexists. split; [reflexivity|]. split; [reflexivity|congruence].
    + cbn [length Nat.eqb]. split.
      * split; [discriminate|]. intro H. apply Hfar in H. discriminate.
      * eexists. split; [reflexivity|]. split; [discriminate|].
        intros _. eexists. split; reflexivity.
Qed.

End ScriptRun.

(** ** Elapsed time *)

Section ElapsedTime.

Import ProcessPhotometry ComparePhotometry CompareScript.

Context {pandas_sort : PandasSort}.

(** In the plot of a table the elapsed hours are one per row, none is
    negative, and the earliest row is at hour 0. *)
Theorem plot_hours_start_at_zero :
  forall (results : list PhotometryRecord) (hours : list Q),
    plot_TIME_HOURS results = Some hours ->
    length hours = length results
    /\ Forall (fun h => 0 <= h) hours
    /\ Exists (fun h => h == 0) hours.
Proof.
  intros results hours. unfold plot_TIME_HOURS, plot_time_offset.
  destruct (series_min (map MJD results)) as [m|] eqn:Hm; [|discriminate].
  intros [= <-]. apply series_min_spec in Hm. destruct Hm as [Hin Hall].
  split; [apply length_map|]. split.
  - apply Forall_forall. intros h Hh. apply in_map_iff in Hh.
    destruct Hh as (r & <- & Hr). pose proof (Hall (MJD r) (in_map _ _ _ Hr)). lra.
  - apply Exists_exists. apply in_map_iff in Hin. destruct Hin as (r & Hr & Hin).
    exists ((MJD r - m) * 24).
    split; [exact (in_map (fun r0 => (MJD r0 - m) * 24) _ _ Hin)|]. rewrite Hr. lra.
Qed.

Lemma merged_pair_origin (results : list PhotometryRecord) (other : list OtherRow)
  (merged : list Pair) (pair : Pair) :
  matching_pairs results other = Ok merged -> In pair merged ->
  exists our_row partner,
    In our_row results /\ In partner other /\ pair = pair_of our_row partner.
Proof.
  intros H Hin. unfold matching_pairs in H. apply for_each_ok in H. simpl in H.
  subst merged. apply in_appended in Hin. destruct Hin as (our_row & Hrow & Hp).
  apply match_row_append in Hp. destruct Hp as (partner & Hpartner & -> & _).
  exists our_row, partner.
  split; [now apply -> sorted_results_in in Hrow|].
  split; [now apply -> sorted_other_in in Hpartner|reflexivity].
Qed.

(** When no timestamp of either table is negative and the script reaches
    the figure, its time offset is the whole day of the earliest point of
    the two tables (at most that point, less than a day before it), and
    the elapsed hours of both series of the merged table are not
    negative. *)
Theorem comparison_hours_nonnegative :
  forall (results : list PhotometryRecord) (other : list OtherRow)
         (time_offset : Z) (merged : list Pair),
    compare_photometry results other = Ok (Plotted time_offset merged) ->
    (forall r, In r results -> 0 <= MJD r) ->
    (forall o, In o other -> 0 <= other_MJD o) ->
    (exists earliest,
        least_of (map MJD results ++ map other_MJD other) earliest
        /\ inject_Z time_offset <= earliest
        /\ earliest < inject_Z time_offset + 1)
    /\ Forall (fun h => 0 <= h) (time_hours_bht time_offset merged)
    /\ Forall (fun h => 0 <= h) (time_hours_aij time_offset merged).
Proof.
  intros results other time_offset merged Hrun Hr Ho.
  unfold compare_photometry, first_integer_mjd in Hrun.
  destruct (series_min (map MJD (sorted_results results))) as [a|] eqn:Ha;
    [|discriminate].
  destruct (series_min (map other_MJD (sorted_other other))) as [b|] eqn:Hb.
  2:{ exfalso. unfold iloc in Hrun.
      destruct (sorted_other other); [|discriminate].
      destruct (nth_error (sorted_results results) 0); discriminate. }
  destruct (iloc (sorted_results results) 0) as [_|]; [|discriminate].
  destruct (iloc (sorted_other other) 0) as [_|]; [|discriminate].
  destruct (matching_pairs results other) as [merged'|e] eqn:Hm; [|discriminate].
  destruct (length merged' =? 0)%nat; [discriminate|].
  injection Hrun as <- <-.
  apply series_min_spec in Ha, Hb.
  assert (Hla : least_of (map MJD results) a).
  { destruct Ha as [Hin Hall]. apply in_map_iff in Hin. destruct Hin as (r & <- & Hin).
    apply -> sorted_results_in in Hin. split; [now apply in_map|].
    intros x Hx. apply in_map_iff in Hx. destruct Hx as (r' & <- & Hr').
    apply Hall, in_map. now apply <- sorted_results_in. }
  assert (Hlb : least_of (map other_MJD other) b).
  { destruct Hb as [Hin Hall]. apply in_map_iff in Hin. destruct Hin as (o & <- & Hin).
    apply -> sorted_other_in in Hin. split; [now apply in_map|].
    intros x Hx. apply in_map_iff in Hx. destruct Hx as (o' & <- & Ho').
    apply Hall, in_map. now apply <- sorted_other_in. }
  pose proof (py_min_least _ _ _ _ Hla Hlb) as Hleast.
  set (m := py_min a b) in *.
  assert (Hm0 : 0 <= m).
  { destruct Hleast as [Hin _]. apply in_app_or in Hin. destruct Hin as [Hin|Hin];
      apply in_map_iff in Hin; destruct Hin as (x & <- & Hx); auto. }
  rewrite (py_int_floor _ Hm0).
  pose proof (Qfloor_le m) as Hfl. pose proof (Qlt_floor m) as Hfu.
  rewrite inject_Z_plus in Hfu.
  split; [exists m; split; [exact Hleast|split; [exact Hfl|exact Hfu]]|].
  destruct Hleast as [_ Hall].
  split; apply Forall_forall; intros h Hh; apply in_map_iff in Hh;
    destruct Hh as (pair & <- & Hpair);
    destruct (merged_pair_origin _ _ _ _ Hm Hpair) as (our_row & partner & Hin1 & Hin2 & ->);
    simpl.
  - pose proof (Hall (MJD our_row)
                  (in_or_app _ _ _ (or_introl (in_map MJD _ _ Hin1)))). lra.
  - pose proof (Hall (other_MJD partner)
                  (in_or_app _ _ _ (or_intror (in_map other_MJD _ _ Hin2)))). lra.
Qed.

End ElapsedTime.

(** ** The magnitude scale of [mag_to_flux] *)

Section MagnitudeScale.

Import ConvertToFlux.
Local Open Scope R_scope.

Lemma Rpower_10_ratio (a b : R) : Rpower 10 a / Rpower 10 b = Rpower 10 (a - b).
Proof. unfold Rdiv. now rewrite <- Rpower_Ropp, <- Rpower_plus. Qed.

Lemma Rpower_10_2 : Rpower 10 2 = 100.
Proof.
  replace 2 with (INR 2) by (simpl; ring).
  rewrite Rpower_pow by Lra.lra. simpl. ring.
Qed.

Lemma Rpower_10_pos (a : R) : 0 < Rpower 10 a.
Proof. unfold Rpower. apply exp_pos. Qed.

(** For a positive reference flux, the fluxes of two magnitudes are in the
    ratio [10 ^ ((mag2 - mag1) / 2.5)]: the smaller magnitude has the
    larger flux, and five magnitudes are a factor of 100. *)
Theorem mag_to_flux_ratio :
  forall mag1 mag2 reference_flux flux1 flux2 : R,
    0 < reference_flux ->
    mag_to_flux mag1 None reference_flux = Flux flux1 ->
    mag_to_flux mag2 None reference_flux = Flux flux2 ->
    flux1 / flux2 = Rpower 10 ((mag2 - mag1) / 2.5)
    /\ (mag1 < mag2 <-> flux2 < flux1)
    /\ (mag2 = mag1 + 5 -> flux1 = 100 * flux2).
Proof.
  intros mag1 mag2 F0 flux1 flux2 Hpos H1 H2.
  unfold mag_to_flux, pow in H1, H2. injection H1 as <-. injection H2 as <-.
  pose proof (Rpower_10_pos (- mag1 / 2.5)) as P1.
  pose proof (Rpower_10_pos (- mag2 / 2.5)) as P2.
  assert (Hratio : F0 * Rpower 10 (- mag1 / 2.5) / (F0 * Rpower 10 (- mag2 / 2.5))
                   = Rpower 10 ((mag2 - mag1) / 2.5)).
  { replace ((mag2 - mag1) / 2.5) with (- mag1 / 2.5 - - mag2 / 2.5)
      by (unfold Rdiv; ring).
    rewrite <- Rpower_10_ratio.
    generalize dependent (Rpower 10 (- mag1 / 2.5)).
    generalize dependent (Rpower 10 (- mag2 / 2.5)).
    intros y Hy x Hx. field. split; Lra.lra. }
  assert (Hmono : forall a b, a < b ->
                    F0 * Rpower 10 (- b / 2.5) < F0 * Rpower 10 (- a / 2.5)).
  { intros a b Hab. apply Rmult_lt_compat_l; [exact Hpos|].
    apply Rpower_lt; [Lra.lra|]. unfold Rdiv.
    apply Rmult_lt_compat_r; [|Lra.lra].
    apply Rinv_0_lt_compat. Lra.lra. }
  split; [exact Hratio|]. split.
  - split; [apply Hmono|].
    intro Hlt. destruct (Rlt_le_dec mag1 mag2) as [Hm|Hm]; [exact Hm|].
    exfalso. destruct Hm as [Hm|Hm].
    + pose proof (Hmono _ _ Hm). Lra.lra.
    + subst mag2. Lra.lra.
  - intros ->.
    replace ((mag1 + 5 - mag1) / 2.5) with 2 in Hratio by (unfold Rdiv; Lra.lra).
    rewrite Rpower_10_2 in Hratio.
    assert (Hne : F0 * Rpower 10 (- (mag1 + 5) / 2.5) <> 0).
    { apply Rgt_not_eq. now apply Rmult_lt_0_compat. }
    apply (Rmult_eq_compat_r (F0 * Rpower 10 (- (mag1 + 5) / 2.5))) in Hratio.
    unfold Rdiv in Hratio. rewrite Rmult_assoc, Rinv_l, Rmult_1_r in Hratio by exact Hne.
    exact Hratio.
Qed.

Lemma flux_of_closed_form (reference_flux mag : R) :
  flux_of reference_flux mag = reference_flux * Rpower 10 (- mag / 2.5).
Proof. reflexivity. Qed.

Lemma flux_slope (reference_flux mag : R) :
  derivable_pt_lim (fun m => reference_flux * Rpower 10 (- m / 2.5)) mag
    (- (reference_flux * Rpower 10 (- mag / 2.5) * (ln 10 / 2.5))).
Proof.
  unfold Rpower.
  replace (- (reference_flux * exp (- mag / 2.5 * ln 10) * (ln 10 / 2.5)))
    with (reference_flux * (exp (- mag / 2.5 * ln 10) * (- (ln 10 / 2.5))))
    by ring.
  apply (derivable_pt_lim_scal (fun m => exp (- m / 2.5 * ln 10)) reference_flux).
  apply (derivable_pt_lim_comp (fun m => - m / 2.5 * ln 10) exp).
  - replace (- (ln 10 / 2.5)) with (- / 2.5 * ln 10) by (unfold Rdiv; ring).
    apply (derivable_pt_lim_ext (fun m => (- / 2.5 * ln 10) * m)).
    + intro m. unfold Rdiv. ring.
    + pose proof (derivable_pt_lim_scal id (- / 2.5 * ln 10) mag 1
                    (derivable_pt_lim_id mag)) as H.
      rewrite Rmult_1_r in H. exact H.
  - apply derivable_pt_lim_exp.
Qed.

(** The flux error of [mag_to_flux] is first-order error propagation: the
    flux, as a function of the magnitude, has slope
    [- flux * (ln 10 / 2.5)] at [mag], and the error returned is the size
    of that slope times the magnitude error. It is not negative for a
    positive reference flux and a non-negative magnitude error, and
    relative to the flux it is [(ln 10 / 2.5) * mag_err] whatever the
    magnitude. *)
Theorem flux_error_is_first_order :
  forall mag mag_err reference_flux flux flux_err : R,
    0 < reference_flux ->
    mag_to_flux mag (Some mag_err) reference_flux = FluxWithError flux flux_err ->
    flux = flux_of reference_flux mag
    /\ derivable_pt_lim (flux_of reference_flux) mag (- (flux * (ln 10 / 2.5)))
    /\ flux_err = Rabs (- (flux * (ln 10 / 2.5))) * mag_err
    /\ flux_err / flux = ln 10 / 2.5 * mag_err
    /\ (0 <= mag_err -> 0 <= flux_err).
Proof.
  intros mag mag_err F0 flux flux_err Hpos H.
  unfold mag_to_flux, pow, log in H. injection H as <- <-.
  pose proof (Rpower_10_pos (- mag / 2.5)) as P.
  pose proof ln_10_pos as L.
  assert (Hflux : 0 < F0 * Rpower 10 (- mag / 2.5)) by now apply Rmult_lt_0_compat.
  assert (Hk : 0 < ln 10 / 2.5).
  { unfold Rdiv. apply Rmult_lt_0_compat; [exact L|].
    apply Rinv_0_lt_compat. Lra.lra. }
  split; [reflexivity|]. split; [apply flux_slope|]. split; [|split].
  - rewrite Rabs_Ropp, Rabs_pos_eq; [reflexivity|].
    apply Rmult_le_pos; Lra.lra.
  - generalize dependent (F0 * Rpower 10 (- mag / 2.5)).
    generalize dependent (ln 10 / 2.5). intros k _ f Hf. field. Lra.lra.
  - intro He. apply Rmult_le_pos; [|exact He]. apply Rmult_le_pos; Lra.lra.
Qed.

(** Five magnitudes fainter than magnitude 0 is a hundredth of its flux. *)
Lemma mag_to_flux_ratio_witness :
  1 * Rpower 10 (- 0 / 2.5) = 100 * (1 * Rpower 10 (- 5 / 2.5)).
Proof.
  apply (proj2 (proj2 (mag_to_flux_ratio 0 5 1 _ _ Rlt_0_1 eq_refl eq_refl))).
  Lra.lra.
Defined.

(** Magnitude 0 with an error of a tenth of a magnitude. *)
Lemma flux_error_is_first_order_witness :
  1 * Rpower 10 (- 0 / 2.5) * (ln 10 / 2.5) * 0.1 / (1 * Rpower 10 (- 0 / 2.5))
  = ln 10 / 2.5 * 0.1.
Proof.
  apply (proj1 (proj2 (proj2 (proj2
           (flux_error_is_first_order 0 0.1 1 _ _ Rlt_0_1 eq_refl))))).
Defined.

End MagnitudeScale.

(** ** From the reduced table to the differential magnitudes *)

Section ReducedDifferences.

Import ProcessPhotometry ConvertToDiffmag.

Variable separation : pyfloat -> pyfloat -> pyfloat -> pyfloat -> Q.

Lemma sub_finite (x y : pyfloat) :
  isfinite x = true -> isfinite y = true -> isfinite (sub x y) = true.
Proof. destruct x, y; simpl; congruence. Qed.

Lemma output_lines_map (df : list PhotometryRecord) :
  output_lines df
  = map (fun row => {| jd := MJD row + 2400000.5;
                       dmag := sub (TARGET_MAG row) (COMP1_MAG row);
                       err := TARGET_MAGERR row |}) df.
Proof.
  apply nth_error_ext. intro i. unfold output_lines.
  rewrite !nth_error_map.
  destruct (nth_error df i) as [row|] eqn:Hrow.
  - rewrite nth_error_seq_0 by (apply nth_error_Some; congruence). simpl.
    assert (Hd : nth_error (diff_mag df) i
                 = Some (sub (TARGET_MAG row) (COMP1_MAG row)))
      by (unfold diff_mag; now rewrite nth_error_map, Hrow).
    assert (He : nth_error (error_diff_mag df) i = Some (TARGET_MAGERR row))
      by (unfold error_diff_mag; now rewrite nth_error_map, Hrow).
    assert (Hj : nth_error (map JD_UTC df) i = Some (MJD row + 2400000.5))
      by now rewrite nth_error_map, Hrow.
    now rewrite (nth_error_nth _ _ _ Hd), (nth_error_nth _ _ _ He),
      (nth_error_nth _ _ _ Hj).
  - apply nth_error_None in Hrow.
    assert (Hs : nth_error (seq 0 (length df)) i = None)
      by (apply nth_error_None; now rewrite length_seq).
    now rewrite Hs.
Qed.

(** The table the static reducer returns converts without loss: one line
    per row, in order, with the row's MJD plus 2400000.5 as Julian date,
    and every differential magnitude (against either comparison star) and
    every error on those lines is finite (magnitudes being exact numbers
    here, a difference does not overflow). *)
Theorem reduced_table_differences_are_finite :
  forall (photometry_data : PhotometryData) (target_coords : Coords)
         (comp_stars : CompStars) (results : list PhotometryRecord),
    process_static_object_photometry separation photometry_data target_coords
      comp_stars = Ok results ->
    map jd (output_lines results) = map (fun row => MJD row + 2400000.5) results
    /\ map dmag (output_lines results) = diff_mag results
    /\ map err (output_lines results) = error_diff_mag results
    /\ Forall (fun x => isfinite x = true) (diff_mag results)
    /\ Forall (fun x => isfinite x = true) (diff_mag_comp2 results)
    /\ Forall (fun x => isfinite x = true) (error_diff_mag results).
Proof.
  intros photometry_data target_coords comp_stars results0 Hres.
  unfold process_static_object_photometry in Hres. apply for_each_ok in Hres.
  simpl in Hres. subst results0.
  set (results := appended _ photometry_data).
  assert (Hfin : forall r, In r results ->
                   Forall (fun x => isfinite x = true) (magnitudes r)).
  { intros r Hr. apply in_appended in Hr. destruct Hr as (item & _ & Hr).
    eapply static_iteration_append_finite, Hr. }
  rewrite output_lines_map, !map_map. simpl.
  split; [reflexivity|]. split; [reflexivity|]. split; [reflexivity|].
  unfold diff_mag, diff_mag_comp2, error_diff_mag.
  repeat split; apply Forall_forall; intros x Hx; apply in_map_iff in Hx;
    destruct Hx as (r & <- & Hr); pose proof (Hfin r Hr) as Hm;
    unfold magnitudes in Hm;
    inversion_clear Hm as [|? ? H1 Hm1]; inversion_clear Hm1 as [|? ? H2 Hm2];
    inversion_clear Hm2 as [|? ? H3 Hm3]; inversion_clear Hm3 as [|? ? H4 _].
  - now apply sub_finite.
  - now apply sub_finite.
  - exact H2.
Qed.

End ReducedDifferences.

Section ObjectsAndMain.

Import ProcessPhotometry Main MainVocabulary.

Variable separation : pyfloat -> pyfloat -> pyfloat -> pyfloat -> Q.
Context {float_text : FloatText}.
Context {str_upper : StrUpper}.
Context {plotting : Plotting}.

Lemma str_getitem_setitem {V : Type} (d : list (string * V)) (k k' : string) (v : V) :
  str_getitem (str_setitem d k v) k'
  = if String.eqb k k' then Some v else str_getitem d k'.
Proof.
  induction d as [|[k0 v0] d IH]; simpl.
  - reflexivity.
  - destruct (String.eqb_spec k0 k) as [->|Hk]; simpl.
    + now destruct (String.eqb k k').
    + rewrite IH. destruct (String.eqb_spec k0 k') as [->|Hk'].
      * destruct (String.eqb_spec k k') as [->|_]; [contradiction|reflexivity].
      * reflexivity.
Qed.

Lemma str_setitem_keys {V : Type} (d : list (string * V)) (k : string) (v : V) :
  forall k', In k' (map fst (str_setitem d k v)) <-> k' = k \/ In k' (map fst d).
Proof.
  induction d as [|[k0 v0] d IH]; simpl; intro k'.
  - intuition.
  - destruct (String.eqb_spec k0 k) as [->|Hk]; simpl.
    + intuition.
    + rewrite IH. intuition.
Qed.

Lemma str_setitem_NoDup {V : Type} (d : list (string * V)) (k : string) (v : V) :
  NoDup (map fst d) -> NoDup (map fst (str_setitem d k v)).
Proof.
  induction d as [|[k0 v0] d IH]; simpl; intro H.
  - constructor; [intros []|constructor].
  - inversion H as [|? ? Hk0 Hd]; subst.
    destruct (String.eqb_spec k0 k) as [->|Hk]; simpl.
    + now constructor.
    + constructor; [|now apply IH].
      rewrite str_setitem_keys. intros [->|Hin]; [now apply Hk|now apply Hk0].
Qed.

(** What a row of objects.dat stores under its name. *)
Lemma read_object_setitem (objects : Objects) (row : ObjectRow) :
  read_object objects row
  = str_setitem objects (object_name row)
      (if String.eqb (object_name row) "target"
       then TargetText ("target," ++ float_repr (obj_RA row) ++ ","
                          ++ float_repr (obj_DEC row))
       else StarCoords (coords_of row)).
Proof.
  unfold read_object, object_name, coords_of.
  destruct (String.eqb_spec (lower (obj_Type row)) "target") as [->|_]; reflexivity.
Qed.

Lemma read_objects_NoDup (rows : list ObjectRow) :
  forall objects : Objects,
    NoDup (map fst objects) -> NoDup (map fst (fold_left read_object rows objects)).
Proof.
  induction rows as [|row rows IH]; intros objects H; simpl; [exact H|].
  apply IH. rewrite read_object_setitem. now apply str_setitem_NoDup.
Qed.

Lemma read_objects_getitem (rows : list ObjectRow) (name : string) :
  str_getitem (fold_left read_object rows []) name
  = option_map
      (fun row =>
         if String.eqb name "target"
         then TargetText ("target," ++ float_repr (obj_RA row) ++ ","
                            ++ float_repr (obj_DEC row))
         else StarCoords (coords_of row))
      (last_row name rows).
Proof.
  unfold last_row.
  induction rows as [|row rows IH] using rev_ind; [reflexivity|].
  rewrite fold_left_app, rev_app_distr. simpl.
  rewrite read_object_setitem, str_getitem_setitem.
  destruct (String.eqb_spec (object_name row) name) as [<-|_]; [reflexivity|exact IH].
Qed.

Lemma str_contains_last_row (rows : list ObjectRow) (name : string) :
  str_contains (fold_left read_object rows []) name = true
  <-> last_row name rows <> None.
Proof.
  unfold str_contains. rewrite read_objects_getitem.
  destruct (last_row name rows); simpl; split; congruence.
Qed.

Lemma read_objects_data_cases (rows : list ObjectRow) :
  (read_objects_data rows = Raise ValueError
   /\ exists name, In name required_objects /\ last_row name rows = None)
  \/ (read_objects_data rows = Ok (fold_left read_object rows [])
      /\ exists target comp1 comp2,
           last_row "target" rows = Some target
           /\ last_row "comp1" rows = Some comp1
           /\ last_row "comp2" rows = Some comp2).
Proof.
  unfold read_objects_data, required_objects.
  pose proof (str_contains_last_row rows "target") as Ht.
  pose proof (str_contains_last_row rows "comp1") as H1.
  pose proof (str_contains_last_row rows "comp2") as H2.
  destruct (str_contains _ "target"); simpl.
  - destruct (str_contains _ "comp1"); simpl.
    + destruct (str_contains _ "comp2"); simpl.
      * right. split; [reflexivity|].
        destruct (last_row "target" rows) as [t|]; [|now destruct (proj1 Ht eq_refl)].
        destruct (last_row "comp1" rows) as [c1|]; [|now destruct (proj1 H1 eq_refl)].
        destruct (last_row "comp2" rows) as [c2|]; [|now destruct (proj1 H2 eq_refl)].
        now exists t, c1, c2.
      * left. split; [reflexivity|]. exists "comp2"%string. split; [simpl; tauto|].
        destruct (last_row "comp2" rows); [|reflexivity].
        assert (false = true) by (apply H2; discriminate). discriminate.
    + left. split; [reflexivity|]. exists "comp1"%string. split; [simpl; tauto|].
      destruct (last_row "comp1" rows); [|reflexivity].
      assert (false = true) by (apply H1; discriminate). discriminate.
  - left. split; [reflexivity|]. exists "target"%string. split; [simpl; tauto|].
    destruct (last_row "target" rows); [|reflexivity].
    assert (false = true) by (apply Ht; discriminate). discriminate.
Qed.


Lemma split_part (sep : ascii) (a b : string) :
  has_char sep a = false -> split sep (a ++ String sep b) = a :: split sep b.
Proof.
  induction a as [|c a IH]; simpl; intro H.
  - now rewrite Ascii.eqb_refl.
  - apply orb_false_iff in H. destruct H as [Hc Ha].
    rewrite Hc, (IH Ha). reflexivity.
Qed.

Lemma split_last (sep : ascii) (a : string) :
  has_char sep a = false -> split sep a = [a].
Proof.
  induction a as [|c a IH]; simpl; intro H; [reflexivity|].
  apply orb_false_iff in H. destruct H as [Hc Ha].
  rewrite Hc, (IH Ha). reflexivity.
Qed.

(** The text stored for the target splits into its name and the texts of
    its two coordinates. *)
Lemma split_target_text (x y : pyfloat) :
  split "," ("target," ++ float_repr x ++ "," ++ float_repr y)
  = ["target"%string; float_repr x; float_repr y].
Proof.
  change ("target," ++ float_repr x ++ "," ++ float_repr y)%string
    with ("target" ++ String "," (float_repr x ++ String "," (float_repr y)))%string.
  rewrite split_part by reflexivity.
  rewrite split_part by apply float_repr_no_comma.
  rewrite split_last by apply float_repr_no_comma.
  reflexivity.
Qed.

Lemma main_with_objects (rows : list ObjectRow) (all_data : PhotometryData)
  (args_filter : option string) (args_ylim_sigma : pyfloat)
  (target comp1 comp2 : ObjectRow) :
  last_row "target" rows = Some target ->
  last_row "comp1" rows = Some comp1 ->
  last_row "comp2" rows = Some comp2 ->
  main separation rows all_data args_filter args_ylim_sigma
  = if truthy args_filter && (length (main_filter all_data args_filter) =? 0)%nat
    then Returned (NoDataForFilter (available_filters all_data))
    else
      match process_static_object_photometry separation
              (main_filter all_data args_filter) (coords_of target)
              {| comp1 := coords_of comp1; comp2 := coords_of comp2 |} with
      | Raise e => Threw (Builtin e)
      | Ok results =>
          if (length results =? 0)%nat then Returned NoValidMeasurements
          else
            match plot_magnitude_ratios results args_ylim_sigma with
            | Threw e => Threw e
            | Returned TIME_HOURS => Returned (Reduced results TIME_HOURS)
            end
      end.
Proof.
  intros Ht H1 H2. unfold main.
  destruct (read_objects_data_cases rows) as [(_ & name & Hin & Hnone)|(-> & _)].
  - unfold required_objects in Hin. simpl in Hin.
    destruct Hin as [<-|[<-|[<-|[]]]]; congruence.
  - unfold star_coords, target_field.
    rewrite !read_objects_getitem, Ht, H1, H2.
    cbn [option_map].
    change (String.eqb "target" "target") with true.
    change (String.eqb "comp1" "target") with false.
    change (String.eqb "comp2" "target") with false.
    cbv iota.
    rewrite split_target_text.
    cbn [nth_error]. rewrite !float_of_repr.
    reflexivity.
Qed.

(** What the plot returns is the column of hours, and the plot of a
    table of one row raises: the standard deviation of one value is NaN,
    and so are the limits of the y axis. *)
Lemma plot_magnitude_ratios_returned (results : list PhotometryRecord)
  (ylim_sigma_factor : pyfloat) (TIME_HOURS : option (list Q)) :
  plot_magnitude_ratios results ylim_sigma_factor = Returned TIME_HOURS ->
  TIME_HOURS = plot_TIME_HOURS results.
Proof.
  unfold plot_magnitude_ratios. cbv zeta.
  destruct (panel _ _ (PerRow _) _); [discriminate|].
  destruct (panel _ _ (PerRow _) _); [discriminate|].
  destruct (panel _ _ (Scalar _) _); [discriminate|].
  now intros [= <-].
Qed.

Lemma mul_NaN (x : pyfloat) : mul x NaN = NaN.
Proof. now destruct x. Qed.

Lemma add_NaN (x : pyfloat) : add x NaN = NaN.
Proof. now destruct x. Qed.

Lemma panel_one_row (TIME_HOURS : list Q) (x : pyfloat) (yerr : error_bars)
  (ylim_sigma_factor : pyfloat) :
  exists e, panel TIME_HOURS [x] yerr ylim_sigma_factor = Some e.
Proof.
  unfold panel. destruct (errorbar TIME_HOURS [x] yerr) as [e|]; [eauto|].
  rewrite std_one_row, mul_NaN, add_NaN. unfold set_ylim. simpl. eauto.
Qed.

Lemma plot_magnitude_ratios_one_row (r : PhotometryRecord)
  (ylim_sigma_factor : pyfloat) :
  exists e, plot_magnitude_ratios [r] ylim_sigma_factor = Threw e.
Proof.
  unfold plot_magnitude_ratios. cbn [map].
  destruct (panel_one_row
              match plot_TIME_HOURS [r] with Some hours => hours | None => [] end
              (sub (TARGET_MAG r) (COMP1_MAG r)) (PerRow [TARGET_MAGERR r])
              ylim_sigma_factor) as [e ->].
  eauto.
Qed.

Lemma required_objects_present (rows : list ObjectRow) (target comp1 comp2 : ObjectRow) :
  last_row "target" rows = Some target ->
  last_row "comp1" rows = Some comp1 ->
  last_row "comp2" rows = Some comp2 ->
  ~ (exists name, In name required_objects /\ last_row name rows = None).
Proof.
  intros Ht H1 H2 (name & Hin & Hnone). unfold required_objects in Hin. simpl in Hin.
  destruct Hin as [<-|[<-|[<-|[]]]]; congruence.
Qed.

(** [main] ends in an exception in three ways. It raises ValueError
    when target, comp1 or comp2 has no row in objects.dat. With the three
    there and epochs left by the filter (or no filter asked for), it
    raises ValueError when the declination of one of them lies beyond the
    poles and a selected epoch has a valid detection; and when the
    reduction has returned a table that is not empty, it raises what
    drawing that table raises. Drawing a table of one row always raises.
    The lookups in [objects] and the parsing of the target's text raise
    nothing (the two files being there and read into rows and epochs). *)
Theorem main_raises_for_objects_reduction_or_plot :
  forall (rows : list ObjectRow) (all_data : PhotometryData)
         (args_filter : option string) (args_ylim_sigma : pyfloat),
    (forall e : error,
        main separation rows all_data args_filter args_ylim_sigma = Threw e
        <-> (e = Builtin ValueError
             /\ exists name, In name required_objects /\ last_row name rows = None)
            \/ (exists target comp1 comp2,
                   last_row "target" rows = Some target
                   /\ last_row "comp1" rows = Some comp1
                   /\ last_row "comp2" rows = Some comp2
                   /\ (truthy args_filter = false
                       \/ main_filter all_data args_filter <> [])
                   /\ ((e = Builtin ValueError
                        /\ (exists data_id data j row,
                               In (data_id, data) (main_filter all_data args_filter)
                               /\ nth_error (df data) j = Some row
                               /\ valid_detection row)
                        /\ (beyond_the_poles (obj_DEC target)
                            \/ beyond_the_poles (obj_DEC comp1)
                            \/ beyond_the_poles (obj_DEC comp2)))
                       \/ (exists results,
                              process_static_object_photometry separation
                                (main_filter all_data args_filter) (coords_of target)
                                {| comp1 := coords_of comp1;
                                   comp2 := coords_of comp2 |} = Ok results
                              /\ results <> []
                              /\ plot_magnitude_ratios results args_ylim_sigma
                                 = Threw e))))
    /\ (forall r : PhotometryRecord,
           exists e, plot_magnitude_ratios [r] args_ylim_sigma = Threw e).
Proof.
  intros rows all_data args_filter args_ylim_sigma.
  split; [|intro r; apply plot_magnitude_ratios_one_row].
  intro e.
  destruct (read_objects_data_cases rows)
    as [(Hr & name & Hin & Hnone)|(_ & t & c1 & c2 & Ht & H1 & H2)].
  - unfold main. rewrite Hr. split.
    + intros [= <-]. left. split; [reflexivity|]. eauto.
    + intros [[-> _]|(t & c1 & c2 & Ht & H1 & H2 & _)]; [reflexivity|].
      destruct (required_objects_present rows t c1 c2 Ht H1 H2). eauto.
  - rewrite (main_with_objects rows all_data args_filter args_ylim_sigma
               t c1 c2 Ht H1 H2).
    pose proof (required_objects_present rows t c1 c2 Ht H1 H2) as Hleft.
    pose proof (fun e => process_static_object_photometry_raises separation
                  (main_filter all_data args_filter) (coords_of t)
                  {| comp1 := coords_of c1; comp2 := coords_of c2 |} e) as Hraise.
    simpl in Hraise.
    assert (Hsame : forall t' c1' c2',
               last_row "target" rows = Some t' -> last_row "comp1" rows = Some c1' ->
               last_row "comp2" rows = Some c2' -> t' = t /\ c1' = c1 /\ c2' = c2)
      by (intros; repeat split; congruence).
    destruct (truthy args_filter
              && (length (main_filter all_data args_filter) =? 0)%nat) eqn:Hsel.
    { split; [discriminate|].
      intros [[_ H]|(t' & c1' & c2' & _ & _ & _ & Hnot & _)]; [now destruct Hleft|].
      apply andb_true_iff in Hsel. destruct Hsel as [Htr Hlen].
      apply Nat.eqb_eq, length_zero_iff_nil in Hlen.
      destruct Hnot; congruence. }
    assert (Hnot : truthy args_filter = false
                   \/ main_filter all_data args_filter <> []).
    { apply andb_false_iff in Hsel. destruct Hsel as [H|H]; [now left|right].
      intro E. rewrite E in H. discriminate. }
    destruct (process_static_object_photometry separation
                (main_filter all_data args_filter) (coords_of t)
                {| comp1 := coords_of c1; comp2 := coords_of c2 |})
      as [results|e0] eqn:Ered.
    + assert (Hno : ~ ((exists data_id data j row,
                           In (data_id, data) (main_filter all_data args_filter)
                           /\ nth_error (df data) j = Some row
                           /\ valid_detection row)
                       /\ (beyond_the_poles (obj_DEC t)
                           \/ beyond_the_poles (obj_DEC c1)
                           \/ beyond_the_poles (obj_DEC c2)))).
      { intros [Hv Hb].
        assert (H : Ok results = Raise ValueError) by (apply Hraise; tauto).
        discriminate. }
      destruct results as [|r results'].
      * simpl. split; [discriminate|].
        intros [[_ H]|(t' & c1' & c2' & Ht' & H1' & H2' & _
                       & [(_ & Hv & Hb)|(results & Hres & Hne & _)])];
          [now destruct Hleft| |];
          destruct (Hsame _ _ _ Ht' H1' H2') as (-> & -> & ->).
        -- now destruct Hno.
        -- rewrite Ered in Hres. injection Hres as <-. now destruct Hne.
      * cbn [length Nat.eqb].
        destruct (plot_magnitude_ratios (r :: results') args_ylim_sigma)
          as [hours|e1] eqn:Eplot.
        -- split; [discriminate|].
           intros [[_ H]|(t' & c1' & c2' & Ht' & H1' & H2' & _
                          & [(_ & Hv & Hb)|(results & Hres & Hne & Hp)])];
             [now destruct Hleft| |];
             destruct (Hsame _ _ _ Ht' H1' H2') as (-> & -> & ->).
           ++ now destruct Hno.
           ++ rewrite Ered in Hres. injection Hres as <-. congruence.
        -- split.
           ++ intros [= <-]. right. exists t, c1, c2.
              do 4 (split; [assumption|]). right.
              exists (r :: results'). split; [exact Ered|].
              split; [discriminate|exact Eplot].
           ++ intros [[_ H]|(t' & c1' & c2' & Ht' & H1' & H2' & _
                             & [(_ & Hv & Hb)|(results & Hres & Hne & Hp)])];
                [now destruct Hleft| |];
                destruct (Hsame _ _ _ Ht' H1' H2') as (-> & -> & ->).
              ** now destruct Hno.
              ** rewrite Ered in Hres. injection Hres as <-. congruence.
    + destruct (proj1 (Hraise e0) eq_refl) as (-> & Hv & Hb).
      split.
      * intros [= <-]. right. exists t, c1, c2.
        do 4 (split; [assumption|]). left. tauto.
      * intros [[_ H]|(t' & c1' & c2' & Ht' & H1' & H2' & _
                       & [(-> & _)|(results & Hres & _)])];
          [now destruct Hleft|reflexivity|].
        destruct (Hsame _ _ _ Ht' H1' H2') as (-> & -> & ->).
        rewrite Ered in Hres. discriminate.
Qed.

Lemma no_epoch_in_band_selected (all_data : PhotometryData) (args_filter : option string) :
  NoDup (map fst all_data) ->
  truthy args_filter && (length (main_filter all_data args_filter) =? 0)%nat = true
  <-> no_epoch_in_band all_data args_filter.
Proof.
  intro Hnd. unfold no_epoch_in_band, main_filter.
  destruct args_filter as [name|]; unfold truthy.
  - destruct (String.eqb_spec name EmptyString) as [->|Hname]; cbn [negb andb].
    + split; [discriminate|]. intros (n & [= <-] & Hn & _). now destruct Hn.
    + rewrite filter_photometry_data_filter by exact Hnd.
      rewrite Nat.eqb_eq, length_zero_iff_nil. split.
      * intro Hnil. exists name. split; [reflexivity|]. split; [exact Hname|].
        intros item Hin.
        destruct (String.eqb (upper (get_band (snd item))) (upper name)) eqn:E;
          [|reflexivity].
        assert (Hf : In item (filter (fun item => String.eqb
                                        (upper (get_band (snd item))) (upper name))
                                all_data))
          by (apply filter_In; now split).
        rewrite Hnil in Hf. destruct Hf.
      * intros (n & [= <-] & _ & Hall).
        destruct (filter _ all_data) as [|item l] eqn:E; [reflexivity|].
        assert (Hf : In item (filter (fun item => String.eqb
                                        (upper (get_band (snd item))) (upper name))
                                all_data))
          by (rewrite E; now left).
        apply filter_In in Hf. destruct Hf as [Hin Hb].
        rewrite (Hall item Hin) in Hb. discriminate.
  - cbn [andb]. split; [discriminate|]. intros (n & H & _). discriminate.
Qed.

(** With target, comp1 and comp2 in objects.dat, [main] reduces the
    selected epochs around the coordinates of the last row of each name:
    the target's coordinates come back unchanged from the text they were
    written to. It stops before the reduction exactly when a (non-empty)
    band was asked for and no epoch has a label with the upper case of
    that name; it reports no valid measurement exactly when the reduction
    then returns an empty table; and it returns a reduced table exactly
    when the reduction returns a table that is not empty and the drawing
    of it raises nothing. The hours it returns are those of the table,
    which are defined, and the table has at least two rows, the drawing
    of a single row being refused. *)
Theorem main_reduces_around_last_rows :
  forall (rows : list ObjectRow) (all_data : PhotometryData)
         (args_filter : option string) (args_ylim_sigma : pyfloat)
         (target comp1 comp2 : ObjectRow),
    last_row "target" rows = Some target ->
    last_row "comp1" rows = Some comp1 ->
    last_row "comp2" rows = Some comp2 ->
    NoDup (map fst all_data) ->
    let reduction :=
      process_static_object_photometry separation (main_filter all_data args_filter)
        (coords_of target) {| comp1 := coords_of comp1; comp2 := coords_of comp2 |} in
    let main_end := main separation rows all_data args_filter args_ylim_sigma in
    (main_end = Returned (NoDataForFilter (available_filters all_data))
     <-> no_epoch_in_band all_data args_filter)
    /\ (main_end = Returned NoValidMeasurements
        <-> reduction = Ok [] /\ ~ no_epoch_in_band all_data args_filter)
    /\ (forall results TIME_HOURS,
           main_end = Returned (Reduced results TIME_HOURS)
           <-> ~ no_epoch_in_band all_data args_filter
               /\ reduction = Ok results
               /\ results <> []
               /\ plot_magnitude_ratios results args_ylim_sigma
                  = Returned TIME_HOURS)
    /\ (forall results TIME_HOURS,
           main_end = Returned (Reduced results TIME_HOURS) ->
           (2 <= length results)%nat
           /\ exists hours,
               TIME_HOURS = Some hours /\ plot_TIME_HOURS results = Some hours).
Proof.
  intros rows all_data args_filter args_ylim_sigma t c1 c2 Ht H1 H2 Hnd
    reduction main_end.
  subst main_end.
  rewrite (main_with_objects rows all_data args_filter args_ylim_sigma
             t c1 c2 Ht H1 H2).
  fold reduction.
  pose proof (no_epoch_in_band_selected all_data args_filter Hnd) as Hno.
  assert (Hreduced : forall results TIME_HOURS,
    (if truthy args_filter && (length (main_filter all_data args_filter) =? 0)%nat
     then Returned (NoDataForFilter (available_filters all_data))
     else match reduction with
          | Raise e => Threw (Builtin e)
          | Ok results =>
              if (length results =? 0)%nat then Returned NoValidMeasurements
              else match plot_magnitude_ratios results args_ylim_sigma with
                   | Threw e => Threw e
                   | Returned TIME_HOURS => Returned (Reduced results TIME_HOURS)
                   end
          end) = Returned (Reduced results TIME_HOURS)
    <-> ~ no_epoch_in_band all_data args_filter
        /\ reduction = Ok results
        /\ results <> []
        /\ plot_magnitude_ratios results args_ylim_sigma = Returned TIME_HOURS).
  { intros results TIME_HOURS.
    destruct (truthy args_filter
              && (length (main_filter all_data args_filter) =? 0)%nat) eqn:Hsel.
    - split; [discriminate|]. intros [Hband _]. exfalso. apply Hband. now apply Hno.
    - assert (Hband : ~ no_epoch_in_band all_data args_filter).
      { intro Hb. apply Hno in Hb. discriminate. }
      destruct reduction as [results0|e0].
      + destruct results0 as [|r results'].
        * simpl. split; [discriminate|].
          intros (_ & [= <-] & Hne & _). now destruct Hne.
        * cbn [length Nat.eqb].
          destruct (plot_magnitude_ratios (r :: results') args_ylim_sigma)
            as [hours|e1] eqn:Eplot.
          -- split.
             ++ intros [= <- <-]. repeat split; [exact Hband|discriminate|exact Eplot].
             ++ intros (_ & [= <-] & _ & Hp). rewrite Eplot in Hp. now injection Hp as <-.
          -- split; [discriminate|].
             intros (_ & [= <-] & _ & Hp). rewrite Eplot in Hp. discriminate.
      + split; [discriminate|]. intros (_ & H & _). discriminate. }
  split; [|split; [|split]].
  - destruct (truthy args_filter
              && (length (main_filter all_data args_filter) =? 0)%nat) eqn:Hsel.
    + split; [intros _; now apply Hno|reflexivity].
    + split.
      * intro H. exfalso. destruct reduction as [[|r results']|e0]; try discriminate.
        cbn [length Nat.eqb] in H.
        destruct (plot_magnitude_ratios _ _); discriminate.
      * intro Hb. apply Hno in Hb. discriminate.
  - destruct (truthy args_filter
              && (length (main_filter all_data args_filter) =? 0)%nat) eqn:Hsel.
    + split; [discriminate|]. intros [_ Hband]. exfalso. apply Hband. now apply Hno.
    + assert (Hband : ~ no_epoch_in_band all_data args_filter).
      { intro Hb. apply Hno in Hb. discriminate. }
      destruct reduction as [[|r results']|e0].
      * simpl. tauto.
      * cbn [length Nat.eqb]. split.
        -- destruct (plot_magnitude_ratios _ _); discriminate.
        -- intros [H _]. discriminate.
      * split; [discriminate|]. intros [H _]. discriminate.
  - exact Hreduced.
  - intros results TIME_HOURS H. apply Hreduced in H.
    destruct H as (_ & _ & Hne & Hplot).
    pose proof (plot_magnitude_ratios_returned _ _ _ Hplot) as ->.
    destruct results as [|r [|r' results']]; [now destruct Hne| |].
    + destruct (plot_magnitude_ratios_one_row r args_ylim_sigma) as [e He].
      rewrite He in Hplot. discriminate.
    + split; [simpl; lia|].
      unfold plot_TIME_HOURS, plot_time_offset.
      destruct (series_min (map MJD (r :: r' :: results'))) as [m|] eqn:Em.
      * eexists. split; reflexivity.
      * destruct (series_min_nonempty (map MJD (r :: r' :: results'))) as [m Hm];
          [discriminate|congruence].
Qed.

End ObjectsAndMain.

Section AvailableFilters.

Import ProcessPhotometry Main MainVocabulary.

Context {str_upper : StrUpper}.

Lemma insert_unique_In (s : string) (l : list string) :
  forall x, In x (insert_unique s l) <-> x = s \/ In x l.
Proof.
  induction l as [|y l IH]; simpl; intro x.
  - intuition.
  - destruct (String.compare s y) eqn:E; simpl.
    + apply String.compare_eq_iff in E. subst. intuition.
    + intuition.
    + rewrite IH. intuition.
Qed.

Lemma compare_Lt_trans (a b c : string) :
  String.compare a b = Lt -> String.compare b c = Lt -> String.compare a c = Lt.
Proof.
  intros H1 H2. pose proof OrdersEx.String_as_OT.lt_strorder as [_ T]. exact (T a b c H1 H2).
Qed.

Lemma insert_unique_sorted (s : string) (l : list string) :
  StronglySorted (fun a b => String.compare a b = Lt) l ->
  StronglySorted (fun a b => String.compare a b = Lt) (insert_unique s l).
Proof.
  induction l as [|y l IH]; simpl; intro H.
  - constructor; constructor.
  - inversion H as [|? ? Hl Hy]; subst.
    destruct (String.compare s y) eqn:E.
    + exact H.
    + constructor; [exact H|]. constructor; [exact E|].
      rewrite Forall_forall in *. intros z Hz. apply (compare_Lt_trans s y z E), Hy, Hz.
    + constructor; [now apply IH|].
      rewrite Forall_forall in *. intros z Hz. apply insert_unique_In in Hz.
      destruct Hz as [->|Hz]; [|now apply Hy].
      rewrite String.compare_antisym, E. reflexivity.
Qed.

Lemma sorted_set_In (names : list string) :
  forall x, In x (sorted_set names) <-> In x names.
Proof.
  induction names as [|n names IH]; simpl; intro x; [tauto|].
  rewrite insert_unique_In, IH. intuition.
Qed.

Lemma sorted_set_sorted (names : list string) :
  StronglySorted (fun a b => String.compare a b = Lt) (sorted_set names).
Proof.
  induction names as [|n names IH]; simpl; [constructor|].
  now apply insert_unique_sorted.
Qed.

Lemma dict_setitem_In {V : Type} (d : list (Z * V)) (k : Z) (v : V) (x : Z * V) :
  In x (dict_setitem d k v) -> x = (k, v) \/ In x d.
Proof.
  induction d as [|[k' v'] d IH]; simpl.
  - intuition.
  - destruct (Z.eqb_spec k' k) as [->|_]; simpl; intuition.
Qed.

Lemma filter_loop_selected (f : Z * EpochData -> bool) (items : PhotometryData)
  (item : Z * EpochData) :
  forall filtered_data : PhotometryData,
    In item (fold_left (fun filtered_data item =>
                          if f item then dict_setitem filtered_data (fst item) (snd item)
                          else filtered_data) items filtered_data) ->
    In item filtered_data \/ (In item items /\ f item = true).
Proof.
  induction items as [|[k v] items IH]; intros acc H; simpl in *; [now left|].
  apply IH in H. destruct H as [H|[H Hf]]; [|now right; split; [right|]].
  destruct (f (k, v)) eqn:E; [|now left].
  apply dict_setitem_In in H. destruct H as [->|H]; [|now left].
  right. split; [now left|exact E].
Qed.

Lemma filter_photometry_data_selected (photometry_data : PhotometryData)
  (name : string) (item : Z * EpochData) :
  In item (filter_photometry_data photometry_data (Some name)) ->
  In item photometry_data
  /\ String.eqb (upper (get_band (snd item))) (upper name) = true.
Proof.
  unfold filter_photometry_data. intro H.
  apply (filter_loop_selected
           (fun item => String.eqb (upper (get_band (snd item))) (upper name))) in H.
  destruct H as [[]|[Hin Hf]]. now split.
Qed.

(** The filters [main] lists when the requested band selects nothing are
    the band labels of the epochs, in strictly ascending order, hence each
    once, with Unknown for an epoch without a label. Such an epoch is
    listed as Unknown and yet is not selected by asking for Unknown: the
    band filter reads its label as the empty string. *)
Theorem available_filters_sorted_without_repeats :
  forall all_data : PhotometryData,
    StronglySorted (fun a b => String.compare a b = Lt) (available_filters all_data)
    /\ (forall name,
           In name (available_filters all_data)
           <-> exists item, In item all_data /\ band_or_unknown (snd item) = name)
    /\ (forall item,
           In item all_data -> calibration_data (snd item) = None ->
           In "Unknown"%string (available_filters all_data)
           /\ ~ In item (filter_photometry_data all_data (Some "Unknown"%string))).
Proof.
  intro all_data. unfold available_filters. split; [apply sorted_set_sorted|]. split.
  - intro name. rewrite sorted_set_In, in_map_iff. split.
    + intros (item & H & Hin). now exists item.
    + intros (item & Hin & H). now exists item.
  - intros item Hin Hcal. split.
    + apply sorted_set_In, in_map_iff. exists item. split; [|exact Hin].
      unfold band_or_unknown. now rewrite Hcal.
    + intro Hsel. apply filter_photometry_data_selected in Hsel.
      destruct Hsel as [_ Hband]. unfold get_band in Hband. rewrite Hcal in Hband.
      rewrite !upper_isascii in Hband by reflexivity. discriminate.
Qed.

End AvailableFilters.

Section SampleText.

Import Main MainVocabulary.

Lemma read_digits_of (p : positive) (rest : string) :
  read_digits (digits_of p ++ rest) = Some (p, rest).
Proof.
  induction p as [p IH|p IH|]; simpl; [now rewrite IH|now rewrite IH|reflexivity].
Qed.

Lemma read_text_of_Z (z : Z) (rest : string) :
  read_Z (text_of_Z z ++ rest) = Some (z, rest).
Proof.
  destruct z as [|p|p]; simpl; [reflexivity| |]; now rewrite read_digits_of.
Qed.

Lemma has_char_app (c : ascii) (s t : string) :
  has_char c (s ++ t) = has_char c s || has_char c t.
Proof.
  induction s as [|a s IH]; simpl; [reflexivity|]. now rewrite IH, orb_assoc.
Qed.

Lemma digits_of_no_comma (p : positive) : has_char "," (digits_of p) = false.
Proof. induction p as [p IH|p IH|]; simpl; auto. Qed.

Lemma append_empty (s : string) : (s ++ EmptyString)%string = s.
Proof. induction s as [|c s IH]; simpl; [reflexivity|now rewrite IH]. Qed.

Lemma sample_float_of_repr (x : pyfloat) : sample_float (sample_repr x) = Ok x.
Proof.
  destruct x as [[n d]| | |]; try reflexivity.
  unfold sample_repr, sample_float. simpl Qnum. simpl Qden.
  assert (Hnan : String.eqb (text_of_Z n ++ digits_of d) "nan" = false)
    by (destruct n; reflexivity).
  assert (Hinf : String.eqb (text_of_Z n ++ digits_of d) "inf" = false)
    by (destruct n; reflexivity).
  assert (Hninf : String.eqb (text_of_Z n ++ digits_of d) "-inf" = false)
    by (destruct n as [|p|p]; try reflexivity; destruct p; reflexivity).
  rewrite Hnan, Hinf, Hninf, read_text_of_Z.
  rewrite <- (append_empty (digits_of d)) at 1.
  rewrite read_digits_of. reflexivity.
Qed.

Lemma sample_repr_no_comma (x : pyfloat) : has_char "," (sample_repr x) = false.
Proof.
  destruct x as [[n d]| | |]; try reflexivity.
  unfold sample_repr. simpl Qnum. simpl Qden.
  rewrite has_char_app, digits_of_no_comma, orb_false_r.
  destruct n; simpl; [reflexivity| |]; apply digits_of_no_comma.
Qed.

#[export] Instance sample_text : FloatText := {|
  float_repr := sample_repr;
  float_of_string := sample_float;
  float_of_repr := sample_float_of_repr;
  float_repr_no_comma := sample_repr_no_comma
|}.

(** The upper case of ASCII text is a [str.upper] on ASCII text. *)
Definition ascii_str_upper : StrUpper := {|
  upper := ascii_upper;
  upper_isascii := fun s _ => eq_refl
|}.

Lemma sample_std_one_row (x : pyfloat) : sample_std [x] = NaN.
Proof. now destruct x. Qed.

Definition sample_plotting : Plotting := {|
  median := sample_median;
  std := sample_std;
  std_one_row := sample_std_one_row;
  errorbar := sample_errorbar
|}.

End SampleText.

Section Pagination.

Import ProcessPhotometry GetDataBhtom GetDataVocabulary.

Variable post : Z -> Response.

Lemma pages_from_S (page : Z) (n : nat) :
  pages_from page (S n) = page :: pages_from (page + 1) n.
Proof.
  unfold pages_from. simpl. rewrite Z.add_0_r. f_equal.
  rewrite <- seq_shift, map_map. apply map_ext. intro i. lia.
Qed.

Lemma in_pages_from (page : Z) (n : nat) (p : Z) :
  In p (pages_from page n) <-> (page <= p < page + Z.of_nat n)%Z.
Proof.
  unfold pages_from. rewrite in_map_iff. split.
  - intros (i & <- & Hi). apply in_seq in Hi. lia.
  - intro H. exists (Z.to_nat (p - page)). split; [lia|]. apply in_seq. lia.
Qed.

(** What the loop has done when it is left. *)
Lemma get_data_products_loop_pages (fuel : nat) :
  forall (page : Z) (dfs out : list (list DataProduct)),
    get_data_products_loop post fuel page dfs = Some out ->
    exists n : nat,
      out = dfs ++ map (fun p => data_list (post p)) (pages_from page n)
      /\ (forall p, page <= p < page + Z.of_nat n -> page_kept post p)%Z
      /\ (forall p, page <= p < page + Z.of_nat n - 1 ->
                    p + 1 <= announced (post p))%Z
      /\ (((0 < n)%nat
           /\ (announced (post (page + Z.of_nat n - 1)) < page + Z.of_nat n)%Z)
          \/ ~ page_kept post (page + Z.of_nat n))
      /\ (n <= fuel)%nat.
Proof.
  induction fuel as [|fuel IH]; intros page dfs out; simpl; [discriminate|].
  destruct (Z.eqb_spec (status_code (post page)) 200) as [Hs|Hs]; simpl.
  - destruct (data_list (post page)) as [|d l] eqn:Hd.
    + intros [= <-]. exists 0%nat. rewrite app_nil_r.
      split; [reflexivity|]. split; [lia|]. split; [lia|]. split; [|lia].
      right. rewrite Z.add_0_r. intros [_ H]. now apply H.
    + fold (announced (post page)).
      destruct (Z.gtb_spec (page + 1) (announced (post page))) as [Hgt|Hle].
      * intros [= <-]. exists 1%nat.
        split; [unfold pages_from; simpl; now rewrite Z.add_0_r, Hd|].
        split; [|split; [lia|split; [|lia]]].
        -- intros p Hp. assert (p = page) by lia. subst p.
           split; [exact Hs|]. rewrite Hd. discriminate.
        -- left. split; [lia|].
           replace (page + Z.of_nat 1 - 1)%Z with page by lia. lia.
      * intro H. apply IH in H. destruct H as (n & -> & Hkept & Hann & Hstop & Hn).
        exists (S n). rewrite pages_from_S. cbn [map]. rewrite <- app_assoc, Hd. cbn [app].
        split; [reflexivity|]. split; [|split; [|split; [|lia]]].
        -- intros p Hp. destruct (Z.eq_dec p page) as [->|Hne].
           ++ split; [exact Hs|]. rewrite Hd. discriminate.
           ++ apply Hkept. lia.
        -- intros p Hp. destruct (Z.eq_dec p page) as [->|Hne]; [lia|].
           apply Hann. lia.
        -- destruct Hstop as [[Hpos Hlt]|Hbad].
           ++ left. split; [lia|].
              replace (page + Z.of_nat (S n) - 1)%Z with (page + 1 + Z.of_nat n - 1)%Z
                by lia.
              lia.
           ++ right. replace (page + Z.of_nat (S n))%Z with (page + 1 + Z.of_nat n)%Z
                by lia.
              exact Hbad.
  - intros [= <-]. exists 0%nat. rewrite app_nil_r.
    split; [reflexivity|]. split; [lia|]. split; [lia|]. split; [|lia].
    right. rewrite Z.add_0_r. intros [H _]. now apply Hs.
Qed.

(** When [get_data_products] returns, it has asked for the pages 1, 2,
    ... in turn and kept the first [n] of them: its table is their
    records in page order, each kept page had status 200 and records,
    and each but the last announced a further page. It stopped because
    the last kept page announced no further one or because the page
    after it failed or was empty. *)
Theorem get_data_products_pages_in_order :
  forall (fuel : nat) (data_products : list DataProduct),
    get_data_products post fuel = Some data_products ->
    exists n : nat,
      data_products = flat_map (fun p => data_list (post p)) (pages_from 1 n)
      /\ (forall p, 1 <= p <= Z.of_nat n -> page_kept post p)%Z
      /\ (forall p, 1 <= p < Z.of_nat n -> p + 1 <= announced (post p))%Z
      /\ (((0 < n)%nat /\ (announced (post (Z.of_nat n)) <= Z.of_nat n)%Z)
          \/ ~ page_kept post (Z.of_nat n + 1))
      /\ (n <= fuel)%nat.
Proof.
  intros fuel data_products. unfold get_data_products.
  destruct (get_data_products_loop post fuel 1 []) as [dfs|] eqn:E; [|discriminate].
  intros [= <-]. apply get_data_products_loop_pages in E.
  destruct E as (n & -> & Hkept & Hann & Hstop & Hn). exists n. simpl.
  split; [now rewrite flat_map_concat_map|].
  split; [intros p Hp; apply Hkept; lia|].
  split; [intros p Hp; apply Hann; lia|]. split; [|exact Hn].
  destruct Hstop as [[Hpos Hlt]|Hbad].
  - left. split; [exact Hpos|].
    replace (1 + Z.of_nat n - 1)%Z with (Z.of_nat n) in Hlt by lia. lia.
  - right. now rewrite Z.add_comm.
Qed.

Lemma get_data_products_loop_enough (bound : Z) :
  (forall p, 1 <= p -> announced (post p) <= bound)%Z ->
  forall (fuel : nat) (page : Z) (dfs : list (list DataProduct)),
    (1 <= page)%Z ->
    (Z.max 1 (bound - page + 1) <= Z.of_nat fuel)%Z ->
    exists out, get_data_products_loop post fuel page dfs = Some out.
Proof.
  intro Hbound. induction fuel as [|fuel IH]; intros page dfs Hpage Hfuel; [lia|].
  simpl. destruct (negb _); [eauto|].
  destruct (data_list (post page)) as [|d l]; [eauto|].
  fold (announced (post page)).
  destruct (Z.gtb_spec (page + 1) (announced (post page))) as [Hgt|Hle]; [eauto|].
  apply IH; [lia|]. specialize (Hbound page Hpage). lia.
Qed.

Lemma get_data_products_loop_more_fuel (fuel : nat) :
  forall (fuel' : nat) (page : Z) (dfs out : list (list DataProduct)),
    (fuel <= fuel')%nat ->
    get_data_products_loop post fuel page dfs = Some out ->
    get_data_products_loop post fuel' page dfs = Some out.
Proof.
  induction fuel as [|fuel IH]; intros fuel' page dfs out Hle; simpl; [discriminate|].
  destruct fuel' as [|fuel']; [lia|]. simpl.
  destruct (negb _); [trivial|].
  destruct (data_list (post page)) as [|d l]; [trivial|].
  destruct (_ >? _)%Z; [trivial|].
  apply IH. lia.
Qed.

(** When no answer announces more than [bound] pages, the loop of
    [get_data_products] is left after at most [max 1 bound] requests: with
    that many it returns a table, and more requests give the same one. *)
Theorem get_data_products_terminates :
  forall bound : Z,
    (forall p, 1 <= p -> announced (post p) <= bound)%Z ->
    exists data_products,
      forall fuel : nat,
        (Z.to_nat (Z.max 1 bound) <= fuel)%nat ->
        get_data_products post fuel = Some data_products.
Proof.
  intros bound Hbound.
  destruct (get_data_products_loop_enough bound Hbound (Z.to_nat (Z.max 1 bound)) 1 [])
    as [out Hout]; [lia|lia|].
  exists (concat out). intros fuel Hfuel. unfold get_data_products.
  now rewrite (get_data_products_loop_more_fuel _ fuel 1 [] out Hfuel Hout).
Qed.

Lemma get_data_products_loop_endless (fuel : nat) :
  (forall p, 1 <= p -> page_kept post p /\ p + 1 <= announced (post p))%Z ->
  forall (page : Z) (dfs : list (list DataProduct)),
    (1 <= page)%Z -> get_data_products_loop post fuel page dfs = None.
Proof.
  intro Hall. induction fuel as [|fuel IH]; intros page dfs Hpage; simpl; [reflexivity|].
  destruct (Hall page Hpage) as [[Hs Hd] Hann]. rewrite Hs. simpl.
  destruct (data_list (post page)) as [|d l]; [now destruct Hd|].
  fold (announced (post page)).
  destruct (Z.gtb_spec (page + 1) (announced (post page))) as [Hgt|Hle]; [lia|].
  apply IH. lia.
Qed.

(** Nothing but the answers ends the loop: against a server that answers
    every page with status 200, some records and the announcement of a
    further page, [get_data_products] never returns, however many
    requests it is allowed. *)
Theorem get_data_products_relies_on_the_server :
  (forall p, 1 <= p -> page_kept post p /\ p + 1 <= announced (post p))%Z ->
  forall fuel : nat, get_data_products post fuel = None.
Proof.
  intros Hall fuel. unfold get_data_products.
  now rewrite (get_data_products_loop_endless fuel Hall 1 []) by lia.
Qed.

End Pagination.

Section Download.

Import ProcessPhotometry GetDataBhtom GetDataVocabulary.

Variable post : Z -> Response.
Variable post_file : Z -> FileResponse.

Lemma dict_setitem_keys {V : Type} (d : list (Z * V)) (k : Z) (v : V) :
  forall k', In k' (map fst (dict_setitem d k v)) <-> k' = k \/ In k' (map fst d).
Proof.
  induction d as [|[k0 v0] d IH]; simpl; intro k'.
  - intuition.
  - destruct (Z.eqb_spec k0 k) as [->|Hk]; simpl.
    + intuition.
    + rewrite IH. intuition.
Qed.

Lemma dict_setitem_NoDup {V : Type} (d : list (Z * V)) (k : Z) (v : V) :
  NoDup (map fst d) -> NoDup (map fst (dict_setitem d k v)).
Proof.
  induction d as [|[k0 v0] d IH]; simpl; intro H.
  - constructor; [intros []|constructor].
  - inversion H as [|? ? Hk0 Hd]; subst.
    destruct (Z.eqb_spec k0 k) as [->|Hk]; simpl.
    + now constructor.
    + constructor; [|now apply IH].
      rewrite dict_setitem_keys. intros [->|Hin]; [now apply Hk|now apply Hk0].
Qed.

Lemma download_rows (data_id : Z) :
  download_photometry_file post_file data_id <> [] <->
  file_status_code (post_file data_id) = 200%Z /\ file_rows (post_file data_id) <> [].
Proof.
  unfold download_photometry_file.
  destruct (Z.eqb_spec (file_status_code (post_file data_id)) 200) as [Hs|Hs]; simpl.
  - tauto.
  - split; [congruence|tauto].
Qed.

(** What a pass of the loop does with a data product. *)
Lemma process_row_cases (results : PhotometryData) (row : DataProduct) :
  (~ usable post_file row /\ process_row post_file results row = results)
  \/ (usable post_file row
      /\ exists calibration t,
           row_calibration_data row = Some calibration
           /\ api_mjd calibration = Some t
           /\ process_row post_file results row
              = dict_setitem results (data_id row)
                  {| df := file_rows (post_file (data_id row)); mjd := t;
                     calibration_data := Some {| band := api_band calibration |} |}).
Proof.
  unfold process_row, usable.
  destruct (row_calibration_data row) as [c|];
    [|left; split; [intros [(c & t & H & _) _]; discriminate|reflexivity]].
  destruct (api_mjd c) as [t|] eqn:Et;
    [|left; split; [intros [(c' & t & [= <-] & H) _]; congruence|reflexivity]].
  pose proof (download_rows (data_id row)) as Hd.
  destruct (download_photometry_file post_file (data_id row)) as [|d l] eqn:E.
  - left. split; [|reflexivity]. intros (_ & Hs & Hr).
    apply (proj2 Hd); [now split|reflexivity].
  - assert (Hok : file_status_code (post_file (data_id row)) = 200%Z
                  /\ file_rows (post_file (data_id row)) <> [])
      by (apply Hd; discriminate).
    right. split; [split; [now exists c, t|exact Hok]|].
    exists c, t. split; [reflexivity|]. split; [exact Et|].
    unfold download_photometry_file in E. destruct Hok as [Hs _].
    rewrite Hs in E. simpl in E. now rewrite E.
Qed.

Lemma process_rows_keys (rows : list DataProduct) :
  forall (results : PhotometryData) (k : Z),
    In k (map fst (fold_left (process_row post_file) rows results))
    <-> In k (map fst results)
        \/ exists row, In row rows /\ data_id row = k /\ usable post_file row.
Proof.
  induction rows as [|row rows IH]; intros results k; simpl.
  - split; [now left|]. intros [H|(row & [] & _)]. exact H.
  - rewrite IH.
    destruct (process_row_cases results row) as [[Hno ->]|(Hyes & c & t & _ & _ & ->)].
    + split.
      * intros [H|(r & Hin & Hk & Hu)]; [now left|]. right. exists r. tauto.
      * intros [H|(r & [<-|Hin] & Hk & Hu)]; [now left|contradiction|].
        right. now exists r.
    + rewrite dict_setitem_keys. split.
      * intros [[->|H]|(r & Hin & Hk & Hu)].
        -- right. exists row. tauto.
        -- now left.
        -- right. exists r. tauto.
      * intros [H|(r & [<-|Hin] & Hk & Hu)].
        -- left. now right.
        -- left. now left.
        -- right. now exists r.
Qed.

Lemma process_rows_NoDup (rows : list DataProduct) :
  forall results : PhotometryData,
    NoDup (map fst results) ->
    NoDup (map fst (fold_left (process_row post_file) rows results)).
Proof.
  induction rows as [|row rows IH]; intros results H; simpl; [exact H|].
  apply IH.
  destruct (process_row_cases results row) as [[_ ->]|(_ & c & t & _ & _ & ->)];
    [exact H|now apply dict_setitem_NoDup].
Qed.

Lemma process_rows_items (rows : list DataProduct) :
  forall (results : PhotometryData) (item : Z * EpochData),
    In item (fold_left (process_row post_file) rows results) ->
    In item results
    \/ exists row calibration,
         In row rows /\ usable post_file row
         /\ data_id row = fst item
         /\ row_calibration_data row = Some calibration
         /\ api_mjd calibration = Some (mjd (snd item))
         /\ df (snd item) = file_rows (post_file (data_id row))
         /\ calibration_data (snd item) = Some {| band := api_band calibration |}.
Proof.
  induction rows as [|row rows IH]; intros results item; simpl; [now left|].
  intro H. apply IH in H.
  destruct H as [H|(r & c & Hin & Hrest)]; [|right; exists r, c; tauto].
  destruct (process_row_cases results row) as [[_ E]|(Hu & c & t & Hc & Ht & E)];
    rewrite E in H; [now left|].
  apply dict_setitem_In in H. destruct H as [->|H]; [|now left].
  right. exists row, c. simpl. tauto.
Qed.

Lemma process_all_data_keys (fuel : nat) (results : PhotometryData) :
  process_all_data post post_file fuel = Some results ->
  exists data_products,
    get_data_products post fuel = Some data_products
    /\ results = fold_left (process_row post_file) data_products []
    /\ forall k,
         In k (map fst results)
         <-> exists row,
               In row data_products /\ GetDataBhtom.data_id row = k
               /\ usable post_file row.
Proof.
  unfold process_all_data.
  destruct (get_data_products post fuel) as [data_products|]; [|discriminate].
  intro H. exists data_products. split; [reflexivity|].
  assert (E : results = fold_left (process_row post_file) data_products [])
    by (destruct data_products; now injection H as <-).
  split; [exact E|]. subst results.
  intro k. rewrite process_rows_keys. simpl. tauto.
Qed.



End Download.

Section DownloadReport.

Import Pipeline PipelineVocabulary.

Lemma prefix_app (p s : string) :
  String.prefix p s = true -> exists rest, s = (p ++ rest)%string.
Proof.
  revert s. induction p as [|c p IH]; intros s.
  - intros _. now exists s.
  - destruct s as [|c' s]; simpl; [discriminate|].
    destruct (ascii_dec c c') as [e|n]; [|discriminate].
    intro H. subst c'. destruct (IH s H) as [rest ->]. now exists rest.
Qed.

(** A character put in front of a text takes no word away. *)
Lemma split_whitespace_cons (c : ascii) (s : string) :
  (length (split_whitespace s) <= length (split_whitespace (String c s)))%nat.
Proof.
  simpl. destruct (is_space c); [lia|].
  destruct s as [|c' s]; [simpl; lia|].
  destruct (is_space c'); [simpl; lia|].
  destruct (split_whitespace (String c' s)); simpl; lia.
Qed.

Lemma split_whitespace_word (c : ascii) (s : string) :
  is_space c = false -> (1 <= length (split_whitespace (String c s)))%nat.
Proof.
  intro H. simpl. rewrite H.
  destruct s as [|c' s]; [simpl; lia|].
  destruct (is_space c'); [simpl; lia|].
  destruct (split_whitespace (String c' s)); simpl; lia.
Qed.

Lemma phrase_two_words (rest : string) :
  (2 <= length (split_whitespace ("data products with valid MJD" ++ rest)))%nat.
Proof.
  change ("data products with valid MJD" ++ rest)%string
    with (String "d" (String "a" (String "t" (String "a" (String " "
            (String "p" ("roducts with valid MJD" ++ rest)))))))%string.
  do 3 (etransitivity; [|apply split_whitespace_cons]).
  pose proof (split_whitespace_word "p" ("roducts with valid MJD" ++ rest) eq_refl) as H.
  remember (String "p" ("roducts with valid MJD" ++ rest)) as tail.
  change (split_whitespace (String "a" (String " " tail)))
    with (String "a" EmptyString :: split_whitespace tail).
  simpl. lia.
Qed.

(** A line that holds the phrase the download prints has a second word. *)
Lemma contains_phrase_second_word (line : string) :
  contains phrase line = true ->
  exists word, nth_error (split_whitespace line) 1 = Some word.
Proof.
  intro H.
  assert (Hlen : (2 <= length (split_whitespace line))%nat).
  { induction line as [|c line IH].
    - simpl in H. discriminate.
    - change (contains "data products with valid MJD" (String c line))
        with (String.prefix "data products with valid MJD" (String c line)
              || contains "data products with valid MJD" line) in H.
      apply orb_true_iff in H. destruct H as [H|H].
      + apply prefix_app in H. destruct H as [rest ->]. apply phrase_two_words.
      + etransitivity; [apply (IH H)|apply split_whitespace_cons]. }
  destruct (split_whitespace line) as [|w0 [|w1 ws]]; simpl in Hlen; try lia.
  now exists w1.
Qed.


Lemma find_last {A : Type} (f : A -> bool) (l : list A) (x : A) :
  find f (l ++ [x])
  = match find f l with
    | Some y => Some y
    | None => if f x then Some x else None
    end.
Proof.
  induction l as [|y l IH]; simpl; [reflexivity|]. now destruct (f y).
Qed.

(** The loop over the lines of the download's output always goes on to
    the next step: a line that holds the phrase has a second word. *)
Lemma parse_epochs_next (lines : list string) :
  forall (job : Job) (commands : list (list string)),
    exists job',
      parse_epochs lines (job, commands) = (Next tt, (job', commands))
      /\ status job' = status job /\ step job' = step job
      /\ target_name job' = target_name job /\ created_at job' = created_at job
      /\ error job' = error job /\ files job' = files job
      /\ epochs_downloaded job'
         = match find (contains phrase) (rev lines) with
           | Some line => nth_error (split_whitespace line) 1
           | None => epochs_downloaded job
           end.
Proof.
  induction lines as [|line lines IH]; intros job commands.
  - exists job. repeat split; reflexivity.
  - simpl rev. rewrite find_last.
    cbn [parse_epochs]. unfold bind.
    fold phrase.
    destruct (contains phrase line) eqn:Hc.
    + destruct (contains_phrase_second_word line Hc) as [word Hw]. rewrite Hw.
      unfold modify. cbn [fst snd].
      destruct (IH (set_epochs_downloaded word job) commands)
        as (job' & -> & Hs & Hst & Ht & Hcr & He & Hf & Hep).
      exists job'. split; [reflexivity|]. repeat (split; [assumption|]).
      rewrite Hep. now destruct (find (contains phrase) (rev lines)).
    + unfold ret.
      destruct (IH job commands) as (job' & -> & Hs & Hst & Ht & Hcr & He & Hf & Hep).
      exists job'. split; [reflexivity|]. repeat (split; [assumption|]).
      rewrite Hep. now destruct (find (contains phrase) (rev lines)).
Qed.

Lemma parse_epochs_reported (stdout : string) (job : Job)
  (commands : list (list string)) :
  exists job',
    parse_epochs (split newline stdout) (job, commands) = (Next tt, (job', commands))
    /\ status job' = status job /\ step job' = step job
    /\ target_name job' = target_name job /\ created_at job' = created_at job
    /\ error job' = error job /\ files job' = files job
    /\ epochs_downloaded job'
       = match reported_epochs stdout with
         | Some word => Some word
         | None => epochs_downloaded job
         end.
Proof.
  destruct (parse_epochs_next (split newline stdout) job commands)
    as (job' & Hrun & Hs & Hst & Ht & Hcr & He & Hf & Hep).
  exists job'. split; [exact Hrun|]. repeat (split; [assumption|]).
  rewrite Hep. unfold reported_epochs.
  destruct (find (contains phrase) (rev (split newline stdout))) as [line|] eqn:E;
    [|reflexivity].
  apply find_some in E. destruct E as [_ Hc].
  destruct (contains_phrase_second_word line Hc) as [word ->]. reflexivity.
Qed.


End DownloadReport.

Section PipelineRun.

Import Pipeline PipelineVocabulary.

Variable str_of : json -> string.
Variable type_error_text : list json -> string.
Variable write_objects : string -> option string.
Variable run : list string -> subprocess_result.

(** The command line of the download is started only for a target name
    that is a text. *)
Lemma download_strings (target_name : json) (mjd_min mjd_max : string) :
  strings [JString "./venv/bin/python"; JString "get_data_bhtom.py"; target_name;
           JString "--mjd-range"; JString mjd_min; JString mjd_max]
  = match target_name with
    | JString name => Some (download_command name mjd_min mjd_max)
    | _ => None
    end.
Proof. destruct target_name; reflexivity. Qed.

(** The command line of the reduction, by what the filter asks for. *)
Lemma process_strings (filter_name : json) :
  let cmd := [JString "./venv/bin/python"; JString "process_photometry.py"] in
  let cmd := if json_truthy filter_name && json_differs filter_name "all"
             then cmd ++ [JString "--filter"; filter_name]
             else cmd in
  (exists filter, asks_for filter_name filter
                  /\ strings cmd = Some (process_command filter))
  \/ (strings cmd = None /\ forall filter, ~ asks_for filter_name filter).
Proof.
  cbv zeta.
  destruct (json_truthy filter_name) eqn:Ht; cbn [andb].
  - destruct filter_name as [|b|n|x|s|items|members]; cbn [json_differs].
    all: try (right; split; [reflexivity|];
              intros filter H; inversion H; subst; congruence).
    destruct (String.eqb_spec s "all") as [->|Hall]; cbn [negb].
    + left. exists None. split; [apply asks_all|reflexivity].
    + left. exists (Some s). split; [|reflexivity].
      apply asks_band; [|exact Hall].
      intros ->. discriminate.
  - left. exists None. split; [now apply asks_nothing|reflexivity].
Qed.


Lemma asks_for_unique (v : json) (f f' : option string) :
  asks_for v f -> asks_for v f' -> f = f'.
Proof.
  intros H H'. inversion H; subst; inversion H'; subst; try reflexivity;
    simpl in *; try congruence.
  - apply negb_false_iff, String.eqb_eq in H0. congruence.
  - apply negb_false_iff, String.eqb_eq in H2. congruence.
Qed.

Lemma run_pipeline_paths (job : Job) (target_name mjd_min mjd_max filter_name : json)
  (objects_data : string) :
  exists final commands,
    run_pipeline str_of type_error_text write_objects run job
      target_name mjd_min mjd_max filter_name objects_data = (final, commands)
    /\ let failed := status final = "error"%string /\ error final <> None
                     /\ files final = files job in
       (failed /\ commands = []
        /\ (write_objects objects_data <> None
            \/ forall name, target_name <> JString name))
       \/ exists name,
            target_name = JString name /\ write_objects objects_data = None
            /\ let d := download_command name (str_of mjd_min) (str_of mjd_max) in
               (failed /\ commands = [d]
                /\ ((forall out err, run d <> CompletedProcess 0 out err)
                    \/ forall filter, ~ asks_for filter_name filter))
               \/ exists out err filter,
                    run d = CompletedProcess 0 out err /\ asks_for filter_name filter
                    /\ let p := process_command filter in
                       (failed /\ commands = [d; p]
                        /\ forall out' err', run p <> CompletedProcess 0 out' err')
                       \/ (exists out' err', run p = CompletedProcess 0 out' err')
                           /\ commands = [d; p; plot_command]
                           /\ ((failed
                                /\ forall rc out' err',
                                     run plot_command <> CompletedProcess rc out' err')
                               \/ ((exists rc out' err',
                                       run plot_command = CompletedProcess rc out' err')
                                   /\ status final = "completed"%string
                                   /\ step final = "Pipeline completed successfully"%string
                                   /\ files final <> None
                                   /\ error final = error job
                                   /\ epochs_downloaded final
                                      = match reported_epochs out with
                                        | Some word => Some word
                                        | None => epochs_downloaded job
                                        end)).
Proof.
  cbv zeta.
  unfold run_pipeline, run_pipeline_try, bind, modify, ret, raise, return_,
    subprocess_run.
  cbn [fst snd].
  rewrite download_strings.
  destruct (write_objects objects_data) as [message|] eqn:Hw.
  - eexists _, _. split; [reflexivity|]. left.
    cbn. repeat split; try discriminate. left. discriminate.
  - destruct target_name as [|b|n|x|name|items|members].
    all: try (eexists _, _; split; [reflexivity|]; left; cbn;
              repeat split; try discriminate; right; intros ? H; discriminate H).
    cbn [app].
    destruct (run (download_command name (str_of mjd_min) (str_of mjd_max)))
      as [rc out err| |message] eqn:Hd.
    2,3: eexists _, _; split; [reflexivity|]; right; exists name;
         split; [reflexivity|]; split; [reflexivity|]; left; cbn;
         repeat split; try discriminate; left; intros ? ? H; rewrite Hd in H;
         discriminate H.
    destruct (Z.eqb_spec rc 0) as [->|Hrc]; cbn [negb].
    2: { eexists _, _; split; [reflexivity|]; right; exists name;
         split; [reflexivity|]; split; [reflexivity|]; left; cbn;
         repeat split; try discriminate; left; intros out' err' H;
         rewrite Hd in H; injection H as H _ _; now apply Hrc. }
    match goal with
    | |- context [parse_epochs (split newline out) (?j, ?c)] =>
        destruct (parse_epochs_reported out j c)
          as (job1 & -> & Hs1 & Hst1 & Ht1 & Hc1 & He1 & Hf1 & Hep1)
    end.
    cbn [fst snd app] in *.
    pose proof (process_strings filter_name) as Hp. cbv zeta in Hp. cbn [app] in Hp.
    destruct Hp as [(filter & Hask & ->)|(-> & Hno)].
    2: { eexists _, _. split; [reflexivity|]. right. exists name.
         split; [reflexivity|]. split; [reflexivity|]. left. cbn in *.
         repeat split; try discriminate; try congruence. now right. }
    change (strings [JString "./venv/bin/python"; JString "plot_dss_field.py"])
      with (Some plot_command).
    destruct (run (process_command filter)) as [rc' out' err'| |message] eqn:Hpr.
    2,3: eexists _, _; split; [reflexivity|]; right; exists name;
         split; [reflexivity|]; split; [reflexivity|]; right;
         exists out, err, filter; split; [exact Hd|]; split; [exact Hask|]; left;
         cbn in *; repeat split; try discriminate; try congruence.
    destruct (Z.eqb_spec rc' 0) as [->|Hrc']; cbn [negb].
    2: { eexists _, _; split; [reflexivity|]; right; exists name;
         split; [reflexivity|]; split; [reflexivity|]; right;
         exists out, err, filter; split; [exact Hd|]; split; [exact Hask|]; left;
         cbn in *; repeat split; try discriminate; try congruence. }
    cbn [fst snd].
    destruct (run plot_command) as [rc'' out'' err''| |message] eqn:Hpl.
    2,3: eexists _, _; split; [reflexivity|]; right; exists name;
         split; [reflexivity|]; split; [reflexivity|]; right;
         exists out, err, filter; split; [exact Hd|]; split; [exact Hask|]; right;
         split; [now exists out', err'|]; split; [reflexivity|]; left;
         cbn in *; repeat split; try discriminate; try congruence.
    eexists _, _; split; [reflexivity|]; right; exists name;
      split; [reflexivity|]; split; [reflexivity|]; right;
      exists out, err, filter; split; [exact Hd|]; split; [exact Hask|]; right;
      split; [now exists out', err'|]; split; [reflexivity|]; right.
    split; [now exists rc'', out'', err''|].
    cbn in *. repeat split; try discriminate; try congruence.
Qed.

(** A run of the pipeline ends as completed or as an error, never in
    between. It is completed exactly when objects.dat could be written,
    the target name is a text, the filter can be put on a command line,
    the download and the reduction returned 0 and the plot of the field
    finished: the return code of that last command is not looked at, so a
    failed field plot still gives a completed job. A completed job gets
    its files and keeps its error entry; a failed one gets an error and
    keeps its files entry. *)
Theorem run_pipeline_completed_iff :
  forall (job : Job) (target_name mjd_min mjd_max filter_name : json)
         (objects_data : string),
    let final := fst (run_pipeline str_of type_error_text write_objects run job
                        target_name mjd_min mjd_max filter_name objects_data) in
    (status final = "completed"%string \/ status final = "error"%string)
    /\ (status final = "completed"%string
        <-> write_objects objects_data = None
            /\ exists name filter,
                 target_name = JString name /\ asks_for filter_name filter
                 /\ (exists out err,
                        run (download_command name (str_of mjd_min) (str_of mjd_max))
                        = CompletedProcess 0 out err)
                 /\ (exists out err,
                        run (process_command filter) = CompletedProcess 0 out err)
                 /\ (exists rc out err,
                        run plot_command = CompletedProcess rc out err))
    /\ (status final = "completed"%string ->
        files final <> None /\ error final = error job
        /\ step final = "Pipeline completed successfully"%string)
    /\ (status final = "error"%string ->
        error final <> None /\ files final = files job).
Proof.
  intros job target_name mjd_min mjd_max filter_name objects_data.
  destruct (run_pipeline_paths job target_name mjd_min mjd_max filter_name objects_data)
    as (final & commands & -> & Hpaths).
  cbv zeta in *. cbn [fst].
  destruct Hpaths as [((Hs & He & Hf) & _ & Hwhy)|(name & -> & Hw & Hpaths)].
  { rewrite Hs. split; [now right|]. split; [|split; [discriminate|tauto]].
    split; [discriminate|]. intros (Hw & name & filter & -> & _). exfalso.
    destruct Hwhy as [Hwhy|Hwhy]; [contradiction|]. now apply (Hwhy name). }
  destruct Hpaths as [((Hs & He & Hf) & _ & Hwhy)
                     |(out & err & filter & Hd & Hask & Hpaths)].
  { rewrite Hs. split; [now right|]. split; [|split; [discriminate|tauto]].
    split; [discriminate|].
    intros (_ & name' & filter & [= <-] & Hask & (out & err & Hd) & _). exfalso.
    destruct Hwhy as [Hwhy|Hwhy]; [now apply (Hwhy out err)|now apply (Hwhy filter)]. }
  destruct Hpaths as [((Hs & He & Hf) & _ & Hwhy)|(Hp & _ & Hpaths)].
  { rewrite Hs. split; [now right|]. split; [|split; [discriminate|tauto]].
    split; [discriminate|].
    intros (_ & name' & filter' & [= <-] & Hask' & _ & (out' & err' & Hp) & _).
    exfalso. rewrite (asks_for_unique _ _ _ Hask' Hask) in Hp. now apply (Hwhy out' err'). }
  destruct Hpaths as [((Hs & He & Hf) & Hwhy)|(Hpl & Hs & Hst & Hf & He & _)].
  { rewrite Hs. split; [now right|]. split; [|split; [discriminate|tauto]].
    split; [discriminate|].
    intros (_ & name' & filter' & _ & _ & _ & _ & (rc & out' & err' & Hpl)).
    exfalso. now apply (Hwhy rc out' err'). }
  rewrite Hs. split; [now left|]. split; [|split; [tauto|discriminate]].
  split; [|reflexivity]. intros _. split; [exact Hw|].
  exists name, filter. split; [reflexivity|]. split; [exact Hask|].
  split; [now exists out, err|]. split; [exact Hp|exact Hpl].
Qed.

Lemma asks_for_filter_argument (s : string) :
  asks_for (JString s) (App.filter_argument (Some s)).
Proof.
  unfold App.filter_argument, truthy.
  destruct (String.eqb_spec s EmptyString) as [->|Hne]; cbn [negb andb].
  - apply asks_nothing. reflexivity.
  - destruct (String.eqb_spec s "all") as [->|Hall]; cbn [negb].
    + apply asks_all.
    + now apply asks_band.
Qed.

(** The commands of a run are started in the order download, reduction,
    field plot, each only after the one before it returned 0: the run
    hands [subprocess.run] nothing, or the download alone, or the
    download and the reduction, or all three. The reduction gets
    [--filter] with the text asked for and no such argument when nothing
    is asked for; for a filter that is a text this is the argument
    [filter_argument] lets through. *)
Theorem run_pipeline_commands_in_order :
  forall (job : Job) (target_name mjd_min mjd_max filter_name : json)
         (objects_data : string),
    let commands := snd (run_pipeline str_of type_error_text write_objects run job
                           target_name mjd_min mjd_max filter_name objects_data) in
    (commands = []
     \/ exists name,
          target_name = JString name
          /\ let d := download_command name (str_of mjd_min) (str_of mjd_max) in
             commands = [d]
             \/ exists filter,
                  asks_for filter_name filter
                  /\ (exists out err, run d = CompletedProcess 0 out err)
                  /\ let p := process_command filter in
                     commands = [d; p]
                     \/ ((exists out err, run p = CompletedProcess 0 out err)
                         /\ commands = [d; p; plot_command]))
    /\ (forall s, filter_name = JString s ->
                  asks_for filter_name (App.filter_argument (Some s)))
    /\ (forall filter filter',
           asks_for filter_name filter -> asks_for filter_name filter' ->
           filter = filter').
Proof.
  intros job target_name mjd_min mjd_max filter_name objects_data.
  split; [|split; [intros s ->; apply asks_for_filter_argument
                  |intros f f'; apply asks_for_unique]].
  destruct (run_pipeline_paths job target_name mjd_min mjd_max filter_name objects_data)
    as (final & commands & -> & Hpaths).
  cbv zeta in *. cbn [snd].
  destruct Hpaths as [(_ & -> & _)|(name & -> & _ & Hpaths)]; [now left|].
  right. exists name. split; [reflexivity|].
  destruct Hpaths as [(_ & -> & _)|(out & err & filter & Hd & Hask & Hpaths)];
    [now left|].
  right. exists filter. split; [exact Hask|]. split; [now exists out, err|].
  destruct Hpaths as [(_ & -> & _)|(Hp & -> & _)]; [now left|].
  right. now split.
Qed.

End PipelineRun.

Section Requests.

Import Pipeline PipelineVocabulary.

Variable str_of : json -> string.

Lemma first_missing_cases (data : list (string * json)) (fields : list string) :
  (exists before field after,
      fields = before ++ field :: after
      /\ (forall f, In f before -> missing data f = false)
      /\ missing data field = true
      /\ first_missing data fields = Some field)
  \/ ((forall f, In f fields -> missing data f = false)
      /\ first_missing data fields = None).
Proof.
  induction fields as [|field fields IH]; simpl.
  - right. split; [intros f []|reflexivity].
  - destruct (missing data field) eqn:E.
    + left. exists [], field, fields.
      split; [reflexivity|]. split; [intros f []|]. split; [exact E|reflexivity].
    + destruct IH as [(before & f0 & after & -> & Hb & Hm & ->)|[Hall ->]].
      * left. exists (field :: before), f0, after.
        split; [reflexivity|]. split; [|split; [exact Hm|reflexivity]].
        intros f [<-|Hin]; [exact E|now apply Hb].
      * right. split; [|reflexivity]. intros f [<-|Hin]; [exact E|now apply Hall].
Qed.

Lemma missing_false (data : list (string * json)) (field : string) :
  missing data field = false
  <-> exists v, str_getitem data field = Some v /\ json_truthy v = true.
Proof.
  unfold missing. destruct (str_getitem data field) as [v|].
  - rewrite negb_false_iff. split; [intro H; now exists v|].
    intros (v' & [= <-] & H). exact H.
  - split; [discriminate|]. intros (v & H & _). discriminate.
Qed.

Lemma start_pipeline_cases (data : list (string * json)) (job_id now : string) :
  (exists before field after,
      required_fields = before ++ field :: after
      /\ (forall f, In f before -> missing data f = false)
      /\ missing data field = true
      /\ start_pipeline str_of data job_id now
         = (BadRequest ("Missing required field: " ++ field), None))
  \/ ((forall f, In f required_fields -> missing data f = false)
      /\ exists job args,
           start_pipeline str_of data job_id now = (Started job_id, Some (job, args))
           /\ status job = "queued"%string /\ step job = "Initializing"%string
           /\ error job = None /\ files job = None /\ epochs_downloaded job = None
           /\ created_at job = now
           /\ target_name job = arg_target_name args
           /\ arg_job_id args = job_id
           /\ str_getitem data "target_name" = Some (arg_target_name args)
           /\ str_getitem data "mjd_min" = Some (arg_mjd_min args)
           /\ str_getitem data "mjd_max" = Some (arg_mjd_max args)
           /\ arg_filter_name args
              = match str_getitem data "filter" with
                | Some v => v
                | None => JString "all"
                end).
Proof.
  unfold start_pipeline.
  destruct (first_missing_cases data required_fields)
    as [(before & field & after & Hreq & Hb & Hm & ->)|[Hall ->]].
  - left. now exists before, field, after.
  - right. split; [exact Hall|].
    assert (Hget : forall f, In f required_fields ->
                             exists v, str_getitem data f = Some v).
    { intros f Hin. apply Hall, missing_false in Hin.
      destruct Hin as (v & Hv & _). now exists v. }
    unfold required_fields in Hget.
    destruct (Hget "target_ra"%string) as [v1 ->]; [simpl; tauto|].
    destruct (Hget "target_dec"%string) as [v2 ->]; [simpl; tauto|].
    destruct (Hget "comp1_ra"%string) as [v3 ->]; [simpl; tauto|].
    destruct (Hget "comp1_dec"%string) as [v4 ->]; [simpl; tauto|].
    destruct (Hget "comp2_ra"%string) as [v5 ->]; [simpl; tauto|].
    destruct (Hget "comp2_dec"%string) as [v6 ->]; [simpl; tauto|].
    destruct (Hget "target_name"%string) as [v7 ->]; [simpl; tauto|].
    destruct (Hget "mjd_min"%string) as [v8 ->]; [simpl; tauto|].
    destruct (Hget "mjd_max"%string) as [v9 ->]; [simpl; tauto|].
    eexists _, _. split; [reflexivity|]. cbn. repeat split.
Qed.

(** [start_pipeline] answers 400 naming the first of the nine required
    fields, in their order, that is absent from the request or false in
    Python; otherwise all nine are present and true, it answers with the
    job id and registers a queued job without error and files, and the
    thread gets the target name and time range of the request and its
    filter, all when there is none. No exception escapes it. A required
    field that is there but false counts as missing: the number 0 (a
    right ascension or declination of 0 degrees sent as a number), the
    empty text, null, false. *)
Theorem start_pipeline_validates_in_order :
  forall (data : list (string * json)) (job_id now : string),
    ((exists before field after,
         required_fields = before ++ field :: after
         /\ (forall f, In f before ->
                       exists v, str_getitem data f = Some v /\ json_truthy v = true)
         /\ (str_getitem data field = None
             \/ exists v, str_getitem data field = Some v /\ json_truthy v = false)
         /\ start_pipeline str_of data job_id now
            = (BadRequest ("Missing required field: " ++ field), None))
     \/ ((forall f, In f required_fields ->
                    exists v, str_getitem data f = Some v /\ json_truthy v = true)
         /\ exists job args,
              start_pipeline str_of data job_id now
              = (Started job_id, Some (job, args))
              /\ status job = "queued"%string
              /\ error job = None /\ files job = None
              /\ str_getitem data "target_name" = Some (arg_target_name args)
              /\ str_getitem data "mjd_min" = Some (arg_mjd_min args)
              /\ str_getitem data "mjd_max" = Some (arg_mjd_max args)
              /\ arg_filter_name args
                 = match str_getitem data "filter" with
                   | Some v => v
                   | None => JString "all"
                   end))
    /\ (forall field,
           In field required_fields ->
           In (str_getitem data field)
              [Some (JInt 0); Some (JFloat (Fin 0)); Some (JString EmptyString);
               Some JNull; Some (JBool false); None] ->
           exists message,
             start_pipeline str_of data job_id now = (BadRequest message, None)).
Proof.
  intros data job_id now.
  destruct (start_pipeline_cases data job_id now)
    as [(before & field & after & Hreq & Hb & Hm & Hstart)
       |(Hall & job & args & Hstart & Hs & _ & He & Hf & _ & _ & _ & _ & Hn & Hmin
           & Hmax & Hfilter)].
  - split.
    + left. exists before, field, after. split; [exact Hreq|].
      split; [intros f Hin; now apply missing_false, Hb|]. split; [|exact Hstart].
      unfold missing in Hm. destruct (str_getitem data field) as [v|]; [|now left].
      right. exists v. split; [reflexivity|]. now apply negb_true_iff.
    + intros _ _ _. eexists. exact Hstart.
  - split.
    + right. split; [intros f Hin; now apply missing_false, Hall|].
      exists job, args. repeat (split; [assumption|]). exact Hfilter.
    + intros field Hin Hfalse. exfalso.
      apply Hall, missing_false in Hin. destruct Hin as (v & Hv & Ht).
      rewrite Hv in Hfalse. simpl in Hfalse.
      destruct Hfalse as [H|[H|[H|[H|[H|[H|[]]]]]]];
        try discriminate H; injection H as <-; discriminate Ht.
Qed.

(** A job that [start_pipeline] starts is queued, and the run of its
    thread ends it as completed or as an error: as an error exactly when
    an error has been stored in it, as completed exactly when its files
    have. For a request without a filter the reduction is started
    without [--filter], on all epochs. *)
Theorem started_job_is_finished :
  forall (type_error_text : list json -> string)
         (write_objects : string -> option string)
         (run : list string -> subprocess_result)
         (data : list (string * json)) (job_id now : string)
         (job : Job) (args : ThreadArgs),
    start_pipeline str_of data job_id now = (Started job_id, Some (job, args)) ->
    let outcome := run_pipeline str_of type_error_text write_objects run job
                     (arg_target_name args) (arg_mjd_min args) (arg_mjd_max args)
                     (arg_filter_name args) (arg_objects_data args) in
    status job = "queued"%string
    /\ (status (fst outcome) = "completed"%string
        \/ status (fst outcome) = "error"%string)
    /\ (status (fst outcome) = "error"%string <-> error (fst outcome) <> None)
    /\ (status (fst outcome) = "completed"%string <-> files (fst outcome) <> None)
    /\ (str_getitem data "filter" = None ->
        forall command, nth_error (snd outcome) 1 = Some command ->
                        command = process_command None).
Proof.
  intros type_error_text write_objects run data job_id now job args Hstart.
  destruct (start_pipeline_cases data job_id now)
    as [(before & field & after & _ & _ & _ & Hbad)
       |(_ & job' & args' & Hstart' & Hs & _ & He & Hf & _ & _ & _ & _ & _ & _ & _
           & Hfilter)].
  { rewrite Hbad in Hstart. discriminate. }
  rewrite Hstart' in Hstart. injection Hstart as <- <-.
  cbv zeta.
  destruct (run_pipeline_paths str_of type_error_text write_objects run job'
              (arg_target_name args') (arg_mjd_min args') (arg_mjd_max args')
              (arg_filter_name args') (arg_objects_data args'))
    as (final & commands & -> & Hpaths).
  cbv zeta in Hpaths. cbn [fst snd].
  split; [exact Hs|].
  assert (Hfailed :
             status final = "error"%string /\ error final <> None
             /\ files final = files job' ->
             (status final = "completed"%string \/ status final = "error"%string)
             /\ (status final = "error"%string <-> error final <> None)
             /\ (status final = "completed"%string <-> files final <> None)).
  { intros (H1 & H2 & H3). rewrite H1, H3, Hf. split; [now right|].
    split; [tauto|]. split; [discriminate|congruence]. }
  destruct Hpaths as [(Hfail & -> & _)|(name & Hname & _ & Hpaths)].
  { destruct (Hfailed Hfail) as (H1 & H2 & H3).
    repeat (split; [assumption|]). intros _ command H. discriminate H. }
  destruct Hpaths as [(Hfail & -> & _)|(out & err & filter & _ & Hask & Hpaths)].
  { destruct (Hfailed Hfail) as (H1 & H2 & H3).
    repeat (split; [assumption|]). intros _ command H. discriminate H. }
  assert (Hnone : str_getitem data "filter" = None -> filter = None).
  { intro Hno. rewrite Hno in Hfilter. rewrite Hfilter in Hask.
    inversion Hask; subst; [reflexivity|reflexivity|congruence]. }
  destruct Hpaths as [(Hfail & -> & _)|(_ & -> & Hpaths)].
  { destruct (Hfailed Hfail) as (H1 & H2 & H3).
    repeat (split; [assumption|]). intros Hno command [= <-]. now rewrite Hnone. }
  destruct Hpaths as [(Hfail & _)|(_ & Hst & _ & Hfiles & Herr & _)].
  { destruct (Hfailed Hfail) as (H1 & H2 & H3).
    repeat (split; [assumption|]). intros Hno command [= <-]. now rewrite Hnone. }
  rewrite Hst, Herr, He. split; [now left|]. split; [split; [discriminate|congruence]|].
  split; [tauto|]. intros Hno command [= <-]. now rewrite Hnone.
Qed.

End Requests.

Section FieldPlot.

Import ProcessPhotometry Main MainVocabulary Pipeline PlotDssField PlotVocabulary.

Lemma append_assoc (s t u : string) : ((s ++ t) ++ u = s ++ (t ++ u))%string.
Proof. induction s as [|c s IH]; simpl; [reflexivity|now rewrite IH]. Qed.

Lemma has_space_app (s t : string) :
  has_space (s ++ t) = has_space s || has_space t.
Proof.
  induction s as [|c s IH]; simpl; [reflexivity|]. now rewrite IH, orb_assoc.
Qed.

Lemma rstrip_newline (s : string) :
  has_space s = false -> rstrip (s ++ String newline EmptyString) = s.
Proof.
  induction s as [|c s IH]; simpl; intro H; [reflexivity|].
  apply orb_false_iff in H. destruct H as [Hc Hs].
  rewrite (IH Hs). destruct s; [now rewrite Hc|reflexivity].
Qed.

Lemma strip_newline (s : string) :
  has_space s = false -> strip (s ++ String newline EmptyString) = s.
Proof.
  intro H. unfold strip. destruct s as [|c s]; [reflexivity|].
  pose proof H as H'. simpl in H'. apply orb_false_iff in H'. destruct H' as [Hc _].
  simpl lstrip. rewrite Hc. now apply (rstrip_newline (String c s)).
Qed.

Lemma file_lines_line (s rest : string) :
  has_space s = false ->
  file_lines (s ++ String newline rest)
  = (s ++ String newline EmptyString)%string :: file_lines rest.
Proof.
  induction s as [|c s IH]; simpl; intro H; [reflexivity|].
  apply orb_false_iff in H. destruct H as [Hc Hs].
  destruct (Ascii.eqb_spec c newline) as [->|_]; [discriminate Hc|].
  now rewrite (IH Hs).
Qed.

Lemma plain_fields (a b c : string) :
  plain a = true -> plain b = true -> plain c = true ->
  has_space (a ++ String "," (b ++ String "," c)) = false
  /\ split "," (a ++ String "," (b ++ String "," c)) = [a; b; c].
Proof.
  unfold plain. intros Ha Hb Hc.
  apply andb_true_iff in Ha, Hb, Hc.
  destruct Ha as [Ha Ha'], Hb as [Hb Hb'], Hc as [Hc Hc'].
  apply negb_true_iff in Ha, Ha', Hb, Hb', Hc, Hc'. split.
  - rewrite has_space_app. simpl. rewrite has_space_app. simpl.
    now rewrite Ha', Hb', Hc'.
  - now rewrite (split_part _ _ _ Ha), (split_part _ _ _ Hb), (split_last _ _ Hc).
Qed.

(** A line of three plain fields, the last two numerals, is read to the
    name and the two numbers. *)
Lemma read_line_plain (float_of_string : string -> result pyfloat)
  (objects : list (string * Coords)) (a b c : string) (x y : pyfloat) :
  plain a = true -> plain b = true -> plain c = true ->
  float_of_string b = Ok x -> float_of_string c = Ok y ->
  read_line float_of_string objects
    ((a ++ String "," (b ++ String "," c)) ++ String newline EmptyString)
  = Ok (str_setitem objects a {| ra := x; dec := y |}).
Proof.
  intros Ha Hb Hc Hx Hy. unfold read_line.
  destruct (plain_fields a b c Ha Hb Hc) as [Hs Hsplit].
  now rewrite (strip_newline _ Hs), Hsplit, Hx, Hy.
Qed.

Lemma plot_objects_cases (objects : list (string * Coords)) :
  (plot_objects objects = Plotted (map fst objects)
   /\ forall key, In key (map fst objects) -> In key markers)
  \/ exists key,
       plot_objects objects = Failed (KeyError key)
       /\ In key (map fst objects) /\ ~ In key markers.
Proof.
  induction objects as [|[obj_type coords] objects IH]; cbn [plot_objects map fst].
  - left. split; [reflexivity|]. intros key [].
  - destruct (existsb (String.eqb obj_type) markers) eqn:E.
    + apply existsb_exists in E. destruct E as (m & Hm & Heq).
      apply String.eqb_eq in Heq. subst m.
      destruct IH as [[-> Hall]|(key & -> & Hin & Hnot)].
      * left. split; [reflexivity|]. intros key [<-|Hk]; [exact Hm|now apply Hall].
      * right. exists key. split; [reflexivity|]. split; [now right|exact Hnot].
    + right. exists obj_type. split; [reflexivity|]. split; [now left|].
      intro Hin. assert (Ht : existsb (String.eqb obj_type) markers = true).
      { apply existsb_exists. exists obj_type. split; [exact Hin|apply String.eqb_refl]. }
      congruence.
Qed.

Lemma line_shape (a b c rest : string) :
  (a ++ String "," (b ++ String "," (c ++ rest))
   = (a ++ String "," (b ++ String "," c)) ++ rest)%string.
Proof.
  rewrite append_assoc. simpl. now rewrite append_assoc.
Qed.

Lemma str_getitem_None {V : Type} (d : list (string * V)) (k : string) :
  str_getitem d k = None <-> ~ In k (map fst d).
Proof.
  induction d as [|[k' v] d IH]; simpl; [tauto|].
  destruct (String.eqb_spec k' k) as [->|Hne].
  - split; [discriminate|]. intro H. exfalso. apply H. now left.
  - rewrite IH. tauto.
Qed.

Section Rows.

Context {float_text : FloatText}.

Hypothesis float_repr_no_space : forall x, has_space (float_repr x) = false.

Lemma float_repr_plain (x : pyfloat) : plain (float_repr x) = true.
Proof.
  unfold plain. now rewrite float_repr_no_comma, float_repr_no_space.
Qed.

Lemma line_of_shape (row : ObjectRow) (rest : string) :
  (line_of row ++ rest
   = (obj_Type row
        ++ String "," (float_repr (obj_RA row)
                         ++ String "," (float_repr (obj_DEC row))))
       ++ String newline rest)%string.
Proof.
  unfold line_of.
  change (obj_Type row ++ "," ++ float_repr (obj_RA row) ++ ","
            ++ float_repr (obj_DEC row) ++ String newline EmptyString)%string
    with (obj_Type row
            ++ String "," (float_repr (obj_RA row)
                             ++ String "," (float_repr (obj_DEC row)
                                              ++ String newline EmptyString)))%string.
  rewrite line_shape, append_assoc. reflexivity.
Qed.

Lemma file_lines_objects_text (rows : list ObjectRow) :
  (forall row, In row rows -> plain (obj_Type row) = true) ->
  file_lines (objects_text rows) = map line_of rows.
Proof.
  induction rows as [|row rows IH]; intro Hplain; [reflexivity|].
  cbn [objects_text map]. rewrite line_of_shape.
  destruct (plain_fields (obj_Type row) (float_repr (obj_RA row))
              (float_repr (obj_DEC row)))
    as [Hs _]; [apply Hplain; now left|apply float_repr_plain|apply float_repr_plain|].
  rewrite (file_lines_line _ _ Hs), IH by (intros r Hr; apply Hplain; now right).
  f_equal. now rewrite <- (line_of_shape row EmptyString), append_empty.
Qed.

Lemma read_lines_rows (rows : list ObjectRow) :
  (forall row, In row rows -> plain (obj_Type row) = true) ->
  forall objects : list (string * Coords),
    read_lines float_of_string objects (map line_of rows)
    = Ok (fold_left (fun objects row =>
                       str_setitem objects (obj_Type row) (coords_of row))
            rows objects).
Proof.
  induction rows as [|row rows IH]; intros Hplain objects; [reflexivity|].
  cbn [map read_lines fold_left].
  rewrite <- (append_empty (line_of row)), line_of_shape.
  rewrite (read_line_plain float_of_string objects _ _ _ (obj_RA row) (obj_DEC row));
    [|apply Hplain; now left|apply float_repr_plain|apply float_repr_plain
     |apply float_of_repr|apply float_of_repr].
  apply IH. intros r Hr. apply Hplain. now right.
Qed.

Lemma stored_keys (rows : list ObjectRow) :
  forall (objects : list (string * Coords)),
    NoDup (map fst objects) ->
    NoDup (map fst (fold_left (fun objects row =>
                                 str_setitem objects (obj_Type row) (coords_of row))
                      rows objects))
    /\ forall key,
         In key (map fst (fold_left (fun objects row =>
                                       str_setitem objects (obj_Type row) (coords_of row))
                            rows objects))
         <-> In key (map fst objects)
             \/ exists row, In row rows /\ obj_Type row = key.
Proof.
  induction rows as [|row rows IH]; intros objects Hnd; cbn [fold_left].
  - split; [exact Hnd|]. intro key. split; [now left|].
    intros [H|(row & [] & _)]. exact H.
  - destruct (IH (str_setitem objects (obj_Type row) (coords_of row))
                (str_setitem_NoDup _ _ _ Hnd)) as [Hnd' Hkeys].
    split; [exact Hnd'|]. intro key. rewrite Hkeys, str_setitem_keys. split.
    + intros [[->|H]|(r & Hin & Hk)].
      * right. exists row. split; [now left|reflexivity].
      * now left.
      * right. exists r. split; [now right|exact Hk].
    + intros [H|(r & [<-|Hin] & Hk)].
      * left. now right.
      * left. left. now symmetry.
      * right. now exists r.
Qed.


End Rows.

Section PipelineObjects.

Variable str_of : json -> string.
Variable float_of_string : string -> result pyfloat.

(** The objects.dat [start_pipeline] writes for a request it accepts. *)
Lemma start_pipeline_objects_data (data : list (string * json)) (job_id now : string)
  (job : Job) (args : ThreadArgs) :
  start_pipeline str_of data job_id now = (Started job_id, Some (job, args)) ->
  exists target_ra target_dec comp1_ra comp1_dec comp2_ra comp2_dec,
    str_getitem data "target_ra" = Some target_ra
    /\ str_getitem data "target_dec" = Some target_dec
    /\ str_getitem data "comp1_ra" = Some comp1_ra
    /\ str_getitem data "comp1_dec" = Some comp1_dec
    /\ str_getitem data "comp2_ra" = Some comp2_ra
    /\ str_getitem data "comp2_dec" = Some comp2_dec
    /\ arg_objects_data args
       = (("Target" ++ String "," (str_of target_ra ++ String "," (str_of target_dec)))
            ++ String newline
          (("Comp1" ++ String "," (str_of comp1_ra ++ String "," (str_of comp1_dec)))
             ++ String newline
           (("Comp2" ++ String "," (str_of comp2_ra ++ String "," (str_of comp2_dec)))
              ++ String newline EmptyString)))%string.
Proof.
  unfold start_pipeline.
  destruct (first_missing data required_fields); [discriminate|].
  destruct (str_getitem data "target_ra") as [v1|]; [|discriminate].
  destruct (str_getitem data "target_dec") as [v2|]; [|discriminate].
  destruct (str_getitem data "comp1_ra") as [v3|]; [|discriminate].
  destruct (str_getitem data "comp1_dec") as [v4|]; [|discriminate].
  destruct (str_getitem data "comp2_ra") as [v5|]; [|discriminate].
  destruct (str_getitem data "comp2_dec") as [v6|]; [|discriminate].
  destruct (str_getitem data "target_name") as [v7|]; [|discriminate].
  destruct (str_getitem data "mjd_min") as [v8|]; [|discriminate].
  destruct (str_getitem data "mjd_max") as [v9|]; [|discriminate].
  intros [= <- <-]. exists v1, v2, v3, v4, v5, v6.
  repeat (split; [reflexivity|]). cbn [arg_objects_data].
  rewrite <- !line_shape. reflexivity.
Qed.

(** The objects.dat that [start_pipeline] writes is one that
    [plot_dss_field] reads: when the six coordinates of an accepted
    request are rendered as plain numerals (no comma or white space in
    them, and [float] reads them), the file has the three lines of
    Target, Comp1 and Comp2, each is read to the two numbers of its
    fields, and the three markers are drawn when the image is there. *)
Theorem plot_dss_field_reads_pipeline_objects :
  forall (data : list (string * json)) (job_id now : string)
         (job : Job) (args : ThreadArgs),
    start_pipeline str_of data job_id now = (Started job_id, Some (job, args)) ->
    (forall field,
        In field coordinate_fields ->
        exists v x,
          str_getitem data field = Some v
          /\ plain (str_of v) = true /\ float_of_string (str_of v) = Ok x) ->
    plot_dss_field float_of_string (arg_objects_data args) true
    = Plotted ["Target"; "Comp1"; "Comp2"]%string
    /\ plot_dss_field float_of_string (arg_objects_data args) false = Failed ImageError
    /\ exists objects,
         PlotDssField.read_objects_data float_of_string (arg_objects_data args)
         = Ok objects
         /\ forall name ra_field dec_field v w x y,
              In (name, ra_field, dec_field) object_fields ->
              str_getitem data ra_field = Some v ->
              str_getitem data dec_field = Some w ->
              float_of_string (str_of v) = Ok x ->
              float_of_string (str_of w) = Ok y ->
              str_getitem objects name = Some {| ra := x; dec := y |}.
Proof.
  intros data job_id now job args Hstart Hcoords.
  destruct (start_pipeline_objects_data data job_id now job args Hstart)
    as (v1 & v2 & v3 & v4 & v5 & v6 & H1 & H2 & H3 & H4 & H5 & H6 & Htext).
  unfold coordinate_fields in Hcoords.
  destruct (Hcoords "target_ra"%string) as (v1' & x1 & E1 & P1 & F1); [simpl; tauto|].
  destruct (Hcoords "target_dec"%string) as (v2' & x2 & E2 & P2 & F2); [simpl; tauto|].
  destruct (Hcoords "comp1_ra"%string) as (v3' & x3 & E3 & P3 & F3); [simpl; tauto|].
  destruct (Hcoords "comp1_dec"%string) as (v4' & x4 & E4 & P4 & F4); [simpl; tauto|].
  destruct (Hcoords "comp2_ra"%string) as (v5' & x5 & E5 & P5 & F5); [simpl; tauto|].
  destruct (Hcoords "comp2_dec"%string) as (v6' & x6 & E6 & P6 & F6); [simpl; tauto|].
  rewrite H1 in E1. rewrite H2 in E2. rewrite H3 in E3.
  rewrite H4 in E4. rewrite H5 in E5. rewrite H6 in E6.
  injection E1 as <-. injection E2 as <-. injection E3 as <-.
  injection E4 as <-. injection E5 as <-. injection E6 as <-.
  assert (Hread : PlotDssField.read_objects_data float_of_string (arg_objects_data args)
                  = Ok [("Target"%string, {| ra := x1; dec := x2 |});
                        ("Comp1"%string, {| ra := x3; dec := x4 |});
                        ("Comp2"%string, {| ra := x5; dec := x6 |})]).
  { unfold PlotDssField.read_objects_data. rewrite Htext.
    destruct (plain_fields "Target" (str_of v1) (str_of v2) eq_refl P1 P2) as [S1 _].
    destruct (plain_fields "Comp1" (str_of v3) (str_of v4) eq_refl P3 P4) as [S2 _].
    destruct (plain_fields "Comp2" (str_of v5) (str_of v6) eq_refl P5 P6) as [S3 _].
    rewrite (file_lines_line _ _ S1), (file_lines_line _ _ S2), (file_lines_line _ _ S3).
    cbn [file_lines read_lines].
    rewrite (read_line_plain float_of_string [] "Target" _ _ x1 x2 eq_refl P1 P2 F1 F2).
    rewrite (read_line_plain float_of_string _ "Comp1" _ _ x3 x4 eq_refl P3 P4 F3 F4).
    rewrite (read_line_plain float_of_string _ "Comp2" _ _ x5 x6 eq_refl P5 P6 F5 F6).
    reflexivity. }
  unfold plot_dss_field. rewrite Hread.
  split; [reflexivity|]. split; [reflexivity|].
  eexists. split; [reflexivity|].
  intros name ra_field dec_field v w x y Hin Hv Hw Hx Hy.
  unfold object_fields in Hin. simpl in Hin.
  destruct Hin as [[= <- <- <-]|[[= <- <- <-]|[[= <- <- <-]|[]]]];
    simpl; congruence.
Qed.

End PipelineObjects.

End FieldPlot.

Section SampleNumerals.

Import MainVocabulary PlotVocabulary.

Lemma digits_of_no_space (p : positive) : has_space (digits_of p) = false.
Proof. induction p as [p IH|p IH|]; simpl; auto. Qed.

Lemma sample_repr_no_space (x : pyfloat) : has_space (sample_repr x) = false.
Proof.
  destruct x as [[n d]| | |]; try reflexivity.
  unfold sample_repr. simpl Qnum. simpl Qden.
  rewrite has_space_app, digits_of_no_space, orb_false_r.
  destruct n; simpl; [reflexivity| |]; apply digits_of_no_space.
Qed.

End SampleNumerals.

(** ** The properties at concrete inputs *)

Section Instances.

Import ProcessPhotometry ComparePhotometry ConvertToDiffmag Samples.

#[local] Existing Instance ascii_str_upper.
#[local] Existing Instance sample_plotting.

(** The tie of [catalog_tie], seen from the target: the detection
    answered is a valid one at the least separation, 1.8 arcseconds. *)
Lemma find_nearest_object_first_global_minimum_witness :
  exists s,
    s <= 5
    /\ s == 1.8
    /\ forall j row,
        nth_error catalog_tie j = Some row -> valid_detection row ->
        s <= flat_separation (Fin 10) (Fin 20) (ALPHA_J2000 row) (DELTA_J2000 row).
Proof.
  destruct (proj1 (proj1 (proj2 (find_nearest_object_first_global_minimum
                                   flat_separation catalog_tie (Fin 10) (Fin 20) 5))
                     (sky_position_degrees 10 20 eq_refl eq_refl) 1%nat
                     (Fin (flat_separation (Fin 10) (Fin 20) (Fin 10.0005) (Fin 20))))
              ltac:(vm_compute; reflexivity))
    as (s & Hs & Hle & row & _ & _ & _ & Hmin & _).
  exists s. split; [exact Hle|]. split; [|exact Hmin].
  injection Hs as <-. reflexivity.
Defined.

(** With a tolerance of 1.79 arcseconds nothing of [catalog_tie] is found:
    every valid detection lies farther from the target. *)
Lemma find_nearest_object_none_iff_all_beyond_witness :
  find_nearest_object flat_separation catalog_tie (Fin 10) (Fin 20) 1.79 = Ok None
  /\ forall j row,
      nth_error catalog_tie j = Some row -> valid_detection row ->
      1.79 < flat_separation (Fin 10) (Fin 20) (ALPHA_J2000 row) (DELTA_J2000 row).
Proof.
  split; [vm_compute; reflexivity|].
  apply (proj1 (proj1 (proj1 (find_nearest_object_none_iff_all_beyond
                                flat_separation catalog_tie (Fin 10) (Fin 20) 1.79)
                         (sky_position_degrees 10 20 eq_refl eq_refl)))).
  vm_compute. reflexivity.
Defined.

(** An epoch at MJD 60000.2 inside the ephemeris: both comparison stars
    are matched within 5 arcseconds, and the target, 7.2 arcseconds from
    the ephemeris position, within 20. *)
Lemma moving_target_tolerances_witness :
  detection_within flat_separation (df (epoch "R" 60000.2 catalog))
    (ra (comp1 comp_stars)) (dec (comp1 comp_stars)) 5
  /\ detection_within flat_separation (df (epoch "R" 60000.2 catalog))
       (ra (comp2 comp_stars)) (dec (comp2 comp_stars)) 5
  /\ detection_within flat_separation (df (epoch "R" 60000.2 catalog))
       (Fin 10.002) (Fin 20) 20.
Proof.
  apply (proj1 (proj1 (proj2 (proj2
           (@moving_target_tolerances flat_separation insertion_sort_values
              positions comp_stars
              (epoch "R" 60000.2 catalog) (Fin 10.002) (Fin 20)
              ltac:(vm_compute; reflexivity) ltac:(vm_compute; reflexivity)
              (sky_position_degrees 10.01 20 eq_refl eq_refl)
              (sky_position_degrees 10 20.01 eq_refl eq_refl)
              (sky_position_degrees 10.002 20 eq_refl eq_refl)))))).
  right. eexists. vm_compute. reflexivity.
Defined.


(** Two series of one point each, 100 seconds apart. *)
Lemma nearest_time_pairs_within_180_seconds_witness :
  exists partner,
    nearest_in_time [other_at (2460000.5 + 100 / 86400)] (MJD (record_at 60000))
      partner
    /\ (match_row (sorted_other [other_at (2460000.5 + 100 / 86400)])
          (record_at 60000)
        = Append (pair_of (record_at 60000) partner)
        <-> seconds_between (MJD (record_at 60000)) (other_MJD partner) <= 180)
    /\ (match_row (sorted_other [other_at (2460000.5 + 100 / 86400)])
          (record_at 60000)
        = Continue OutsideTimeThreshold
        <-> 180 < seconds_between (MJD (record_at 60000)) (other_MJD partner)).
Proof.
  apply (proj1 (@nearest_time_pairs_within_180_seconds insertion_sort_values
                  [record_at 60000] [other_at (2460000.5 + 100 / 86400)]
                  ltac:(discriminate))).
Defined.

(** The error reported for the only row of a table is its target error. *)
Lemma error_diff_mag_is_target_error_witness :
  nth_error (error_diff_mag [record_at 60000]) 0 = Some (Fin 0.01).
Proof.
  apply (proj1 (proj2 (error_diff_mag_is_target_error
                         [record_at 60000] 0 (record_at 60000) eq_refl))).
Defined.

(** Whatever [str.upper] does beyond ASCII, the name ["all"] selects none
    of the epochs tagged R, V, R. *)
Lemma filter_all_drops_RVR (python_upper : StrUpper) :
  @filter_photometry_data python_upper epochs_RVR (Some "all"%string) = [].
Proof.
  unfold filter_photometry_data, epochs_RVR. cbn [fold_left fst snd].
  unfold get_band. cbn [calibration_data band epoch].
  rewrite !upper_isascii by reflexivity. reflexivity.
Qed.


(** Against C9 as stated: for a table that starts at MJD 60000.5 the plot
    takes 60000.5 as [time_offset], not its floor 60000, so the row at MJD
    60001 is 12 hours in, not 24. *)
Lemma plot_time_offset_is_not_floored :
  plot_time_offset [record_at 60000.5; record_at 60001] = Some 60000.5
  /\ Qfloor 60000.5 = 60000%Z
  /\ exists h0 h1,
      plot_TIME_HOURS [record_at 60000.5; record_at 60001] = Some [h0; h1]
      /\ h1 == 12
      /\ ~ h1 == (60001 - inject_Z (Qfloor 60000.5)) * 24.
Proof.
  split; [reflexivity|]. split; [reflexivity|].
  eexists _, _. split; [reflexivity|]. split; [reflexivity|].
  intro H. vm_compute in H. discriminate.
Qed.

(** Two detections tie at 1.8 arcseconds, behind a row with declination 95:
    the first of the two in catalog order is returned, also when the
    tolerance is exactly 1.8, and nothing below that. *)
Example tie_takes_first_occurrence :
  find_nearest_object flat_separation catalog_tie (Fin 10) (Fin 20) 5
  = Ok (Some (1%nat,
              Fin (flat_separation (Fin 10) (Fin 20) (Fin 10.0005) (Fin 20))))
  /\ flat_separation (Fin 10) (Fin 20) (Fin 10.0005) (Fin 20) == 1.8
  /\ flat_separation (Fin 10) (Fin 20) (Fin 9.9995) (Fin 20) == 1.8
  /\ (exists sep,
         find_nearest_object flat_separation catalog_tie (Fin 10) (Fin 20) 1.8
         = Ok (Some (1%nat, sep)))
  /\ find_nearest_object flat_separation catalog_tie (Fin 10) (Fin 20) 1.79
     = Ok None.
Proof.
  split; [vm_compute; reflexivity|]. split; [reflexivity|]. split; [reflexivity|].
  split; [eexists; vm_compute; reflexivity|]. vm_compute. reflexivity.
Qed.

(** The end-to-end example of the specification: one record with the three
    magnitudes of the three detections. *)
Example static_end_to_end :
  exists r,
    process_static_object_photometry flat_separation
      [(1%Z, epoch "R" 60000.1 catalog)] target_coords comp_stars = Ok [r]
    /\ TARGET_MAG r = Fin 12 /\ COMP1_MAG r = Fin 13 /\ COMP2_MAG r = Fin 13.5.
Proof. eexists. split; [vm_compute; reflexivity|]. repeat split. Qed.

(** The same epoch with a NaN target error yields no record. *)
Example static_nan_error_yields_no_record :
  process_static_object_photometry flat_separation
    [(1%Z, epoch "R" 60000.1 catalog_nan)] target_coords comp_stars = Ok [].
Proof. vm_compute. reflexivity. Qed.

(** Epochs one day before the ephemeris and half a day after it are
    rejected; the epoch at its first timestamp and one inside are kept. *)
Example moving_target_coverage :
  exists r1 r2,
    process_asteroid_photometry flat_separation
      [ (1%Z, epoch "R" 59999 catalog);
        (2%Z, epoch "R" 60000 catalog);
        (3%Z, epoch "R" 60000.2 catalog);
        (4%Z, epoch "R" 60001.5 catalog) ] positions comp_stars = Ok [r1; r2]
    /\ AST_MJD r1 = 60000 /\ AST_MJD r2 = 60000.2
    /\ AST_RA r2 = Fin 10.002
    /\ exists sep, AST_SEP r2 = Fin sep /\ sep == 7.2.
Proof.
  eexists _, _. split; [vm_compute; reflexivity|]. repeat split.
  eexists. split; reflexivity.
Qed.

(** An ephemeris with no sample makes the lookup raise. *)
Example empty_ephemeris_raises :
  process_asteroid_photometry flat_separation
    [(1%Z, epoch "R" 60000 catalog)] [] comp_stars = Raise ValueError.
Proof. vm_compute. reflexivity. Qed.

(** A reference at declination 95 makes the matching raise, unless the
    catalog has no valid detection; a reference with a NaN right
    ascension is answered with the first valid detection of [catalog_tie],
    its second row, at a separation of NaN; and the reduction around a
    target at declination 95 raises. *)
Example references_off_the_sky :
  find_nearest_object flat_separation catalog (Fin 10) (Fin 95) 5 = Raise ValueError
  /\ find_nearest_object flat_separation [] (Fin 10) (Fin 95) 5 = Ok None
  /\ find_nearest_object flat_separation catalog_tie NaN (Fin 20) 5
     = Ok (Some (1%nat, NaN))
  /\ process_static_object_photometry flat_separation
       [(1%Z, epoch "R" 60000.1 catalog)] {| ra := Fin 10; dec := Fin 95 |}
       comp_stars = Raise ValueError.
Proof. repeat split; vm_compute; reflexivity. Qed.

(** Points 200 seconds apart form no pair; points exactly 180 seconds
    apart do. *)
Example cross_comparison_window :
  matching_pairs [record_at 60000] [other_at (2460000.5 + 200 / 86400)] = Ok []
  /\ exists pair,
      matching_pairs [record_at 60000] [other_at (2460000.5 + 180 / 86400)]
      = Ok [pair].
Proof. split; [vm_compute; reflexivity|]. eexists. vm_compute. reflexivity. Qed.

(** Cross-comparison floors the offset of the two tables; on a negative
    timestamp [int] and the floor part ways. *)
Example time_offset_truncates :
  time_offset [record_at 60000.5] [other_at 2460001.25] = Some 60000%Z
  /\ py_int (-1 # 2) = 0%Z /\ Qfloor (-1 # 2) = (-1)%Z.
Proof. repeat split. Qed.

Import CompareScript Main MainVocabulary.

(** The target of the sample field, found within 5 arcseconds, is found
    within 20. *)
Lemma find_nearest_object_wider_tolerance_witness :
  exists found,
    find_nearest_object flat_separation catalog (Fin 10) (Fin 20) 20
    = Ok (Some found).
Proof.
  eexists.
  apply (proj1 (find_nearest_object_wider_tolerance flat_separation catalog
                  (Fin 10) (Fin 20) 5 20
                  ltac:(apply Qle_bool_imp_le; reflexivity))).
  vm_compute. reflexivity.
Defined.

(** The record of the sample epoch lies within 5 arcseconds of the target. *)
Lemma static_record_provenance_witness :
  exists r,
    process_static_object_photometry flat_separation
      [(1%Z, epoch "R" 60000.1 catalog)] target_coords comp_stars = Ok [r]
    /\ gtb (TARGET_SEP r) (Fin 5) = false.
Proof.
  eexists. split; [vm_compute; reflexivity|].
  apply (proj1 (static_record_provenance flat_separation
                  [(1%Z, epoch "R" 60000.1 catalog)] target_coords comp_stars _ _
                  ltac:(vm_compute; reflexivity) ltac:(left; reflexivity))).
Defined.

(** The record of an epoch inside the ephemeris lies within 20 arcseconds
    of the predicted position. *)
Lemma asteroid_record_within_coverage_witness :
  exists r,
    process_asteroid_photometry flat_separation
      [(3%Z, epoch "R" 60000.2 catalog)] positions comp_stars = Ok [r]
    /\ gtb (AST_SEP r) (Fin 20) = false.
Proof.
  eexists. split; [vm_compute; reflexivity|].
  apply (proj1 (@asteroid_record_within_coverage flat_separation insertion_sort_values
                  [(3%Z, epoch "R" 60000.2 catalog)] positions comp_stars _ _
                  ltac:(vm_compute; reflexivity) ltac:(left; reflexivity))).
Defined.

(** Filtering the R, V, R epochs on ["r"] and then on ["R"]. *)
Lemma filter_photometry_data_twice_witness :
  filter_photometry_data (filter_photometry_data epochs_RVR (Some "r"%string))
    (Some "R"%string)
  = filter_photometry_data epochs_RVR (Some "r"%string).
Proof.
  assert (Hnd : NoDup (map fst epochs_RVR)).
  { simpl. repeat constructor; simpl; intuition discriminate. }
  exact (proj1 (proj2 (proj2
           (filter_photometry_data_twice epochs_RVR "r"%string "R"%string Hnd)))).
Defined.

(** Two series of one point each, 100 seconds apart: at most one pair. *)
Lemma matching_pairs_sorted_by_time_witness :
  exists merged,
    matching_pairs [record_at 60000] [other_at (2460000.5 + 100 / 86400)] = Ok merged
    /\ (length merged <= 1)%nat.
Proof.
  eexists. split; [vm_compute; reflexivity|].
  apply (proj1 (proj2
           (@matching_pairs_sorted_by_time insertion_sort_values
              [record_at 60000] [other_at (2460000.5 + 100 / 86400)] _
              ltac:(vm_compute; reflexivity)))).
Defined.

(** A table that starts at MJD 60000.5 has a row at hour 0. *)
Lemma plot_hours_start_at_zero_witness :
  exists hours,
    plot_TIME_HOURS [record_at 60000.5; record_at 60001] = Some hours
    /\ Exists (fun h => h == 0) hours.
Proof.
  eexists. split; [reflexivity|].
  apply (proj2 (proj2 (plot_hours_start_at_zero
                         [record_at 60000.5; record_at 60001] _ eq_refl))).
Defined.

(** The comparison of two series of one point each, 100 seconds apart. *)
Lemma comparison_hours_nonnegative_witness :
  exists time_offset merged,
    compare_photometry [record_at 60000] [other_at (2460000.5 + 100 / 86400)]
    = Ok (Plotted time_offset merged)
    /\ Forall (fun h => 0 <= h) (time_hours_bht time_offset merged).
Proof.
  eexists _, _. split; [vm_compute; reflexivity|].
  apply (proj1 (proj2
           (@comparison_hours_nonnegative insertion_sort_values
              [record_at 60000] [other_at (2460000.5 + 100 / 86400)] _ _
              ltac:(vm_compute; reflexivity)
              ltac:(intros r [<-|[]]; apply Qle_bool_imp_le; reflexivity)
              ltac:(intros o [<-|[]]; apply Qle_bool_imp_le; reflexivity)))).
Defined.

(** The differences of the table reduced from the sample epoch. *)
Lemma reduced_table_differences_are_finite_witness :
  exists results,
    process_static_object_photometry flat_separation
      [(1%Z, epoch "R" 60000.1 catalog)] target_coords comp_stars = Ok results
    /\ Forall (fun x => isfinite x = true) (diff_mag results).
Proof.
  eexists. split; [vm_compute; reflexivity|].
  apply (proj1 (proj2 (proj2 (proj2
           (reduced_table_differences_are_finite flat_separation
              [(1%Z, epoch "R" 60000.1 catalog)] target_coords comp_stars _
              ltac:(vm_compute; reflexivity)))))).
Defined.

(** [main] on the objects.dat of the web interface, the R, V, R epochs
    and the filter ["r"]: the two R epochs are reduced and plotted, and
    the table has its two rows and its hours. *)
Lemma main_reduces_around_last_rows_witness :
  exists r1 r2 hours,
    main flat_separation object_rows epochs_RVR (Some "r"%string) (Fin 3)
    = Returned (Reduced [r1; r2] (Some hours))
    /\ plot_TIME_HOURS [r1; r2] = Some hours.
Proof.
  assert (Hnd : NoDup (map fst epochs_RVR)).
  { simpl. repeat constructor; simpl; intuition discriminate. }
  pose proof (@main_reduces_around_last_rows flat_separation sample_text
                ascii_str_upper sample_plotting
                object_rows epochs_RVR (Some "r"%string) (Fin 3) _ _ _
                eq_refl eq_refl eq_refl Hnd) as (_ & _ & _ & Hreduced).
  eexists _, _, _.
  assert (Hmain : main flat_separation object_rows epochs_RVR (Some "r"%string) (Fin 3)
                  = Returned (Reduced _ (Some _)))
    by (vm_compute; reflexivity).
  split; [exact Hmain|].
  destruct (Hreduced _ _ Hmain) as (_ & hours & Hhours & Hplot).
  injection Hhours as <-. exact Hplot.
Defined.

(** Without a second comparison star [main] raises before the epochs are
    looked at; asked for a band no epoch has, it lists the bands there
    are; and with a single epoch, reduced to a single measurement, it
    raises when it comes to the plot. *)
Example main_stops_early :
  main flat_separation object_rows_without_comp2 epochs_RVR None (Fin 3)
  = Threw (Builtin ValueError)
  /\ main flat_separation object_rows epochs_RVR (Some "I"%string) (Fin 3)
     = Returned (NoDataForFilter ["R"; "V"]%string)
  /\ (exists r,
         process_static_object_photometry flat_separation
           [(1%Z, epoch "R" 60000.1 catalog)] target_coords comp_stars = Ok [r])
  /\ main flat_separation object_rows [(1%Z, epoch "R" 60000.1 catalog)] None (Fin 3)
     = Threw (Builtin ValueError).
Proof.
  split; [vm_compute; reflexivity|]. split; [vm_compute; reflexivity|].
  split; [eexists|]; vm_compute; reflexivity.
Qed.

Import GetDataVocabulary.

(** Three pages of one record each, with two more requests allowed than
    needed. *)
Lemma get_data_products_pages_in_order_witness :
  exists n : nat,
    (n <= 5)%nat
    /\ [product 1; product 2; product 3]
       = flat_map (fun p => GetDataBhtom.data_list (three_pages p)) (pages_from 1 n).
Proof.
  destruct (get_data_products_pages_in_order three_pages 5
              [product 1; product 2; product 3] ltac:(vm_compute; reflexivity))
    as (n & Hpages & _ & _ & _ & Hn).
  exists n. split; [exact Hn|exact Hpages].
Defined.

(** No answer of the three pages announces more than three. *)
Lemma get_data_products_terminates_witness :
  exists data_products,
    GetDataBhtom.get_data_products three_pages 3 = Some data_products.
Proof.
  destruct (get_data_products_terminates three_pages 3
              ltac:(intros p _; apply Z.le_refl))
    as (data_products & Hget).
  exists data_products. apply Hget. apply Nat.le_refl.
Defined.

(** A thousand requests to the server that always announces a further
    page. *)
Lemma get_data_products_relies_on_the_server_witness :
  GetDataBhtom.get_data_products endless_pages 1000 = None.
Proof.
  apply get_data_products_relies_on_the_server.
  intros p _. split; [split; [reflexivity|discriminate]|].
  unfold announced, endless_pages. simpl. apply Z.le_refl.
Defined.



Import Pipeline PipelineVocabulary.

(** The sample request starts a queued job. *)
Lemma started_job_is_finished_witness :
  exists job args,
    start_pipeline sample_str_of sample_request "job-1" "2025-01-01T00:00:00"
    = (Started "job-1", Some (job, args))
    /\ status job = "queued"%string.
Proof.
  eexists _, _. split; [reflexivity|].
  apply (proj1 (started_job_is_finished sample_str_of
                  (fun _ => "expected str"%string) (fun _ => None) sample_run
                  sample_request "job-1" "2025-01-01T00:00:00" _ _ eq_refl)).
Defined.

(** On the sample machine the plot of the field returns 1 and the job is
    completed all the same, with the number of epochs the download
    reported and the filter of the request on the second command line. *)
Example pipeline_completes_despite_failed_plot :
  exists final,
    run_pipeline sample_str_of (fun _ => "expected str"%string) (fun _ => None)
      sample_run sample_job (JString "WASP-46") (JString "60000") (JString "60001")
      (JString "GaiaSP/R") EmptyString
    = (final,
       [download_command "WASP-46" "60000" "60001";
        process_command (Some "GaiaSP/R"%string); plot_command])
    /\ status final = "completed"%string
    /\ epochs_downloaded final = Some "2"%string
    /\ sample_run plot_command = CompletedProcess 1 "" "no network".
Proof. eexists. split; [vm_compute; reflexivity|]. repeat split. Qed.

(** A request with the right ascension of the target sent as the number
    0 is answered as if the field were missing, and a target name that is
    a number ends the run before any command is started. *)
Example zero_coordinate_is_rejected :
  start_pipeline sample_str_of sample_request_zero "job-1" "2025-01-01T00:00:00"
  = (BadRequest "Missing required field: target_ra", None)
  /\ exists final,
      run_pipeline sample_str_of (fun _ => "expected str"%string) (fun _ => None)
        sample_run sample_job (JInt 7) (JString "60000") (JString "60001")
        (JString "all") EmptyString
      = (final, [])
      /\ status final = "error"%string
      /\ error final = Some "expected str"%string.
Proof.
  split; [vm_compute; reflexivity|].
  eexists. split; [vm_compute; reflexivity|]. repeat split.
Qed.

Import PlotVocabulary.


(** The objects.dat written for the sample request is read and plotted. *)
Lemma plot_dss_field_reads_pipeline_objects_witness :
  exists job args,
    start_pipeline sample_str_of sample_request "job-1" "2025-01-01T00:00:00"
    = (Started "job-1", Some (job, args))
    /\ PlotDssField.plot_dss_field decimal_float (arg_objects_data args) true
       = PlotDssField.Plotted ["Target"; "Comp1"; "Comp2"]%string.
Proof.
  eexists _, _. split; [reflexivity|].
  apply (proj1 (plot_dss_field_reads_pipeline_objects sample_str_of decimal_float
                  sample_request "job-1" "2025-01-01T00:00:00" _ _ eq_refl
                  ltac:(intros field [<-|[<-|[<-|[<-|[<-|[<-|[]]]]]]];
                        eexists _, _; (split; [reflexivity|]);
                        (split; [reflexivity|]); vm_compute; reflexivity))).
Defined.

(** An objects.dat with its names in lower case is accepted by the
    reduction and ends the field plot with KeyError. *)
Example lower_case_names_are_not_plotted :
  (exists objects,
      @Main.read_objects_data sample_text object_rows_lower = Ok objects)
  /\ PlotDssField.plot_dss_field (@float_of_string sample_text)
       (objects_text object_rows_lower) true
     = PlotDssField.Failed (PlotDssField.KeyError "Target").
Proof. split; [eexists|]; vm_compute; reflexivity. Qed.

End Instances.
